(** * llm-proxy: the request-observation pipeline

    A shallow embedding of the parts of the proxy that classify a request
    (provider, user identity), capture the response written by the inner
    handler, parse token usage from it, publish the metering headers and
    hand the metadata to the registered callbacks, together with the Groq
    adapter's request director and API-key validation.

    Sources embedded here:
    - [internal/middleware/token_parsing.go]: [GetProviderFromRequest],
      [TokenParsingMiddleware], [responseCapture.Write],
      [ExtractUserIDFromRequest], [ExtractIPAddressFromRequest];
    - the logging middleware file: [isAPIEndpoint];
    - the Groq provider file: [NewGroqProxy] (director), [ValidateAPIKey];
    - [cmd/llm-proxy/main.go]: [costTrackingCallback] and the callback list.

    Go strings are byte strings and are modelled by [string]; [[]byte] by
    [list byte]; Go's [int] by [Z]; a nil interface or pointer by [None]. *)

From Stdlib Require Import ZArith Ascii String List Bool Lia.
From Stdlib Require Import Numbers.DecimalString Strings.Byte.
From stdpp Require Import base option list gmap strings.

Local Open Scope Z_scope.

(** ** Go's [strings] and [fmt] helpers used by the sources *)

Module strings.

(** [strings.HasPrefix(s, prefix)]. *)
Definition HasPrefix (s pre : string) : bool := String.prefix pre s.

(** [s[n:]], for [n <= len(s)]. *)
Fixpoint drop (n : nat) (s : string) : string :=
  match n, s with
  | O, _ => s
  | S n', String _ s' => drop n' s'
  | S _, EmptyString => EmptyString
  end.

(** [s[:n]], for [n <= len(s)]. *)
Fixpoint take (n : nat) (s : string) : string :=
  match n, s with
  | O, _ => EmptyString
  | S n', String a s' => String a (take n' s')
  | S _, EmptyString => EmptyString
  end.

(** [strings.TrimPrefix(s, prefix)]. *)
Definition TrimPrefix (s pre : string) : string :=
  if HasPrefix s pre then drop (String.length pre) s else s.

(** [strings.Contains(s, substr)]. *)
Fixpoint Contains (s sub : string) : bool :=
  HasPrefix s sub ||
  match s with
  | EmptyString => false
  | String _ s' => Contains s' sub
  end.

(** [strings.Split(s, sep)] for a one-byte separator: the pieces between
    the occurrences of [sep], always at least one piece. *)
Fixpoint Split (s : string) (sep : ascii) : list string :=
  match s with
  | EmptyString => [EmptyString]
  | String a s' =>
      if Ascii.eqb a sep then EmptyString :: Split s' sep
      else match Split s' sep with
           | piece :: rest => String a piece :: rest
           | [] => [String a EmptyString]
           end
  end.

(** [fmt.Sprintf("%d", n)]. *)
Definition Sprintf_d (n : Z) : string := NilZero.string_of_int (Z.to_int n).

End strings.

(** ** Data model *)

(** [http.Header] and [url.Values]: a key maps to the list of its values.
    Header names are identified with their canonical form. *)
Module Header.

Definition Get (h : gmap string (list string)) (key : string) : string :=
  match h !! key with
  | Some (v :: _) => v
  | _ => EmptyString
  end.

Definition Set_ (h : gmap string (list string)) (key value : string)
  : gmap string (list string) :=
  <[key := [value]]> h.

End Header.

(** The fields of [*http.Request] that the sources read or write. *)
Record Request := mkRequest {
  Method : string;
  URLScheme : string;                      (* req.URL.Scheme *)
  URLHost : string;                        (* req.URL.Host *)
  Host : string;                           (* req.Host *)
  URLPath : string;                        (* req.URL.Path *)
  URLQuery : gmap string (list string);    (* req.URL.Query() *)
  ReqHeader : gmap string (list string);   (* req.Header *)
  RemoteAddr : string;
  ctxUserID : option string  (* req.Context().Value(userIDContextKey).(string) *)
}.

(** [providers.LLMResponseMetadata]. *)
Record LLMResponseMetadata := mkMetadata {
  Model : string;
  InputTokens : Z;
  OutputTokens : Z;
  TotalTokens : Z;
  ThoughtTokens : Z;
  Provider_ : string;
  RequestID : string;
  IsStreaming : bool;
  FinishReason : string
}.

(** A Go [error] value, by its message. *)
Definition error := string.

(** The methods of the [providers.Provider] interface that the middleware
    calls.  [ParseResponseMetadata] returns Go's pair [(metadata, err)]. *)
Record Provider := mkProvider {
  GetName : string;
  UserIDFromRequest : Request -> string;
  ParseResponseMetadata :
    list Byte.byte -> bool -> option LLMResponseMetadata * option error
}.

(** [providers.ProviderManager]: the registered adapters by name, and its
    streaming detection, whose result the middleware only reads. *)
Record ProviderManager := mkManager {
  registered : gmap string Provider;
  IsStreamingRequest : Request -> bool
}.

Definition GetProvider (pm : ProviderManager) (name : string) : option Provider :=
  registered pm !! name.

(** ** Identity resolution *)

(** [ExtractIPAddressFromRequest]. *)
Definition ExtractIPAddressFromRequest (req : Request) : string :=
  let forwarded := Header.Get (ReqHeader req) "X-Forwarded-For" in
  if negb (String.eqb forwarded "") then forwarded
  else
    let realIP := Header.Get (ReqHeader req) "X-Real-IP" in
    if negb (String.eqb realIP "") then realIP
    else RemoteAddr req.

(** [ExtractUserIDFromRequest]: each [if ... return] of the source is one
    [if ... then ... else] here, in the source's order. *)
Definition ExtractUserIDFromRequest (req : Request) (provider : option Provider) : string :=
  (* Priority 0: user ID in the request context *)
  let ctx := match ctxUserID req with Some userID => userID | None => "" end in
  if negb (String.eqb ctx "") then ctx else
  (* Priority 1: user ID in the URL path for the meta prefix pattern *)
  let path := URLPath req in
  let parts := strings.Split path "/" in
  let seg :=
    if strings.HasPrefix path "/meta/" && (3 <=? Z.of_nat (length parts))
    then default "" (parts !! 2%nat) else "" in
  if negb (String.eqb seg "") then seg else
  (* Priority 2: custom user ID header *)
  let hdr := Header.Get (ReqHeader req) "X-User-ID" in
  if negb (String.eqb hdr "") then hdr else
  (* Priority 3: provider-specific extraction from the request body *)
  let body := match provider with
              | Some p => UserIDFromRequest p req
              | None => ""
              end in
  if negb (String.eqb body "") then body else
  (* Priority 4: query parameters *)
  let qry := Header.Get (URLQuery req) "llm_user_id" in
  if negb (String.eqb qry "") then qry else
  (* Priority 5: Authorization header *)
  let auth := Header.Get (ReqHeader req) "Authorization" in
  if negb (String.eqb auth "") && strings.HasPrefix auth "Bearer " then
    let token := strings.drop 7 auth in
    if 8 <? Z.of_nat (String.length token)
    then "token:" +:+ strings.take 8 token
    else "token:" +:+ token
  else
  (* Fallback to the IP address *)
  "ip:" +:+ ExtractIPAddressFromRequest req.

(** ** Provider classification *)

(** [GetProviderFromRequest].  The [switch] of the [/meta/] branch returns
    for the four known names and falls through otherwise; [fromMeta] is
    [Some result] exactly when it returns. *)
Definition GetProviderFromRequest (pm : ProviderManager) (req : Request) : option Provider :=
  let path := URLPath req in
  let parts := strings.Split path "/" in
  let fromMeta : option (option Provider) :=
    if strings.HasPrefix path "/meta/" && (4 <=? Z.of_nat (length parts)) then
      let providerName := default "" (parts !! 3%nat) in
      if String.eqb providerName "openai" then Some (GetProvider pm "openai")
      else if String.eqb providerName "anthropic" then Some (GetProvider pm "anthropic")
      else if String.eqb providerName "gemini" then Some (GetProvider pm "gemini")
      else if String.eqb providerName "groq" then Some (GetProvider pm "groq")
      else None
    else None in
  match fromMeta with
  | Some result => result
  | None =>
      (* direct provider paths *)
      if strings.HasPrefix path "/openai/" then GetProvider pm "openai"
      else if strings.HasPrefix path "/anthropic/" then GetProvider pm "anthropic"
      else if strings.HasPrefix path "/gemini/" then GetProvider pm "gemini"
      else if strings.HasPrefix path "/groq/" then GetProvider pm "groq"
      else None
  end.

(** [isAPIEndpoint]: the paths whose responses are parsed for usage (the
    same test is written inline in [TokenParsingMiddleware]). *)
Definition isAPIEndpoint (path : string) : bool :=
  strings.Contains path "/chat/completions" ||
  strings.Contains path "/completions" ||
  strings.Contains path "/messages" ||
  strings.Contains path ":generateContent" ||
  strings.Contains path ":streamGenerateContent".

(** ** The downstream response writer and the inner handler *)

(** The [http.ResponseWriter] handed to the middleware, by what it has
    received: status code, header map and body bytes, as the recorder of
    the repository's tests keeps them. *)
Record ResponseWriter := mkWriter {
  Code : Z;
  wroteHeader : bool;
  HeaderMap : gmap string (list string);
  Body : list Byte.byte
}.

(** [w.WriteHeader(statusCode)]: only the first call counts. *)
Definition WriteHeader (w : ResponseWriter) (statusCode : Z) : ResponseWriter :=
  if wroteHeader w then w
  else {| Code := statusCode; wroteHeader := true;
          HeaderMap := HeaderMap w; Body := Body w |}.

(** [w.Write(b)]: an implicit [WriteHeader(200)], then the bytes; returns
    Go's [(n, err)]. *)
Definition Write (w : ResponseWriter) (b : list Byte.byte)
  : ResponseWriter * (Z * option error) :=
  let w1 := WriteHeader w 200 in
  ({| Code := Code w1; wroteHeader := wroteHeader w1;
      HeaderMap := HeaderMap w1; Body := Body w1 ++ b |},
   (Z.of_nat (length b), None)).

(** [w.Header().Set(key, value)]. *)
Definition HeaderSet (w : ResponseWriter) (key value : string) : ResponseWriter :=
  {| Code := Code w; wroteHeader := wroteHeader w;
     HeaderMap := Header.Set_ (HeaderMap w) key value; Body := Body w |}.

(** What a handler does to the writer it is given: the calls it makes, in
    order. *)
Inductive HandlerCall :=
| CallWriteHeader (statusCode : Z)
| CallWrite (b : list Byte.byte)
| CallHeaderSet (key value : string).

(** An [http.Handler], by the calls its [ServeHTTP] makes for a request. *)
Definition Handler := Request -> list HandlerCall.

(** The bytes of the [Write] calls among [calls], call by call. *)
Definition writesOf (calls : list HandlerCall) : list (list Byte.byte) :=
  omap (fun c => match c with CallWrite b => Some b | _ => None end) calls.

(** The handler run on the writer itself (no middleware in between). *)
Definition serveDirect (w : ResponseWriter) (calls : list HandlerCall) : ResponseWriter :=
  fold_left (fun w c =>
    match c with
    | CallWriteHeader statusCode => WriteHeader w statusCode
    | CallWrite b => fst (Write w b)
    | CallHeaderSet key value => HeaderSet w key value
    end) calls w.


(** ** Response capture *)

(** [responseCapture]: the embedded writer and the capture state. *)
Record responseCapture := mkCapture {
  rcWriter : ResponseWriter;                 (* the embedded http.ResponseWriter *)
  body : list Byte.byte;                     (* *bytes.Buffer *)
  isStreaming : bool;
  provider : option Provider;
  lastMetadata : option LLMResponseMetadata;
  lastParsedPos : Z
}.

(** [responseCapture.Write]. *)
Definition responseCapture_Write (rc : responseCapture) (b : list Byte.byte)
  : responseCapture * (Z * option error) :=
  (* rc.body.Write(b) *)
  let allData := body rc ++ b in
  let '(lastMetadata', lastParsedPos') :=
    match provider rc with
    | Some p =>
        if isStreaming rc && (lastParsedPos rc <? Z.of_nat (length allData)) then
          let '(metadata, err) := ParseResponseMetadata p allData true in
          (match err, metadata with
           | None, Some m => Some m
           | _, _ => lastMetadata rc
           end,
           Z.of_nat (length allData))
        else (lastMetadata rc, lastParsedPos rc)
    | None => (lastMetadata rc, lastParsedPos rc)
    end in
  (* return rc.ResponseWriter.Write(b) *)
  let '(w', result) := Write (rcWriter rc) b in
  ({| rcWriter := w'; body := allData; isStreaming := isStreaming rc;
      provider := provider rc; lastMetadata := lastMetadata';
      lastParsedPos := lastParsedPos' |}, result).

(** The embedded writer's other methods are promoted unchanged. *)
Definition withWriter (rc : responseCapture) (w : ResponseWriter) : responseCapture :=
  {| rcWriter := w; body := body rc; isStreaming := isStreaming rc;
     provider := provider rc; lastMetadata := lastMetadata rc;
     lastParsedPos := lastParsedPos rc |}.

(** [next.ServeHTTP(captureWriter, r)]: the handler's calls, made on the
    capture. *)
Definition serveCapture (rc : responseCapture) (calls : list HandlerCall) : responseCapture :=
  fold_left (fun rc c =>
    match c with
    | CallWriteHeader statusCode => withWriter rc (WriteHeader (rcWriter rc) statusCode)
    | CallWrite b => fst (responseCapture_Write rc b)
    | CallHeaderSet key value => withWriter rc (HeaderSet (rcWriter rc) key value)
    end) calls rc.

(** ** Token parsing middleware *)

(** [MetadataCallback]: a callback acts on the state [World] it closes
    over (for cost tracking, the tracker). *)
Definition MetadataCallback (World : Type) : Type :=
  Request -> LLMResponseMetadata -> World -> World.

(** The metadata the middleware works with once the handler has returned
    (the [if isStreaming && captureWriter.lastMetadata != nil ... else ...]
    of the source), as Go's pair [(metadata, err)]. *)
Definition finalMetadata (isStreaming : bool) (captureWriter : responseCapture)
    (p : Provider) : option LLMResponseMetadata * option error :=
  match isStreaming, lastMetadata captureWriter with
  | true, Some m => (Some m, None)
  | _, _ => ParseResponseMetadata p (body captureWriter) isStreaming
  end.

(** The seven [w.Header().Set] calls of the source. *)
Definition setMeteringHeaders (w : ResponseWriter) (metadata : LLMResponseMetadata)
  : ResponseWriter :=
  let w := HeaderSet w "X-LLM-Input-Tokens" (strings.Sprintf_d (InputTokens metadata)) in
  let w := HeaderSet w "X-LLM-Output-Tokens" (strings.Sprintf_d (OutputTokens metadata)) in
  let w := HeaderSet w "X-LLM-Total-Tokens" (strings.Sprintf_d (TotalTokens metadata)) in
  let w := HeaderSet w "X-LLM-Thought-Tokens" (strings.Sprintf_d (ThoughtTokens metadata)) in
  let w := HeaderSet w "X-LLM-Provider" (Provider_ metadata) in
  let w := HeaderSet w "X-LLM-Model" (Model metadata) in
  if negb (String.eqb (RequestID metadata) "")
  then HeaderSet w "X-LLM-Request-ID" (RequestID metadata)
  else w.

(** [for _, callback := range callbacks { if callback != nil { ... } }]. *)
Definition runCallbacks {World : Type}
    (callbacks : list (option (MetadataCallback World)))
    (r : Request) (metadata : LLMResponseMetadata) (world : World) : World :=
  fold_left (fun world callback =>
    match callback with
    | Some cb => cb r metadata world
    | None => world
    end) callbacks world.

(** [captureWriter] when [next.ServeHTTP(captureWriter, r)] has returned:
    the capture the middleware creates around [w], after the handler's
    calls. *)
Definition captured (pm : ProviderManager) (next : Handler)
    (w : ResponseWriter) (r : Request) : responseCapture :=
  let provider := GetProviderFromRequest pm r in
  let isStreaming := IsStreamingRequest pm r in
  let captureWriter :=
    {| rcWriter := w; body := []; isStreaming := isStreaming;
       provider := provider; lastMetadata := None; lastParsedPos := 0 |} in
  serveCapture captureWriter (next r).

(** [TokenParsingMiddleware(providerManager, callbacks...)(next)] serving
    request [r] on writer [w]: the writer and the callbacks' state when it
    returns.  Logging is left out. *)
Definition TokenParsingMiddleware {World : Type} (pm : ProviderManager)
    (callbacks : list (option (MetadataCallback World))) (next : Handler)
    (w : ResponseWriter) (r : Request) (world : World) : ResponseWriter * World :=
  let provider := GetProviderFromRequest pm r in
  let isStreaming := IsStreamingRequest pm r in
  let captureWriter := captured pm next w r in
  (* [w] and the capture's embedded writer are one object *)
  let w := rcWriter captureWriter in
  match provider with
  | Some p =>
      if isAPIEndpoint (URLPath r) then
        match finalMetadata isStreaming captureWriter p with
        | (_, Some err) => (w, world)
        | (Some metadata, None) =>
            (setMeteringHeaders w metadata, runCallbacks callbacks r metadata world)
        | (None, None) => (w, world)
        end
      else (w, world)
  | None => (w, world)
  end.

(** ** Cost tracking callback *)

(** One call of the cost tracker's [TrackRequest]. *)
Record TrackedRequest := mkTracked {
  trMetadata : LLMResponseMetadata;
  trUserID : string;
  trIPAddress : string;
  trRequestPath : string
}.

(** Modelled from the spec: [cost.CostTracker] and its [TrackRequest] are not
    among the sources.  The sink is modelled by the usage records handed to
    it, in order ("receives a completed UsageRecord per tracked request");
    pricing and the transports are left out. *)
Definition TrackRequest (tracker : list TrackedRequest)
    (metadata : LLMResponseMetadata) (userID ipAddress requestPath : string)
  : list TrackedRequest * option error :=
  (tracker ++ [mkTracked metadata userID ipAddress requestPath], None).

(** [costTrackingCallback] of [runServer]. *)
Definition costTrackingCallback (pm : ProviderManager)
  : MetadataCallback (list TrackedRequest) :=
  fun r metadata tracker =>
    if 0 <? TotalTokens metadata then
      let provider := GetProviderFromRequest pm r in
      let userID := ExtractUserIDFromRequest r provider in
      let ipAddress := ExtractIPAddressFromRequest r in
      fst (TrackRequest tracker metadata userID ipAddress (URLPath r))
    else tracker.

(** The callback list [runServer] passes to the middleware;
    [costTracking] stands for [globalCostTracker != nil]. *)
Definition serverCallbacks (costTracking : bool) (pm : ProviderManager)
  : list (option (MetadataCallback (list TrackedRequest))) :=
  if costTracking then [Some (costTrackingCallback pm)] else [].

(** ** Groq adapter *)

(** A decoded JSON value, as [json.Unmarshal] stores it in an
    [interface{}]: [nil], [bool], a number (kept as its literal), [string],
    [[]interface{}] or [map[string]interface{}]. *)
#[warnings="-register-all"]
Inductive JSON :=
| JNull
| JBool (b : bool)
| JNumber (literal : string)
| JString (s : string)
| JArray (items : list JSON)
| JObject (fields : gmap string JSON).

(** What the Groq adapter uses to look into a request body: whether the
    request has one ([req.Body != nil]), the OpenAI adapter's
    [readRequestBodyForUserID] (not among the sources; it returns Go's
    [(bodyBytes, err)]), and [json.Unmarshal] into a
    [map[string]interface{}] ([None] when it returns an error). *)
Record BodyReader := mkBodyReader {
  bodyPresent : Request -> bool;
  readRequestBodyForUserID : Request -> list Byte.byte * option error;
  jsonUnmarshal : list Byte.byte -> option (gmap string JSON)
}.

Module Groq.

Definition groqBaseURLScheme : string := "https".
Definition groqBaseURLHost : string := "api.groq.com".

Definition GetName : string := "groq".

Definition withPath (req : Request) (path : string) : Request :=
  {| Method := Method req; URLScheme := URLScheme req; URLHost := URLHost req;
     Host := Host req; URLPath := path; URLQuery := URLQuery req;
     ReqHeader := ReqHeader req; RemoteAddr := RemoteAddr req;
     ctxUserID := ctxUserID req |}.

Definition withHeader (req : Request) (h : gmap string (list string)) : Request :=
  {| Method := Method req; URLScheme := URLScheme req; URLHost := URLHost req;
     Host := Host req; URLPath := URLPath req; URLQuery := URLQuery req;
     ReqHeader := h; RemoteAddr := RemoteAddr req;
     ctxUserID := ctxUserID req |}.

(** Modelled from the spec: [CreateGenericDirector] is not among the
    sources.  "A generic director sets scheme/host/path-strip": the request
    is pointed at the upstream and the [/<provider>] path prefix is
    stripped; body and headers are left as they are. *)
Definition CreateGenericDirector (providerName targetScheme targetHost : string)
    (req : Request) : Request :=
  {| Method := Method req; URLScheme := targetScheme; URLHost := targetHost;
     Host := targetHost;
     URLPath := strings.TrimPrefix (URLPath req) ("/" +:+ providerName);
     URLQuery := URLQuery req; ReqHeader := ReqHeader req;
     RemoteAddr := RemoteAddr req; ctxUserID := ctxUserID req |}.

(** The [proxy.Director] closure of [NewGroqProxy], over its base
    director. *)
Definition Director (baseDirector : Request -> Request) (req : Request) : Request :=
  let req := baseDirector req in
  if negb (strings.HasPrefix (URLPath req) "/openai/")
  then withPath req ("/openai" +:+ URLPath req)
  else req.

(** The director [NewGroqProxy] installs. *)
Definition proxyDirector : Request -> Request :=
  Director (CreateGenericDirector GetName groqBaseURLScheme groqBaseURLHost).

(** [APIKeyStore.ValidateAndGetActualKey(ctx, apiKey)], returning Go's
    [(actualKey, provider, err)]. *)
Definition APIKeyStore := string -> string * string * option error.

(** [GroqProxy.ValidateAPIKey]: the request as the call leaves it, and the
    returned error. *)
Definition ValidateAPIKey (req : Request) (keyStore : APIKeyStore)
  : Request * option error :=
  let authHeader := Header.Get (ReqHeader req) "Authorization" in
  if String.eqb authHeader "" then (req, None) else
  let bearerPrefix := "Bearer " in
  if negb (strings.HasPrefix authHeader bearerPrefix) then (req, None) else
  let apiKey := strings.TrimPrefix authHeader bearerPrefix in
  let '(actualKey, provider, err) := keyStore apiKey in
  match err with
  | Some e => (req, Some ("API key validation failed: " +:+ e))
  | None =>
      if negb (String.eqb provider "") && negb (String.eqb provider GetName)
      then (req, Some ("API key is for provider " +:+ provider +:+ ", not " +:+ GetName))
      else if negb (String.eqb actualKey apiKey)
      then (withHeader req
              (Header.Set_ (ReqHeader req) "Authorization" (bearerPrefix +:+ actualKey)),
            None)
      else (req, None)
  end.

(** The line feed and the double quote of the error frames. *)
Definition LF : string := String "010"%char EmptyString.
Definition DQ : string := String "034"%char EmptyString.

(** [GroqProxy.isStreamingResponse], on the response header. *)
Definition isStreamingResponse (header : gmap string (list string)) : bool :=
  strings.Contains (Header.Get header "Content-Type") "text/event-stream".

(** The [proxy.ModifyResponse] closure of [NewGroqProxy]: the response
    header as it leaves it (the closure always returns a nil error and
    touches nothing but the header). *)
Definition ModifyResponse (header : gmap string (list string))
  : gmap string (list string) :=
  if isStreamingResponse header then
    let header := Header.Set_ header "Cache-Control" "no-cache" in
    let header := Header.Set_ header "Connection" "keep-alive" in
    let header := Header.Set_ header "X-Accel-Buffering" "no" in
    delete "Content-Length" header
  else header.

(** [GroqProxy.IsStreamingRequest]; [checkStreamingInBody] is the OpenAI
    adapter's body check, not among the sources. *)
Definition IsStreamingRequest (checkStreamingInBody : Request -> bool)
    (req : Request) : bool :=
  if strings.Contains (Header.Get (ReqHeader req) "Accept") "text/event-stream"
  then true
  else if negb (strings.HasPrefix (URLPath req) "/groq/") then false
  else if String.eqb (Method req) "POST"
          && (strings.Contains (URLPath req) "/chat/completions"
              || strings.Contains (URLPath req) "/completions"
              || strings.Contains (URLPath req) "/responses")
  then checkStreamingInBody req
  else false.

(** The [proxy.ErrorHandler] closure of [NewGroqProxy]: the writer as it
    leaves it for the transport error [err]. *)
Definition ErrorHandler (checkStreamingInBody : Request -> bool)
    (w : ResponseWriter) (r : Request) (err : error) : ResponseWriter :=
  if IsStreamingRequest checkStreamingInBody r then
    if String.eqb (Header.Get (HeaderMap w) "Content-Type") "" then
      let w := HeaderSet w "Content-Type" "text/event-stream" in
      let w := HeaderSet w "Cache-Control" "no-cache" in
      let w := WriteHeader w 502 in
      let w := fst (Write w (String.list_byte_of_string
                      ("data: {" +:+ DQ +:+ "error" +:+ DQ +:+ ": " +:+ DQ
                       +:+ "Proxy error: " +:+ err +:+ DQ +:+ "}" +:+ LF +:+ LF))) in
      fst (Write w (String.list_byte_of_string ("data: [DONE]" +:+ LF +:+ LF)))
    else w
  else
    let w := WriteHeader w 502 in
    fst (Write w (String.list_byte_of_string ("Groq proxy error: " +:+ err))).

(** [GroqProxy.ParseResponseMetadata], over the OpenAI adapter's parser
    [parser] (not among the sources). *)
Definition ParseResponseMetadata
    (parser : list Byte.byte -> bool -> option LLMResponseMetadata * option error)
    (responseBody : list Byte.byte) (isStreaming : bool)
  : option LLMResponseMetadata * option error :=
  let '(metadata, err) := parser responseBody isStreaming in
  (match metadata with
   | Some m =>
       Some {| Model := Model m; InputTokens := InputTokens m;
               OutputTokens := OutputTokens m; TotalTokens := TotalTokens m;
               ThoughtTokens := ThoughtTokens m; Provider_ := GetName;
               RequestID := RequestID m; IsStreaming := IsStreaming m;
               FinishReason := FinishReason m |}
   | None => None
   end, err).

(** [GroqProxy.UserIDFromRequest]. *)
Definition UserIDFromRequest (env : BodyReader) (req : Request) : string :=
  if negb (bodyPresent env req) || negb (String.eqb (Method req) "POST") then ""
  else if negb (strings.HasPrefix (URLPath req) "/groq/") then ""
  else
    let '(bodyBytes, err) := readRequestBodyForUserID env req in
    match err with
    | Some _ => ""
    | None =>
        if Z.of_nat (length bodyBytes) =? 0 then ""
        else
          match jsonUnmarshal env bodyBytes with
          | None => ""
          | Some data =>
              match data !! "user" with
              | Some (JString userValue) =>
                  if negb (String.eqb userValue "") then userValue else ""
              | _ => ""
              end
          end
    end.

(** The texts one element of a [content] array contributes. *)
Definition textOfPart (p : JSON) : list string :=
  match p with
  | JObject pm =>
      match pm !! "type" with
      | Some (JString t) =>
          if String.eqb t "text" then
            match pm !! "text" with
            | Some (JString txt) => if negb (String.eqb txt "") then [txt] else []
            | _ => []
            end
          else []
      | _ => []
      end
  | _ => []
  end.

(** The texts one element of [messages] contributes: its [content] when
    that is a non-empty string, else the text parts of a [content] array. *)
Definition textsOfMessage (m : JSON) : list string :=
  match m with
  | JObject msg =>
      match msg !! "content" with
      | Some (JString contentStr) =>
          if negb (String.eqb contentStr "") then [contentStr] else []
      | Some (JArray parts) => flat_map textOfPart parts
      | _ => []
      end
  | _ => []
  end.

(** The texts one element of an [input] array contributes. *)
Definition textOfInput (it : JSON) : list string :=
  match it with
  | JObject m =>
      match m !! "type" with
      | Some (JString t) =>
          if String.eqb t "input_text" || String.eqb t "text" then
            match m !! "text" with
            | Some (JString txt) => if negb (String.eqb txt "") then [txt] else []
            | _ => []
            end
          else []
      | _ => []
      end
  | JString s => if negb (String.eqb s "") then [s] else []
  | _ => []
  end.

(** [GroqProxy.ExtractRequestModelAndMessages], for a non-nil request. *)
Definition ExtractRequestModelAndMessages (env : BodyReader) (req : Request)
  : string * list string :=
  if negb (String.eqb (Method req) "POST")
     || negb (strings.HasPrefix (URLPath req) "/groq/") then ("", [])
  else
    let '(bodyBytes, err) := readRequestBodyForUserID env req in
    match err with
    | Some _ => ("", [])
    | None =>
        if Z.of_nat (length bodyBytes) =? 0 then ("", [])
        else
          match jsonUnmarshal env bodyBytes with
          | None => ("", [])
          | Some data =>
              let model := match data !! "model" with
                           | Some (JString mv) => mv
                           | _ => ""
                           end in
              let messages : list string := [] in
              let messages :=
                match data !! "messages" with
                | Some (JArray rawMsgs) => messages ++ flat_map textsOfMessage rawMsgs
                | _ => messages
                end in
              let messages :=
                match data !! "input" with
                | Some (JString inputStr) =>
                    if negb (String.eqb inputStr "") then messages ++ [inputStr]
                    else messages
                | Some (JArray inputArr) => messages ++ flat_map textOfInput inputArr
                | _ => messages
                end in
              let messages :=
                match data !! "prompt" with
                | Some (JString prompt) =>
                    if negb (String.eqb prompt "") then messages ++ [prompt]
                    else messages
                | _ => messages
                end in
              (model, messages)
          end
    end.

(** The Groq adapter as a [Provider]. *)
Definition asProvider (env : BodyReader)
    (parser : list Byte.byte -> bool -> option LLMResponseMetadata * option error)
  : Provider :=
  mkProvider GetName (UserIDFromRequest env) (ParseResponseMetadata parser).

End Groq.

(** ** Logging middleware *)

(** [isProviderRoute]. *)
Definition isProviderRoute (path : string) : bool :=
  strings.HasPrefix path "/openai/" ||
  strings.HasPrefix path "/anthropic/" ||
  strings.HasPrefix path "/gemini/" ||
  strings.HasPrefix path "/groq/".

(** [getProviderFromPath]. *)
Definition getProviderFromPath (path : string) : string :=
  if strings.HasPrefix path "/openai/" then "openai"
  else if strings.HasPrefix path "/anthropic/" then "anthropic"
  else if strings.HasPrefix path "/gemini/" then "gemini"
  else if strings.HasPrefix path "/groq/" then "groq"
  else "".

(** [slog.Level]. *)
Inductive Level := LevelDebug | LevelInfo | LevelWarn | LevelError.

(** The value of a [slog.Attr]. *)
Inductive AttrValue :=
| AttrString (s : string)
| AttrBool (b : bool)
| AttrDuration (d : Z).

(** One call of [slog.Info], [slog.Warn] or [slog.Log]. *)
Record LogRecord := mkLog {
  logLevel : Level;
  logMessage : string;
  logAttrs : list (string * AttrValue)
}.

(** [LoggingMiddleware(providerManager)(next)] serving request [r] on
    writer [w]: the writer and the log when it returns.  [duration] is what
    [time.Since(start)] returns after the handler. *)
Definition LoggingMiddleware (pm : ProviderManager) (next : Handler)
    (duration : Z) (w : ResponseWriter) (r : Request) (log : list LogRecord)
  : ResponseWriter * list LogRecord :=
  let isStreaming := IsStreamingRequest pm r in
  let isProvRoute := isProviderRoute (URLPath r) in
  let isAPIEndpt := isAPIEndpoint (URLPath r) in
  let provider := GetProviderFromRequest pm r in
  let providerName := getProviderFromPath (URLPath r) in
  let providerFound := match provider with Some _ => true | None => false end in
  let willBeTracked := isProvRoute && isAPIEndpt && providerFound in
  let log :=
    log ++ [if isStreaming
            then mkLog LevelInfo "Started streaming request"
                   [("method", AttrString (Method r)); ("path", AttrString (URLPath r));
                    ("remote_addr", AttrString (RemoteAddr r)); ("streaming", AttrBool true)]
            else mkLog LevelInfo "Started request"
                   [("method", AttrString (Method r)); ("path", AttrString (URLPath r));
                    ("remote_addr", AttrString (RemoteAddr r)); ("streaming", AttrBool false)]] in
  let log :=
    if isProvRoute && negb willBeTracked then
      let '(reason, level) :=
        if negb providerFound && negb (String.eqb providerName "")
        then ("Provider not found", LevelError)
        else if negb isAPIEndpt then ("Non-API endpoint", LevelInfo)
        else ("Unknown reason", LevelWarn) in
      log ++ [mkLog level "Non-tracked provider route"
                [("method", AttrString (Method r)); ("path", AttrString (URLPath r));
                 ("provider", AttrString providerName); ("reason", AttrString reason);
                 ("api_endpoint", AttrBool isAPIEndpt);
                 ("provider_found", AttrBool providerFound)]]
    else log in
  (* next.ServeHTTP(w, r) *)
  let w := serveDirect w (next r) in
  let log :=
    log ++ [if isStreaming
            then mkLog LevelInfo "Completed streaming request"
                   [("method", AttrString (Method r)); ("path", AttrString (URLPath r));
                    ("duration", AttrDuration duration); ("streaming", AttrBool true)]
            else mkLog LevelInfo "Completed request"
                   [("method", AttrString (Method r)); ("path", AttrString (URLPath r));
                    ("duration", AttrDuration duration); ("streaming", AttrBool false)]] in
  let log :=
    if isProvRoute then
      log ++ [if willBeTracked
              then mkLog LevelInfo "Provider route tracked"
                     [("method", AttrString (Method r)); ("path", AttrString (URLPath r));
                      ("cost_tracked", AttrBool true)]
              else mkLog LevelWarn "Provider route not tracked"
                     [("method", AttrString (Method r)); ("path", AttrString (URLPath r));
                      ("cost_tracked", AttrBool false)]]
    else log in
  (w, log).

(** ** Debug preview of an unparsed response *)

(** [min]. *)
Definition min (a b : Z) : Z := if a <? b then a else b.

(** [b[:n]] on bytes, for [0 <= n <= len(b)]. *)
Definition slice_to (b : list Byte.byte) (n : Z) : list Byte.byte :=
  firstn (Z.to_nat n) b.

(** The gzip magic number test [len(b) >= 2 && b[0] == 0x1f && b[1] == 0x8b]. *)
Definition hasGzipMagic (b : list Byte.byte) : bool :=
  match b with
  | b0 :: b1 :: _ => Byte.eqb b0 Byte.x1f && Byte.eqb b1 Byte.x8b
  | _ => false
  end.

(** [decompressForPreview]; [NewReader] and [ReadAll] stand for
    [gzip.NewReader] and [io.ReadAll] on the reader it returns. *)
Definition decompressForPreview {Reader : Type}
    (NewReader : list Byte.byte -> Reader + error)
    (ReadAll : Reader -> list Byte.byte * option error)
    (data : list Byte.byte) : option (list Byte.byte) * option error :=
  if negb (hasGzipMagic data) then (None, Some "not gzip compressed")
  else
    match NewReader data with
    | inr err => (None, Some ("failed to create gzip reader: " +:+ err))
    | inl gzipReader =>
        let '(decompressed, err) := ReadAll gzipReader in
        match err with
        | Some e => (None, Some ("failed to decompress data: " +:+ e))
        | None => (Some decompressed, None)
        end
    end.

(** What the middleware logs about the body when parsing failed (the
    [if captureWriter.body.Len() > 0] block of the error branch): the
    message, without its [Debug:] prefix, and the bytes it shows, if any. *)
Definition responsePreview {Reader : Type}
    (NewReader : list Byte.byte -> Reader + error)
    (ReadAll : Reader -> list Byte.byte * option error)
    (bodyBytes : list Byte.byte) : option (string * list Byte.byte) :=
  if 0 <? Z.of_nat (length bodyBytes) then
    let previewBytes := slice_to bodyBytes (min 200 (Z.of_nat (length bodyBytes))) in
    if hasGzipMagic previewBytes then
      match decompressForPreview NewReader ReadAll bodyBytes with
      | (decompressed, None) =>
          let decompressed := default [] decompressed in
          let previewLen := min 200 (Z.of_nat (length decompressed)) in
          Some ("Response body is gzip compressed, decompressed preview",
                slice_to decompressed previewLen)
      | (_, Some err) =>
          Some ("Response body is gzip compressed (failed to decompress for preview): "
                +:+ err, [])
      end
    else Some ("Response body preview", previewBytes)
  else None.

(** * The specification's wording *)

(** ** Identity: the priority order *)

(** The first non-empty string of a list, [""] when there is none. *)
Fixpoint first_nonempty (candidates : list string) : string :=
  match candidates with
  | [] => ""
  | c :: rest => if String.eqb c "" then first_nonempty rest else c
  end.

(** The text of [s] up to its first [sep] (all of [s] when it has none). *)
Fixpoint upto (sep : ascii) (s : string) : string :=
  match s with
  | EmptyString => EmptyString
  | String a s' => if Ascii.eqb a sep then EmptyString else String a (upto sep s')
  end.

(** The [<userID>] of a path [/meta/<userID>/...]: what follows [/meta/],
    up to the next slash. *)
Definition metaUserSegment (path : string) : string :=
  if strings.HasPrefix path "/meta/" then upto "/" (strings.drop 6 path) else "".

(** The bearer token of an [Authorization: Bearer <token>] header, cut to
    its first 8 bytes and prefixed. *)
Definition bearerIdentity (req : Request) : string :=
  let auth := Header.Get (ReqHeader req) "Authorization" in
  if strings.HasPrefix auth "Bearer "
  then "token:" +:+ strings.take 8 (strings.drop 7 auth)
  else "".

(** The identities a request offers before the IP fallback, by priority. *)
Definition identityCandidates (req : Request) (provider : option Provider) : list string :=
  [ default "" (ctxUserID req);
    metaUserSegment (URLPath req);
    Header.Get (ReqHeader req) "X-User-ID";
    from_option (fun p => UserIDFromRequest p req) "" provider;
    Header.Get (URLQuery req) "llm_user_id";
    bearerIdentity req ].

(** The priority order once more, written out with the standard library's
    [prefix] and [substring] alone: what follows [/meta/] up to the next
    slash, the token behind [Bearer ] cut to its first 8 bytes, and as the
    client IP address the first non-empty of [X-Forwarded-For], [X-Real-IP]
    and the remote address. *)
Definition textAfter (n : nat) (s : string) : string :=
  String.substring n (String.length s - n) s.

Definition clientAddress (req : Request) : string :=
  first_nonempty [Header.Get (ReqHeader req) "X-Forwarded-For";
                  Header.Get (ReqHeader req) "X-Real-IP";
                  RemoteAddr req].

Definition identityByPriority (req : Request) (provider : option Provider) : string :=
  let path := URLPath req in
  let auth := Header.Get (ReqHeader req) "Authorization" in
  first_nonempty
    [ match ctxUserID req with Some userID => userID | None => "" end;
      if String.prefix "/meta/" path then upto "/" (textAfter 6 path) else "";
      Header.Get (ReqHeader req) "X-User-ID";
      match provider with Some p => UserIDFromRequest p req | None => "" end;
      Header.Get (URLQuery req) "llm_user_id";
      if String.prefix "Bearer " auth
      then "token:" +:+ String.substring 0 8 (textAfter 7 auth)
      else "";
      "ip:" +:+ clientAddress req ].

(** ** Provider classification by path *)

(** The text of [s] after its first [sep]; [None] when it has none. *)
Fixpoint after (sep : ascii) (s : string) : option string :=
  match s with
  | EmptyString => None
  | String a s' => if Ascii.eqb a sep then Some s' else after sep s'
  end.

Definition providerNames : list string := ["openai"; "anthropic"; "gemini"; "groq"].

Definition isProviderName (p : string) : bool := existsb (String.eqb p) providerNames.

(** The [<p>] of a path [/meta/<u>/<p>] followed by a slash or by the end
    of the path. *)
Definition metaProviderSegment (path : string) : option string :=
  if strings.HasPrefix path "/meta/" then
    match after "/" (strings.drop 6 path) with
    | Some rest => Some (upto "/" rest)
    | None => None
    end
  else None.

(** The [<p>] of a path that begins with [/meta/<u>/<p>/]: the slash after
    [<p>] is required. *)
Definition metaProviderSegmentSlash (path : string) : option string :=
  if strings.HasPrefix path "/meta/" then
    match after "/" (strings.drop 6 path) with
    | Some rest =>
        match after "/" rest with
        | Some _ => Some (upto "/" rest)
        | None => None
        end
    | None => None
    end
  else None.

(** The [<p>] of a path that begins with [/<p>/]. *)
Definition firstSegment (path : string) : option string :=
  if strings.HasPrefix path "/" then
    match after "/" (strings.drop 1 path) with
    | Some _ => Some (upto "/" (strings.drop 1 path))
    | None => None
    end
  else None.

(** [provider_for_request]: the provider named by the meta segment, else
    the one named by the first segment, else none.  [metaSegment] is the
    reading of the meta pattern. *)
Definition provider_for_request (metaSegment : string -> option string)
    (pm : ProviderManager) (path : string) : option Provider :=
  match metaSegment path with
  | Some p =>
      if isProviderName p then GetProvider pm p
      else None
  | None =>
      match firstSegment path with
      | Some p => if isProviderName p then GetProvider pm p else None
      | None => None
      end
  end.

(** ** Response capture: the retained streaming metadata *)

(** A streaming parse that succeeded with a non-nil result. *)
Definition parsedStreaming (p : Provider) (buffer : list Byte.byte)
  : option LLMResponseMetadata :=
  match ParseResponseMetadata p buffer true with
  | (Some m, None) => Some m
  | _ => None
  end.

(** The capture buffer after each write, paired with that write. *)
Fixpoint cumulative (buffer : list Byte.byte) (writes : list (list Byte.byte))
  : list (list Byte.byte * list Byte.byte) :=
  match writes with
  | [] => []
  | b :: rest => (b, buffer ++ b) :: cumulative (buffer ++ b) rest
  end.

(** One step of "keep the latest successful parse". *)
Definition keepLatest (acc : option LLMResponseMetadata)
    (o : option LLMResponseMetadata) : option LLMResponseMetadata :=
  match o with
  | Some m => Some m
  | None => acc
  end.

(** What the parse after one write yields: nothing for a write that adds
    no byte, else the streaming parse of the cumulative buffer. *)
Definition parsedOnWrite (p : Provider) (wb : list Byte.byte * list Byte.byte)
  : option LLMResponseMetadata :=
  match wb with
  | ([], _) => None
  | (_ :: _, buffer) => parsedStreaming p buffer
  end.

(** The most recent successful streaming parse of the cumulative buffer,
    over the writes that added bytes. *)
Definition retainedMetadata (p : Provider) (writes : list (list Byte.byte))
  : option LLMResponseMetadata :=
  fold_left keepLatest (map (parsedOnWrite p) (cumulative [] writes)) None.

(** The metadata handed on when the response ends: for a stream the
    retained metadata if there is one; otherwise the result of one parse of
    the whole buffer, when it succeeds with a non-nil result. *)
Definition deliveredMetadata (p : Provider) (streaming : bool)
    (writes : list (list Byte.byte)) : option LLMResponseMetadata :=
  match (if streaming then retainedMetadata p writes else None) with
  | Some m => Some m
  | None =>
      match ParseResponseMetadata p (concat writes) streaming with
      | (Some m, None) => Some m
      | _ => None
      end
  end.

(** The names of the metering headers. *)
Definition meteringHeaders : list string :=
  ["X-LLM-Input-Tokens"; "X-LLM-Output-Tokens"; "X-LLM-Total-Tokens";
   "X-LLM-Thought-Tokens"; "X-LLM-Provider"; "X-LLM-Model"; "X-LLM-Request-ID"].

(** * Concrete requests, providers and handlers *)

Definition bytes (s : string) : list Byte.byte := String.list_byte_of_string s.

(** The metadata of the OpenAI unary scenario. *)
Definition scenarioMetadata : LLMResponseMetadata :=
  {| Model := "gpt-4o-mini"; InputTokens := 7; OutputTokens := 5;
     TotalTokens := 12; ThoughtTokens := 0; Provider_ := "openai";
     RequestID := "chatcmpl-1"; IsStreaming := false; FinishReason := "stop" |}.

(** A provider whose parser answers every body with [metadata] (the mock of
    the middleware tests with [parseShouldFail] unset). *)
Definition mockProvider (name : string) (metadata : LLMResponseMetadata) : Provider :=
  {| GetName := name;
     UserIDFromRequest := fun _ => "";
     ParseResponseMetadata := fun _ _ => (Some metadata, None) |}.

(** The mock of the middleware tests with [parseShouldFail] set. *)
Definition failingProvider (name : string) (parseError : error) : Provider :=
  {| GetName := name;
     UserIDFromRequest := fun _ => "";
     ParseResponseMetadata := fun _ _ => (None, Some parseError) |}.

(** A provider whose streaming parser reports usage once the buffer holds
    the [[DONE]] sentinel, and fails on shorter buffers. *)
Definition sentinelProvider (name : string) (metadata : LLMResponseMetadata) : Provider :=
  {| GetName := name;
     UserIDFromRequest := fun _ => "";
     ParseResponseMetadata := fun buffer _ =>
       if strings.Contains (String.string_of_list_byte buffer) "[DONE]"
       then (Some metadata, None)
       else (None, Some "unexpected end of stream") |}.

Definition managerOf (p : Provider) (streaming : bool) : ProviderManager :=
  {| registered := {[ GetName p := p ]}; IsStreamingRequest := fun _ => streaming |}.

(** [httptest.NewRequest(method, path, nil)] with the given headers. *)
Definition newRequest (method path : string) (header : gmap string (list string))
  : Request :=
  {| Method := method; URLScheme := ""; URLHost := ""; Host := "example.com";
     URLPath := path; URLQuery := ∅; ReqHeader := header;
     RemoteAddr := "192.0.2.1:1234"; ctxUserID := None |}.

(** A request value that carries no remote address. *)
Definition requestWithoutAddress : Request :=
  {| Method := "GET"; URLScheme := ""; URLHost := ""; Host := "";
     URLPath := "/test"; URLQuery := ∅; ReqHeader := ∅;
     RemoteAddr := ""; ctxUserID := None |}.

(** [httptest.NewRecorder()]. *)
Definition newRecorder : ResponseWriter :=
  {| Code := 200; wroteHeader := false; HeaderMap := ∅; Body := [] |}.

(** A handler that answers 200 with one write of [text]. *)
Definition respond (text : string) : Handler :=
  fun _ => [CallWriteHeader 200; CallWrite (bytes text)].

(** A handler that streams two frames, the second one the sentinel. *)
Definition streamTwoFrames : Handler :=
  fun _ => [CallWriteHeader 200;
            CallWrite (bytes "data: delta");
            CallWrite (bytes "data: [DONE]")].

(** A callback that records the metadata it is given. *)
Definition recordingCallback : MetadataCallback (list LLMResponseMetadata) :=
  fun _ metadata seen => seen ++ [metadata].

(** A key store that knows no key. *)
Definition emptyKeyStore : Groq.APIKeyStore :=
  fun _ => ("", "", Some "API key not found").

(** A key store that maps the opaque key [iw:abcd1234] to an actual key
    bound to [boundProvider], and leaves other keys as they are. *)
Definition translatingKeyStore (boundProvider : string) : Groq.APIKeyStore :=
  fun apiKey =>
    if String.eqb apiKey "iw:abcd1234" then ("gsk-actual", boundProvider, None)
    else (apiKey, "", None).

(** An OpenAI parser that answers every body with the scenario's
    metadata (whose provider field says [openai]). *)
Definition openAIParserStub
  : list Byte.byte -> bool -> option LLMResponseMetadata * option error :=
  fun _ _ => (Some scenarioMetadata, None).

(** Requests without body. *)
Definition noBody : BodyReader :=
  {| bodyPresent := fun _ => false;
     readRequestBodyForUserID := fun _ => ([], None);
     jsonUnmarshal := fun _ => None |}.

(** Requests whose body decodes to [data]. *)
Definition decodedBody (data : gmap string JSON) : BodyReader :=
  {| bodyPresent := fun _ => true;
     readRequestBodyForUserID := fun _ => (bytes "{...}", None);
     jsonUnmarshal := fun _ => Some data |}.

(** A chat request body with two messages and a user. *)
Definition chatBody : gmap string JSON :=
  {[ "model" := JString "llama-3.1-8b-instant";
     "user" := JString "body-user";
     "messages" :=
       JArray [JObject {[ "role" := JString "system"; "content" := JString "be brief" ]};
               JObject {[ "role" := JString "user"; "content" := JString "hi" ]}] ]}.

(** A gzip implementation that cannot read anything. *)
Definition brokenGzip : list Byte.byte -> unit + error :=
  fun _ => inr "unexpected EOF".

(** A text that is not empty. *)
Definition nonEmpty (s : string) : Prop := s <> "".

(** * Properties *)

(** ** String helpers *)

Lemma append_String (a : ascii) (s t : string) :
  String a s +:+ t = String a (s +:+ t).
Proof. reflexivity. Qed.

Lemma append_empty_l (t : string) : "" +:+ t = t.
Proof. reflexivity. Qed.

Lemma append_nonempty (a : ascii) (s t : string) : String a s +:+ t <> "".
Proof. rewrite append_String. discriminate. Qed.

Lemma eqb_empty_append (a : ascii) (s t : string) :
  String.eqb (String a s +:+ t) "" = false.
Proof. apply String.eqb_neq, append_nonempty. Qed.

Lemma HasPrefix_split (s pre : string) :
  strings.HasPrefix s pre = true ->
  s = pre +:+ strings.drop (String.length pre) s.
Proof.
  unfold strings.HasPrefix. revert s.
  induction pre as [|a pre IH]; intros s H; [by destruct s|].
  destruct s as [|b s]; simpl in H; [discriminate|].
  destruct (ascii_dec a b) as [->|]; [|discriminate].
  rewrite append_String. simpl. f_equal. by apply IH.
Qed.

Lemma HasPrefix_app (pre rest : string) :
  strings.HasPrefix (pre +:+ rest) pre = true.
Proof.
  unfold strings.HasPrefix. induction pre as [|a pre IH].
  - rewrite append_empty_l. by destruct rest.
  - rewrite append_String. simpl. by destruct (ascii_dec a a).
Qed.

Lemma take_short (n : nat) (s : string) :
  (String.length s <= n)%nat -> strings.take n s = s.
Proof.
  revert s. induction n as [|n IH]; intros [|a s] H; simpl in *;
    try done; [lia|]. f_equal. apply IH. lia.
Qed.

(** [strings.Split] yields the text up to the first separator, then the
    pieces of what follows it. *)
Lemma Split_unfold (s : string) (sep : ascii) :
  strings.Split s sep =
  upto sep s :: match after sep s with
                | Some rest => strings.Split rest sep
                | None => []
                end.
Proof.
  induction s as [|a s IH]; simpl; [done|].
  destruct (Ascii.eqb a sep); [done|]. by rewrite IH.
Qed.

Lemma after_split (s rest : string) (sep : ascii) :
  after sep s = Some rest -> s = upto sep s +:+ String sep rest.
Proof.
  induction s as [|a s IH]; simpl; [done|].
  destruct (Ascii.eqb a sep) eqn:E.
  - apply Ascii.eqb_eq in E as ->. by intros [= ->].
  - intros H. rewrite append_String. f_equal. by apply IH.
Qed.

Lemma upto_app (name rest : string) (sep : ascii) :
  upto sep name = name -> upto sep (name +:+ String sep rest) = name.
Proof.
  induction name as [|a name IH]; intros H.
  - rewrite append_empty_l. simpl. by rewrite Ascii.eqb_refl.
  - rewrite append_String. simpl in *. destruct (Ascii.eqb a sep); [done|].
    injection H as H. f_equal. by apply IH.
Qed.

Lemma after_app (name rest : string) (sep : ascii) :
  upto sep name = name -> after sep (name +:+ String sep rest) = Some rest.
Proof.
  induction name as [|a name IH]; intros H.
  - rewrite append_empty_l. simpl. by rewrite Ascii.eqb_refl.
  - rewrite append_String. simpl in *. destruct (Ascii.eqb a sep); [done|].
    injection H as H. by apply IH.
Qed.

(** ** Identity resolution *)

(** The segment read through [strings.Split] is the text between [/meta/]
    and the next slash. *)
Lemma meta_segment_by_Split (path : string) :
  (if strings.HasPrefix path "/meta/"
      && (3 <=? Z.of_nat (length (strings.Split path "/")))
   then default "" (strings.Split path "/" !! 2%nat) else "")
  = metaUserSegment path.
Proof.
  unfold metaUserSegment.
  destruct (strings.HasPrefix path "/meta/") eqn:Hp; [|done].
  apply HasPrefix_split in Hp. simpl String.length in Hp.
  set (rest := strings.drop 6 path) in *. rewrite Hp.
  rewrite !append_String, append_empty_l.
  do 3 (rewrite Split_unfold; cbn [after upto Ascii.eqb Bool.eqb andb]).
  replace (3 <=? _) with true; [done|].
  symmetry. apply Z.leb_le. simpl length. lia.
Qed.

(** The bearer branch of the source cuts the token to 8 bytes. *)
Lemma bearer_by_length (auth : string) (fallback : string) :
  (if negb (String.eqb auth "") && strings.HasPrefix auth "Bearer "
   then if 8 <? Z.of_nat (String.length (strings.drop 7 auth))
        then "token:" +:+ strings.take 8 (strings.drop 7 auth)
        else "token:" +:+ strings.drop 7 auth
   else fallback)
  = (if strings.HasPrefix auth "Bearer "
     then "token:" +:+ strings.take 8 (strings.drop 7 auth) else fallback).
Proof.
  destruct (String.eqb auth "") eqn:E.
  - apply String.eqb_eq in E as ->. done.
  - cbn [negb andb]. destruct (strings.HasPrefix auth "Bearer "); [|done].
    destruct (8 <? _) eqn:L; [done|].
    apply Z.ltb_ge in L. rewrite take_short; [done|lia].
Qed.

Lemma first_nonempty_cons (c : string) (rest : list string) :
  first_nonempty (c :: rest) =
  if negb (String.eqb c "") then c else first_nonempty rest.
Proof. simpl. by destruct (String.eqb c ""). Qed.

(** The source's chain of early returns picks the first non-empty
    candidate. *)
Lemma identity_first_nonempty (req : Request) (provider : option Provider) :
  ExtractUserIDFromRequest req provider =
  first_nonempty (identityCandidates req provider
                    ++ ["ip:" +:+ ExtractIPAddressFromRequest req]).
Proof.
  unfold ExtractUserIDFromRequest, identityCandidates. cbv zeta.
  rewrite meta_segment_by_Split, bearer_by_length.
  cbn [app]. rewrite !first_nonempty_cons. unfold bearerIdentity.
  replace (match ctxUserID req with Some userID => userID | None => "" end)
    with (default "" (ctxUserID req)) by by destruct (ctxUserID req).
  replace (match provider with Some p => UserIDFromRequest p req | None => "" end)
    with (from_option (fun p => UserIDFromRequest p req) "" provider)
    by by destruct provider.
  repeat (match goal with
          | |- (if ?c then _ else _) = (if ?c then _ else _) =>
              destruct c; [reflexivity|]
          end).
  destruct (strings.HasPrefix _ "Bearer ").
  - by rewrite eqb_empty_append.
  - cbn [String.eqb negb first_nonempty]. by rewrite eqb_empty_append.
Qed.

Lemma first_nonempty_last (l : list string) (x : string) :
  first_nonempty l = "" -> first_nonempty (l ++ [x]) = x.
Proof.
  induction l as [|c l IH]; simpl.
  - intros _. destruct (String.eqb x "") eqn:E; [|done].
    by apply String.eqb_eq in E.
  - destruct (String.eqb c "") eqn:E; [done|]. intros ->. done.
Qed.

Lemma first_nonempty_app_nonempty (l : list string) (x : string) :
  x <> "" -> first_nonempty (l ++ [x]) <> "".
Proof.
  intros Hx. induction l as [|c l IH]; simpl.
  - destruct (String.eqb x "") eqn:E; [|done]. by apply String.eqb_eq in E.
  - destruct (String.eqb c "") eqn:E; [done|]. by apply String.eqb_neq in E.
Qed.

Lemma ExtractIPAddressFromRequest_first (req : Request) :
  ExtractIPAddressFromRequest req =
  first_nonempty [Header.Get (ReqHeader req) "X-Forwarded-For";
                  Header.Get (ReqHeader req) "X-Real-IP";
                  RemoteAddr req].
Proof.
  unfold ExtractIPAddressFromRequest. cbv zeta. rewrite !first_nonempty_cons.
  do 2 (match goal with
        | |- (if ?c then _ else _) = _ => destruct c; [reflexivity|]
        end).
  destruct (String.eqb (RemoteAddr req) "") eqn:E; [|done].
  by apply String.eqb_eq in E.
Qed.

Lemma substring_whole (s : string) : String.substring 0 (String.length s) s = s.
Proof. induction s as [|a s IH]; [done|]. cbn. by rewrite IH. Qed.

(** Go's [s[n:]] and [s[:n]] against the standard library's [substring]. *)
Lemma textAfter_drop (n : nat) (s : string) : textAfter n s = strings.drop n s.
Proof.
  unfold textAfter. revert s. induction n as [|n IH]; intros s.
  - rewrite Nat.sub_0_r. cbn [strings.drop]. apply substring_whole.
  - destruct s as [|a s]; [done|]. cbn. apply IH.
Qed.

Lemma substring_take (n : nat) (s : string) :
  String.substring 0 n s = strings.take n s.
Proof.
  revert s. induction n as [|n IH]; intros [|a s]; cbn; try done.
  by rewrite IH.
Qed.

(** C1: the resolved identity is the first non-empty value among, in this
    order, the context user ID, the [<userID>] segment of a [/meta/] path,
    the [X-User-ID] header, the provider's body field, the [llm_user_id]
    query parameter, the bearer token cut to its first 8 bytes behind
    [token:], and behind [ip:] the client IP address, itself the first
    non-empty of [X-Forwarded-For], [X-Real-IP] and the remote address. *)
Theorem ExtractUserIDFromRequest_priority (req : Request) (provider : option Provider) :
  ExtractUserIDFromRequest req provider = identityByPriority req provider.
Proof.
  rewrite identity_first_nonempty, ExtractIPAddressFromRequest_first.
  unfold identityByPriority, identityCandidates, metaUserSegment, bearerIdentity,
    clientAddress, strings.HasPrefix.
  cbv zeta. rewrite !textAfter_drop, substring_take.
  by destruct (ctxUserID req), provider.
Qed.

(** The order at work: each source of identity wins over the ones after it,
    a long token shows its first 8 bytes and a short one all of itself, and
    the address comes from the forwarding headers before the connection. *)
Lemma ExtractUserIDFromRequest_priority_witness :
  ExtractUserIDFromRequest
    (newRequest "POST" "/openai/v1/chat/completions"
       {[ "Authorization" := ["Bearer abc12345token"] ]}) None
  = "token:abc12345" /\
  ExtractUserIDFromRequest
    (newRequest "POST" "/openai/v1/chat/completions"
       {[ "Authorization" := ["Bearer abc"] ]}) None
  = "token:abc" /\
  ExtractUserIDFromRequest
    (newRequest "POST" "/openai/v1/chat/completions"
       {[ "Authorization" := ["Basic abc12345token"] ]}) None
  = "ip:192.0.2.1:1234" /\
  ExtractUserIDFromRequest
    (newRequest "POST" "/openai/v1/chat/completions"
       {[ "X-Forwarded-For" := ["203.0.113.45"]; "X-Real-IP" := ["198.51.100.7"] ]}) None
  = "ip:203.0.113.45" /\
  ExtractUserIDFromRequest
    (newRequest "POST" "/openai/v1/chat/completions"
       {[ "X-Real-IP" := ["198.51.100.7"] ]}) None
  = "ip:198.51.100.7" /\
  ExtractUserIDFromRequest
    {| Method := "POST"; URLScheme := ""; URLHost := ""; Host := "example.com";
       URLPath := "/meta/alice/openai/v1/chat/completions";
       URLQuery := {[ "llm_user_id" := ["carol"] ]};
       ReqHeader := {[ "X-User-ID" := ["bob"];
                       "Authorization" := ["Bearer abc12345token"] ]};
       RemoteAddr := "192.0.2.1:1234"; ctxUserID := Some "zoe" |}
    (Some (mkProvider "openai" (fun _ => "dave") (fun _ _ => (None, None))))
  = "zoe" /\
  ExtractUserIDFromRequest
    {| Method := "POST"; URLScheme := ""; URLHost := ""; Host := "example.com";
       URLPath := "/meta/alice/openai/v1/chat/completions";
       URLQuery := {[ "llm_user_id" := ["carol"] ]};
       ReqHeader := {[ "X-User-ID" := ["bob"];
                       "Authorization" := ["Bearer abc12345token"] ]};
       RemoteAddr := "192.0.2.1:1234"; ctxUserID := None |}
    (Some (mkProvider "openai" (fun _ => "dave") (fun _ _ => (None, None))))
  = "alice" /\
  ExtractUserIDFromRequest
    {| Method := "POST"; URLScheme := ""; URLHost := ""; Host := "example.com";
       URLPath := "/openai/v1/chat/completions";
       URLQuery := {[ "llm_user_id" := ["carol"] ]};
       ReqHeader := {[ "X-User-ID" := ["bob"];
                       "Authorization" := ["Bearer abc12345token"] ]};
       RemoteAddr := "192.0.2.1:1234"; ctxUserID := None |}
    (Some (mkProvider "openai" (fun _ => "dave") (fun _ _ => (None, None))))
  = "bob" /\
  ExtractUserIDFromRequest
    {| Method := "POST"; URLScheme := ""; URLHost := ""; Host := "example.com";
       URLPath := "/openai/v1/chat/completions";
       URLQuery := {[ "llm_user_id" := ["carol"] ]};
       ReqHeader := {[ "Authorization" := ["Bearer abc12345token"] ]};
       RemoteAddr := "192.0.2.1:1234"; ctxUserID := None |}
    (Some (mkProvider "openai" (fun _ => "dave") (fun _ _ => (None, None))))
  = "dave" /\
  ExtractUserIDFromRequest
    {| Method := "POST"; URLScheme := ""; URLHost := ""; Host := "example.com";
       URLPath := "/openai/v1/chat/completions";
       URLQuery := {[ "llm_user_id" := ["carol"] ]};
       ReqHeader := {[ "Authorization" := ["Bearer abc12345token"] ]};
       RemoteAddr := "192.0.2.1:1234"; ctxUserID := None |}
    (Some (mockProvider "openai" scenarioMetadata))
  = "carol".
Proof.
  rewrite !ExtractUserIDFromRequest_priority.
  repeat split; vm_compute; reflexivity.
Defined.

(** C10 (as amended): identity resolution never returns the empty string;
    when the context, the meta segment, the header, the body field, the
    query parameter and the bearer token yield nothing it returns [ip:]
    followed by the request's IP address ([X-Forwarded-For], else
    [X-Real-IP], else the remote address), and that address is non-empty
    whenever the request's remote address is. *)
Theorem ExtractUserIDFromRequest_never_empty (req : Request) (provider : option Provider) :
  ExtractUserIDFromRequest req provider <> "" /\
  (first_nonempty (identityCandidates req provider) = "" ->
   ExtractUserIDFromRequest req provider
   = "ip:" +:+ ExtractIPAddressFromRequest req) /\
  ExtractIPAddressFromRequest req
  = first_nonempty [Header.Get (ReqHeader req) "X-Forwarded-For";
                    Header.Get (ReqHeader req) "X-Real-IP";
                    RemoteAddr req] /\
  (RemoteAddr req <> "" -> ExtractIPAddressFromRequest req <> "").
Proof.
  rewrite identity_first_nonempty. split; [|split; [|split]].
  - apply first_nonempty_app_nonempty, append_nonempty.
  - apply first_nonempty_last.
  - apply ExtractIPAddressFromRequest_first.
  - intros Hra. rewrite ExtractIPAddressFromRequest_first.
    apply (first_nonempty_app_nonempty [_; _] (RemoteAddr req) Hra).
Qed.

Lemma ExtractUserIDFromRequest_never_empty_witness :
  ExtractUserIDFromRequest (newRequest "POST" "/test" ∅) None = "ip:192.0.2.1:1234" /\
  ExtractIPAddressFromRequest (newRequest "POST" "/test" ∅) <> "".
Proof.
  destruct (ExtractUserIDFromRequest_never_empty (newRequest "POST" "/test" ∅) None)
    as (_ & Hip & _ & Hne).
  split.
  - rewrite Hip; [|vm_compute; reflexivity]. vm_compute. reflexivity.
  - apply Hne. discriminate.
Defined.

(** C10, as stated, fails on a request value without remote address and
    without forwarding headers: its IP address is empty and the resolved
    identity is the bare prefix. *)
Lemma ip_address_may_be_empty :
  ExtractIPAddressFromRequest requestWithoutAddress = "" /\
  ExtractUserIDFromRequest requestWithoutAddress None = "ip:".
Proof. split; vm_compute; reflexivity. Qed.

(** ** Provider classification *)

Lemma append_assoc (s t u : string) : (s +:+ t) +:+ u = s +:+ (t +:+ u).
Proof.
  induction s as [|a s IH]; [done|]. rewrite !append_String. by f_equal.
Qed.

(** A path begins with [/<name>/] exactly when [<name>] is its first
    segment and a slash follows it. *)
Lemma firstSegment_HasPrefix (name path : string) :
  upto "/" name = name ->
  firstSegment path = Some name <->
  strings.HasPrefix path ("/" +:+ name +:+ "/") = true.
Proof.
  intros Hname. unfold firstSegment. split.
  - destruct (strings.HasPrefix path "/") eqn:Hp; [|done].
    apply HasPrefix_split in Hp. simpl String.length in Hp.
    set (r := strings.drop 1 path) in *.
    destruct (after "/" r) as [rest|] eqn:Ha; [|done].
    intros Hu. assert (upto "/" r = name) as Hu' by congruence.
    apply after_split in Ha. rewrite Hu' in Ha.
    rewrite Hp, Ha.
    replace ("/" +:+ name +:+ String "/" rest)
      with (("/" +:+ name +:+ "/") +:+ rest).
    + apply HasPrefix_app.
    + by rewrite !append_assoc.
  - intros Hp. apply HasPrefix_split in Hp.
    remember (strings.drop _ path) as rest eqn:Hrest. clear Hrest. subst path.
    rewrite !append_assoc, !append_String, !append_empty_l.
    cbn [strings.HasPrefix String.prefix].
    destruct (ascii_dec "/" "/"); [|done].
    cbn [strings.drop]. rewrite after_app, upto_app by done.
    replace (String.prefix "" _) with true; [done|].
    by destruct (name +:+ String "/" rest).
Qed.

Lemma isProviderName_cases (p : string) :
  isProviderName p =
  String.eqb p "openai" || String.eqb p "anthropic" || String.eqb p "gemini"
  || String.eqb p "groq".
Proof.
  unfold isProviderName, providerNames. cbn [existsb].
  by rewrite orb_false_r, !orb_assoc.
Qed.

(** The chain of [strings.HasPrefix] tests on direct paths names the first
    segment when it is a provider name. *)
Lemma direct_provider (pm : ProviderManager) (path : string) :
  (if strings.HasPrefix path "/openai/" then GetProvider pm "openai"
   else if strings.HasPrefix path "/anthropic/" then GetProvider pm "anthropic"
   else if strings.HasPrefix path "/gemini/" then GetProvider pm "gemini"
   else if strings.HasPrefix path "/groq/" then GetProvider pm "groq"
   else None)
  = match firstSegment path with
    | Some p => if isProviderName p then GetProvider pm p else None
    | None => None
    end.
Proof.
  assert (forall name, upto "/" name = name ->
            strings.HasPrefix path ("/" +:+ name +:+ "/") = true ->
            firstSegment path = Some name) as Hin
    by (intros name Hn; apply firstSegment_HasPrefix, Hn).
  assert (forall name, upto "/" name = name ->
            firstSegment path = Some name ->
            strings.HasPrefix path ("/" +:+ name +:+ "/") = true) as Hout
    by (intros name Hn; apply firstSegment_HasPrefix, Hn).
  destruct (strings.HasPrefix path "/openai/") eqn:Eo;
    [by rewrite (Hin "openai" eq_refl Eo)|].
  destruct (strings.HasPrefix path "/anthropic/") eqn:Ea;
    [by rewrite (Hin "anthropic" eq_refl Ea)|].
  destruct (strings.HasPrefix path "/gemini/") eqn:Eg;
    [by rewrite (Hin "gemini" eq_refl Eg)|].
  destruct (strings.HasPrefix path "/groq/") eqn:Eq;
    [by rewrite (Hin "groq" eq_refl Eq)|].
  destruct (firstSegment path) as [p|] eqn:Ef; [|done].
  destruct (isProviderName p) eqn:Ep; [|done].
  rewrite isProviderName_cases, !orb_true_iff, !String.eqb_eq in Ep.
  destruct Ep as [[[->| ->]| ->]| ->].
  - pose proof (Hout "openai" eq_refl eq_refl : strings.HasPrefix path "/openai/" = true).
    congruence.
  - pose proof (Hout "anthropic" eq_refl eq_refl
                 : strings.HasPrefix path "/anthropic/" = true).
    congruence.
  - pose proof (Hout "gemini" eq_refl eq_refl : strings.HasPrefix path "/gemini/" = true).
    congruence.
  - pose proof (Hout "groq" eq_refl eq_refl : strings.HasPrefix path "/groq/" = true).
    congruence.
Qed.

(** [GetProviderFromRequest] reads the path by segments: the [<p>] of
    [/meta/<u>/<p>] (followed by a slash or the end of the path), else the
    [<p>] of a leading [/<p>/]. *)
Lemma GetProviderFromRequest_by_segments (pm : ProviderManager) (req : Request) :
  GetProviderFromRequest pm req
  = provider_for_request metaProviderSegment pm (URLPath req).
Proof.
  unfold GetProviderFromRequest, provider_for_request, metaProviderSegment.
  cbv zeta. rewrite <- direct_provider.
  generalize (URLPath req) as path. intros path.
  destruct (strings.HasPrefix path "/meta/") eqn:Hm; [|done].
  apply HasPrefix_split in Hm. simpl String.length in Hm.
  remember (strings.drop 6 path) as rest eqn:Hrest. clear Hrest. subst path.
  change (strings.HasPrefix ("/meta/" +:+ rest) "/openai/") with false.
  change (strings.HasPrefix ("/meta/" +:+ rest) "/anthropic/") with false.
  change (strings.HasPrefix ("/meta/" +:+ rest) "/gemini/") with false.
  change (strings.HasPrefix ("/meta/" +:+ rest) "/groq/") with false.
  change (firstSegment ("/meta/" +:+ rest))
    with (match after "/" ("meta/" +:+ rest) with
          | Some _ => Some (upto "/" ("meta/" +:+ rest))
          | None => None
          end).
  rewrite !append_String, append_empty_l.
  do 3 (rewrite Split_unfold; cbn [after upto Ascii.eqb Bool.eqb andb]).
  destruct (after "/" rest) as [rest2|].
  - rewrite (Split_unfold rest2).
    replace (4 <=? _) with true
      by (symmetry; apply Z.leb_le; simpl length; lia).
    cbn [lookup list_lookup default andb]. unfold id.
    rewrite isProviderName_cases.
    destruct (String.eqb (upto "/" rest2) "openai") eqn:E1;
      [apply String.eqb_eq in E1; by rewrite E1|].
    destruct (String.eqb (upto "/" rest2) "anthropic") eqn:E2;
      [apply String.eqb_eq in E2; by rewrite E2|].
    destruct (String.eqb (upto "/" rest2) "gemini") eqn:E3;
      [apply String.eqb_eq in E3; by rewrite E3|].
    destruct (String.eqb (upto "/" rest2) "groq") eqn:E4;
      [apply String.eqb_eq in E4; by rewrite E4|].
    done.
  - done.
Qed.

(** C7 (as amended): classification resolves by path.  When the path is
    [/meta/<u>/<p>] followed by a slash or by the end of the path, and
    [<p>] is one of the four provider names, the provider registered under
    [<p>] is returned; otherwise, when the path begins with [/<p>/], that
    provider; otherwise none. *)
Theorem GetProviderFromRequest_by_path (pm : ProviderManager) (req : Request) :
  GetProviderFromRequest pm req
  = provider_for_request metaProviderSegment pm (URLPath req).
Proof. apply GetProviderFromRequest_by_segments. Qed.

(** C7, as stated, fails on [/meta/u/openai]: the path does not begin with
    [/meta/<u>/<p>/] nor with [/<p>/], yet the provider is returned. *)
Lemma meta_path_without_trailing_slash :
  GetName <$> GetProviderFromRequest
                (managerOf (mockProvider "openai" scenarioMetadata) false)
                (newRequest "POST" "/meta/u/openai" ∅)
  = Some "openai" /\
  GetName <$> provider_for_request metaProviderSegmentSlash
                (managerOf (mockProvider "openai" scenarioMetadata) false)
                "/meta/u/openai"
  = None.
Proof. split; vm_compute; reflexivity. Qed.

(** ** Response capture *)

Lemma responseCapture_Write_writer (rc : responseCapture) (b : list Byte.byte) :
  rcWriter (fst (responseCapture_Write rc b)) = fst (Write (rcWriter rc) b).
Proof.
  unfold responseCapture_Write.
  destruct (provider rc) as [p|]; [|done].
  destruct (isStreaming rc && _); [|done].
  by destruct (ParseResponseMetadata p _ true).
Qed.

Lemma responseCapture_Write_body (rc : responseCapture) (b : list Byte.byte) :
  body (fst (responseCapture_Write rc b)) = body rc ++ b.
Proof.
  unfold responseCapture_Write.
  destruct (provider rc) as [p|]; [|done].
  destruct (isStreaming rc && _); [|done].
  by destruct (ParseResponseMetadata p _ true).
Qed.

Lemma responseCapture_Write_result (rc : responseCapture) (b : list Byte.byte) :
  snd (responseCapture_Write rc b) = snd (Write (rcWriter rc) b).
Proof.
  unfold responseCapture_Write.
  destruct (provider rc) as [p|]; [|done].
  destruct (isStreaming rc && _); [|done].
  by destruct (ParseResponseMetadata p _ true).
Qed.

Lemma responseCapture_Write_config (rc : responseCapture) (b : list Byte.byte) :
  isStreaming (fst (responseCapture_Write rc b)) = isStreaming rc /\
  provider (fst (responseCapture_Write rc b)) = provider rc.
Proof.
  unfold responseCapture_Write.
  destruct (provider rc) as [p|]; [|done].
  destruct (isStreaming rc && _); [|done].
  by destruct (ParseResponseMetadata p _ true).
Qed.

(** The capture is transparent to the embedded writer. *)
Lemma serveCapture_writer (rc : responseCapture) (calls : list HandlerCall) :
  rcWriter (serveCapture rc calls) = serveDirect (rcWriter rc) calls.
Proof.
  revert rc. induction calls as [|c calls IH]; intros rc; [done|].
  unfold serveCapture, serveDirect in *. cbn [fold_left]. rewrite IH.
  destruct c; [done| |done]. by rewrite responseCapture_Write_writer.
Qed.

Lemma serveCapture_body (rc : responseCapture) (calls : list HandlerCall) :
  body (serveCapture rc calls) = body rc ++ concat (writesOf calls).
Proof.
  revert rc. induction calls as [|c calls IH]; intros rc.
  - by rewrite app_nil_r.
  - unfold serveCapture in *. cbn [fold_left]. rewrite IH.
    destruct c; cbn; [done| |done].
    by rewrite responseCapture_Write_body, app_assoc.
Qed.

Lemma serveDirect_Body (w : ResponseWriter) (calls : list HandlerCall) :
  Body (serveDirect w calls) = Body w ++ concat (writesOf calls).
Proof.
  revert w. induction calls as [|c calls IH]; intros w.
  - by rewrite app_nil_r.
  - unfold serveDirect in *. cbn [fold_left]. rewrite IH.
    destruct c; cbn.
    + unfold WriteHeader. by destruct (wroteHeader w).
    + unfold WriteHeader. destruct (wroteHeader w); cbn; by rewrite app_assoc.
    + done.
Qed.

Lemma setMeteringHeaders_Body (w : ResponseWriter) (m : LLMResponseMetadata) :
  Body (setMeteringHeaders w m) = Body w /\ Code (setMeteringHeaders w m) = Code w.
Proof. unfold setMeteringHeaders. by destruct (negb _). Qed.

(** The middleware leaves the status and the body as the capture's
    embedded writer has them. *)
Lemma TokenParsingMiddleware_writer {World : Type} (pm : ProviderManager)
    (callbacks : list (option (MetadataCallback World))) (next : Handler)
    (w : ResponseWriter) (r : Request) (world : World) :
  Body (fst (TokenParsingMiddleware pm callbacks next w r world))
  = Body (serveDirect w (next r)) /\
  Code (fst (TokenParsingMiddleware pm callbacks next w r world))
  = Code (serveDirect w (next r)).
Proof.
  unfold TokenParsingMiddleware. cbv zeta.
  assert (rcWriter (captured pm next w r) = serveDirect w (next r)) as ->
    by apply serveCapture_writer.
  destruct (GetProviderFromRequest pm r) as [p|]; [|done].
  destruct (isAPIEndpoint (URLPath r)); [|done].
  destruct (finalMetadata _ _ p) as [[m|] [e|]]; try done.
  apply setMeteringHeaders_Body.
Qed.

(** C2: whatever the request and the write calls of the inner handler, the
    bytes the capturing wrapper forwards to the downstream writer are the
    concatenation of the bytes the handler wrote, in order; the capture
    buffer holds the same bytes, and the body that leaves the middleware is
    unchanged. *)
Theorem responseCapture_forwards_writes :
  (forall (rc : responseCapture) (calls : list HandlerCall),
     Body (rcWriter (serveCapture rc calls))
     = Body (rcWriter rc) ++ concat (writesOf calls) /\
     body (serveCapture rc calls) = body rc ++ concat (writesOf calls) /\
     rcWriter (serveCapture rc calls) = serveDirect (rcWriter rc) calls) /\
  (forall (World : Type) (pm : ProviderManager)
          (callbacks : list (option (MetadataCallback World)))
          (next : Handler) (w : ResponseWriter) (r : Request) (world : World),
     Body (fst (TokenParsingMiddleware pm callbacks next w r world))
     = Body w ++ concat (writesOf (next r))).
Proof.
  split.
  - intros rc calls. rewrite serveCapture_writer, serveDirect_Body.
    auto using serveCapture_body.
  - intros. rewrite (proj1 (TokenParsingMiddleware_writer _ _ _ _ _ _)).
    apply serveDirect_Body.
Qed.

(** ** Streaming metadata retained by the capture *)

Section Retained.

Variable p : Provider.

Lemma responseCapture_Write_streaming (rc : responseCapture) (b : list Byte.byte) :
  isStreaming rc = true ->
  provider rc = Some p ->
  lastParsedPos rc = Z.of_nat (length (body rc)) ->
  lastMetadata (fst (responseCapture_Write rc b))
  = keepLatest (lastMetadata rc) (parsedOnWrite p (b, body rc ++ b)) /\
  lastParsedPos (fst (responseCapture_Write rc b))
  = Z.of_nat (length (body rc ++ b)).
Proof.
  intros Hs Hp Hpos. unfold responseCapture_Write. rewrite Hs, Hp, Hpos.
  cbn [andb]. destruct b as [|x b].
  - rewrite app_nil_r, Z.ltb_irrefl. done.
  - replace (_ <? _) with true
      by (symmetry; apply Z.ltb_lt; rewrite length_app; simpl length; lia).
    unfold parsedOnWrite, parsedStreaming.
    by destruct (ParseResponseMetadata p _ true) as [[m|] [e|]].
Qed.

Lemma serveCapture_streaming (rc : responseCapture) (calls : list HandlerCall) :
  isStreaming rc = true ->
  provider rc = Some p ->
  lastParsedPos rc = Z.of_nat (length (body rc)) ->
  lastMetadata (serveCapture rc calls)
  = fold_left keepLatest
      (map (parsedOnWrite p) (cumulative (body rc) (writesOf calls)))
      (lastMetadata rc).
Proof.
  revert rc. induction calls as [|c calls IH]; intros rc Hs Hp Hpos; [done|].
  unfold serveCapture in *. cbn [fold_left].
  destruct c as [statusCode|b|key value].
  - by apply (IH (withWriter rc _)).
  - destruct (responseCapture_Write_streaming rc b Hs Hp Hpos) as [Hm Hl].
    destruct (responseCapture_Write_config rc b) as [Hs' Hp'].
    change (writesOf (CallWrite b :: calls)) with (b :: writesOf calls).
    cbn [cumulative map fold_left].
    rewrite <- Hm, <- (responseCapture_Write_body rc b).
    apply IH; [congruence|congruence|].
    by rewrite Hl, responseCapture_Write_body.
  - by apply (IH (withWriter rc _)).
Qed.

End Retained.

Lemma serveCapture_not_streaming (rc : responseCapture) (calls : list HandlerCall) :
  isStreaming rc = false ->
  lastMetadata (serveCapture rc calls) = lastMetadata rc.
Proof.
  revert rc. induction calls as [|c calls IH]; intros rc Hs; [done|].
  unfold serveCapture in *. cbn [fold_left].
  destruct c as [statusCode|b|key value].
  - by apply (IH (withWriter rc _)).
  - rewrite IH.
    + unfold responseCapture_Write. rewrite Hs.
      by destruct (provider rc).
    + by rewrite (proj1 (responseCapture_Write_config rc b)).
  - by apply (IH (withWriter rc _)).
Qed.

Lemma serveCapture_no_provider (rc : responseCapture) (calls : list HandlerCall) :
  provider rc = None ->
  lastMetadata (serveCapture rc calls) = lastMetadata rc.
Proof.
  revert rc. induction calls as [|c calls IH]; intros rc Hp; [done|].
  unfold serveCapture in *. cbn [fold_left].
  destruct c as [statusCode|b|key value].
  - by apply (IH (withWriter rc _)).
  - rewrite IH.
    + unfold responseCapture_Write. by rewrite Hp.
    + by rewrite (proj2 (responseCapture_Write_config rc b)).
  - by apply (IH (withWriter rc _)).
Qed.

(** The capture when the handler has returned. *)
Lemma captured_state (pm : ProviderManager) (next : Handler)
    (w : ResponseWriter) (r : Request) :
  rcWriter (captured pm next w r) = serveDirect w (next r) /\
  body (captured pm next w r) = concat (writesOf (next r)) /\
  lastMetadata (captured pm next w r)
  = match GetProviderFromRequest pm r with
    | Some p =>
        if IsStreamingRequest pm r
        then retainedMetadata p (writesOf (next r)) else None
    | None => None
    end.
Proof.
  unfold captured. cbv zeta. split; [|split].
  - apply serveCapture_writer.
  - apply serveCapture_body.
  - destruct (GetProviderFromRequest pm r) as [p|] eqn:Hp.
    + destruct (IsStreamingRequest pm r) eqn:Hs.
      * by apply serveCapture_streaming.
      * by apply serveCapture_not_streaming.
    + by apply serveCapture_no_provider.
Qed.

(** The metadata the middleware works with, from the handler's writes. *)
Lemma finalMetadata_captured (pm : ProviderManager) (next : Handler)
    (w : ResponseWriter) (r : Request) (p : Provider) :
  GetProviderFromRequest pm r = Some p ->
  finalMetadata (IsStreamingRequest pm r) (captured pm next w r) p
  = match (if IsStreamingRequest pm r
           then retainedMetadata p (writesOf (next r)) else None) with
    | Some m => (Some m, None)
    | None =>
        ParseResponseMetadata p (concat (writesOf (next r)))
          (IsStreamingRequest pm r)
    end.
Proof.
  intros Hp. unfold finalMetadata.
  destruct (captured_state pm next w r) as (_ & -> & ->). rewrite Hp.
  destruct (IsStreamingRequest pm r); [|done].
  by destruct (retainedMetadata p _).
Qed.

(** What the middleware does on a tracked request, from the handler's
    calls: the handler's response, plus headers and callbacks when there is
    metadata to hand on. *)
Lemma TokenParsingMiddleware_tracked {World : Type} (pm : ProviderManager)
    (callbacks : list (option (MetadataCallback World))) (next : Handler)
    (w : ResponseWriter) (r : Request) (world : World) (p : Provider) :
  GetProviderFromRequest pm r = Some p ->
  isAPIEndpoint (URLPath r) = true ->
  TokenParsingMiddleware pm callbacks next w r world
  = match deliveredMetadata p (IsStreamingRequest pm r) (writesOf (next r)) with
    | Some m =>
        (setMeteringHeaders (serveDirect w (next r)) m,
         runCallbacks callbacks r m world)
    | None => (serveDirect w (next r), world)
    end.
Proof.
  intros Hp Hapi. unfold TokenParsingMiddleware. cbv zeta.
  rewrite Hp, Hapi, (finalMetadata_captured pm next w r p Hp).
  rewrite (proj1 (captured_state pm next w r)).
  unfold deliveredMetadata.
  destruct (if IsStreamingRequest pm r then _ else _) as [m|]; [done|].
  by destruct (ParseResponseMetadata p _ _) as [[m|] [e|]].
Qed.

(** C3 (as amended): on every streaming request with a resolved provider,
    whatever its path, the capture parses the cumulative buffer with the
    streaming parser after each write that adds bytes and keeps the result
    only when the parse succeeds with a non-nil result.  When the response
    ends on a path that is an API endpoint, the middleware hands on the most
    recent such metadata of a stream if there is one, and otherwise the
    result of a single parse of the full buffer (a unary parse for
    non-streams), to the writer's header map and to every registered
    callback; on any other path it hands on nothing. *)
Theorem streaming_metadata_delivered {World : Type} (pm : ProviderManager)
    (callbacks : list (option (MetadataCallback World)))
    (next : Handler) (w : ResponseWriter) (r : Request)
    (world : World) (p : Provider) :
  GetProviderFromRequest pm r = Some p ->
  lastMetadata (captured pm next w r)
  = (if IsStreamingRequest pm r
     then retainedMetadata p (writesOf (next r)) else None) /\
  (isAPIEndpoint (URLPath r) = true ->
   TokenParsingMiddleware pm callbacks next w r world
   = match deliveredMetadata p (IsStreamingRequest pm r) (writesOf (next r)) with
     | Some m =>
         (setMeteringHeaders (serveDirect w (next r)) m,
          runCallbacks callbacks r m world)
     | None => (serveDirect w (next r), world)
     end) /\
  (isAPIEndpoint (URLPath r) = false ->
   TokenParsingMiddleware pm callbacks next w r world
   = (serveDirect w (next r), world)).
Proof.
  intros Hp. split; [|split].
  - destruct (captured_state pm next w r) as (_ & _ & ->). by rewrite Hp.
  - intros Hapi. by apply TokenParsingMiddleware_tracked.
  - intros Hapi. unfold TokenParsingMiddleware. cbv zeta.
    rewrite (proj1 (captured_state pm next w r)). by rewrite Hp, Hapi.
Qed.

Lemma streaming_metadata_delivered_witness :
  lastMetadata (captured (managerOf (sentinelProvider "anthropic" scenarioMetadata) true)
                  streamTwoFrames newRecorder
                  (newRequest "POST" "/anthropic/v1/messages" ∅))
  = Some scenarioMetadata /\
  snd (TokenParsingMiddleware
         (managerOf (sentinelProvider "anthropic" scenarioMetadata) true)
         [Some recordingCallback] streamTwoFrames newRecorder
         (newRequest "POST" "/anthropic/v1/messages" ∅) [])
  = [scenarioMetadata] /\
  lastMetadata (captured (managerOf (sentinelProvider "anthropic" scenarioMetadata) true)
                  streamTwoFrames newRecorder
                  (newRequest "GET" "/anthropic/v1/models" ∅))
  = Some scenarioMetadata /\
  snd (TokenParsingMiddleware
         (managerOf (sentinelProvider "anthropic" scenarioMetadata) true)
         [Some recordingCallback] streamTwoFrames newRecorder
         (newRequest "GET" "/anthropic/v1/models" ∅) [])
  = [].
Proof.
  destruct (streaming_metadata_delivered
              (managerOf (sentinelProvider "anthropic" scenarioMetadata) true)
              [Some recordingCallback] streamTwoFrames newRecorder
              (newRequest "POST" "/anthropic/v1/messages" ∅) []
              (sentinelProvider "anthropic" scenarioMetadata))
    as (Hlast & Hrun & _); [vm_compute; reflexivity|].
  destruct (streaming_metadata_delivered
              (managerOf (sentinelProvider "anthropic" scenarioMetadata) true)
              [Some recordingCallback] streamTwoFrames newRecorder
              (newRequest "GET" "/anthropic/v1/models" ∅) []
              (sentinelProvider "anthropic" scenarioMetadata))
    as (Hlast' & _ & Hskip); [vm_compute; reflexivity|].
  split; [|split; [|split]].
  - rewrite Hlast. vm_compute. reflexivity.
  - rewrite Hrun; [|vm_compute; reflexivity]. vm_compute. reflexivity.
  - rewrite Hlast'. vm_compute. reflexivity.
  - rewrite Hskip; [|vm_compute; reflexivity]. vm_compute. reflexivity.
Defined.

(** C3, as stated, fails off the API endpoints: on a streaming request to
    [/groq/v1/models] with the provider resolved, the capture retains the
    parsed metadata, and when the response ends nothing is handed on. *)
Lemma retained_metadata_not_delivered :
  GetName <$> GetProviderFromRequest
                (managerOf (mockProvider "groq" scenarioMetadata) true)
                (newRequest "GET" "/groq/v1/models" ∅)
  = Some "groq" /\
  IsStreamingRequest (managerOf (mockProvider "groq" scenarioMetadata) true)
    (newRequest "GET" "/groq/v1/models" ∅) = true /\
  lastMetadata (captured (managerOf (mockProvider "groq" scenarioMetadata) true)
                  (respond "data: [DONE]") newRecorder
                  (newRequest "GET" "/groq/v1/models" ∅))
  = Some scenarioMetadata /\
  TokenParsingMiddleware (managerOf (mockProvider "groq" scenarioMetadata) true)
    [Some recordingCallback] (respond "data: [DONE]") newRecorder
    (newRequest "GET" "/groq/v1/models" ∅) []
  = (serveDirect newRecorder (respond "data: [DONE]" (newRequest "GET" "/groq/v1/models" ∅)),
     []).
Proof. repeat split; vm_compute; reflexivity. Qed.

(** A write that adds no byte triggers no parse: the capture retains
    nothing, even where the parser would accept the empty buffer; the
    single parse at the end of the response then finds the metadata. *)
Lemma empty_write_is_not_parsed :
  parsedStreaming (mockProvider "openai" scenarioMetadata) [] = Some scenarioMetadata /\
  lastMetadata (captured (managerOf (mockProvider "openai" scenarioMetadata) true)
                  (fun _ => [CallWrite []]) newRecorder
                  (newRequest "POST" "/openai/v1/chat/completions" ∅))
  = None /\
  snd (TokenParsingMiddleware (managerOf (mockProvider "openai" scenarioMetadata) true)
         [Some recordingCallback] (fun _ => [CallWrite []]) newRecorder
         (newRequest "POST" "/openai/v1/chat/completions" ∅) [])
  = [scenarioMetadata].
Proof. repeat split; vm_compute; reflexivity. Qed.

(** ** Headers, callbacks and parse failures *)

Lemma TokenParsingMiddleware_parsed {World : Type} (pm : ProviderManager)
    (callbacks : list (option (MetadataCallback World))) (next : Handler)
    (w : ResponseWriter) (r : Request) (world : World)
    (p : Provider) (m : LLMResponseMetadata) :
  GetProviderFromRequest pm r = Some p ->
  isAPIEndpoint (URLPath r) = true ->
  finalMetadata (IsStreamingRequest pm r) (captured pm next w r) p = (Some m, None) ->
  TokenParsingMiddleware pm callbacks next w r world
  = (setMeteringHeaders (serveDirect w (next r)) m,
     runCallbacks callbacks r m world).
Proof.
  intros Hp Hapi Hm. unfold TokenParsingMiddleware. cbv zeta.
  by rewrite Hp, Hapi, Hm, (proj1 (captured_state pm next w r)).
Qed.

Lemma TokenParsingMiddleware_parse_error {World : Type} (pm : ProviderManager)
    (callbacks : list (option (MetadataCallback World))) (next : Handler)
    (w : ResponseWriter) (r : Request) (world : World)
    (p : Provider) (md : option LLMResponseMetadata) (e : error) :
  GetProviderFromRequest pm r = Some p ->
  finalMetadata (IsStreamingRequest pm r) (captured pm next w r) p = (md, Some e) ->
  TokenParsingMiddleware pm callbacks next w r world
  = (serveDirect w (next r), world).
Proof.
  intros Hp Hm. unfold TokenParsingMiddleware. cbv zeta.
  rewrite Hp, Hm, (proj1 (captured_state pm next w r)).
  by destruct (isAPIEndpoint (URLPath r)), md.
Qed.

Lemma Get_HeaderSet_eq (w : ResponseWriter) (key value : string) :
  Header.Get (HeaderMap (HeaderSet w key value)) key = value.
Proof. unfold Header.Get, HeaderSet, Header.Set_. cbn. by rewrite lookup_insert_eq. Qed.

Lemma Get_HeaderSet_ne (w : ResponseWriter) (key key' value : string) :
  key <> key' ->
  Header.Get (HeaderMap (HeaderSet w key value)) key'
  = Header.Get (HeaderMap w) key'.
Proof.
  intros Hne. unfold Header.Get, HeaderSet, Header.Set_. cbn.
  by rewrite lookup_insert_ne.
Qed.

(** The headers [setMeteringHeaders] leaves on the writer. *)
Lemma setMeteringHeaders_Get (w : ResponseWriter) (m : LLMResponseMetadata) :
  let h := HeaderMap (setMeteringHeaders w m) in
  Header.Get h "X-LLM-Input-Tokens" = strings.Sprintf_d (InputTokens m) /\
  Header.Get h "X-LLM-Output-Tokens" = strings.Sprintf_d (OutputTokens m) /\
  Header.Get h "X-LLM-Total-Tokens" = strings.Sprintf_d (TotalTokens m) /\
  Header.Get h "X-LLM-Thought-Tokens" = strings.Sprintf_d (ThoughtTokens m) /\
  Header.Get h "X-LLM-Provider" = Provider_ m /\
  Header.Get h "X-LLM-Model" = Model m /\
  (RequestID m <> "" -> Header.Get h "X-LLM-Request-ID" = RequestID m).
Proof.
  unfold setMeteringHeaders. cbv zeta.
  destruct (String.eqb (RequestID m) "") eqn:E; cbn [negb].
  - apply String.eqb_eq in E.
    repeat split; try (intros; congruence);
      repeat first [apply Get_HeaderSet_eq
                   |rewrite Get_HeaderSet_ne by discriminate].
  - repeat split; try intros _;
      repeat first [apply Get_HeaderSet_eq
                   |rewrite Get_HeaderSet_ne by discriminate].
Qed.

(** After the middleware has run on a tracked request whose response
    metadata parsed, the writer's header map holds the metering headers. *)
Lemma header_map_after_middleware {World : Type} (pm : ProviderManager)
    (callbacks : list (option (MetadataCallback World))) (next : Handler)
    (w : ResponseWriter) (r : Request) (world : World)
    (p : Provider) (m : LLMResponseMetadata) :
  GetProviderFromRequest pm r = Some p ->
  isAPIEndpoint (URLPath r) = true ->
  finalMetadata (IsStreamingRequest pm r) (captured pm next w r) p = (Some m, None) ->
  let h := HeaderMap (fst (TokenParsingMiddleware pm callbacks next w r world)) in
  Header.Get h "X-LLM-Input-Tokens" = strings.Sprintf_d (InputTokens m) /\
  Header.Get h "X-LLM-Output-Tokens" = strings.Sprintf_d (OutputTokens m) /\
  Header.Get h "X-LLM-Total-Tokens" = strings.Sprintf_d (TotalTokens m) /\
  Header.Get h "X-LLM-Thought-Tokens" = strings.Sprintf_d (ThoughtTokens m) /\
  Header.Get h "X-LLM-Provider" = Provider_ m /\
  Header.Get h "X-LLM-Model" = Model m /\
  (RequestID m <> "" -> Header.Get h "X-LLM-Request-ID" = RequestID m).
Proof.
  intros Hp Hapi Hm.
  rewrite (TokenParsingMiddleware_parsed pm callbacks next w r world p m Hp Hapi Hm).
  apply setMeteringHeaders_Get.
Qed.






(** C6: when parsing the response metadata returns an error, the client
    sees exactly what the inner handler produced (status, headers and body
    are those of the handler run on the writer itself, so no metering header
    is added) and no callback is invoked. *)
Theorem parse_failure_is_opaque {World : Type} (pm : ProviderManager)
    (callbacks : list (option (MetadataCallback World))) (next : Handler)
    (w : ResponseWriter) (r : Request) (world : World)
    (p : Provider) (md : option LLMResponseMetadata) (e : error) :
  GetProviderFromRequest pm r = Some p ->
  finalMetadata (IsStreamingRequest pm r) (captured pm next w r) p = (md, Some e) ->
  TokenParsingMiddleware pm callbacks next w r world
  = (serveDirect w (next r), world).
Proof. apply TokenParsingMiddleware_parse_error. Qed.

Lemma parse_failure_is_opaque_witness :
  TokenParsingMiddleware
    (managerOf (failingProvider "openai" "simulated parsing error") false)
    [Some recordingCallback] (respond "invalid") newRecorder
    (newRequest "POST" "/openai/v1/chat/completions" ∅) []
  = ({| Code := 200; wroteHeader := true; HeaderMap := ∅; Body := bytes "invalid" |},
     []).
Proof.
  rewrite (parse_failure_is_opaque
             (managerOf (failingProvider "openai" "simulated parsing error") false)
             [Some recordingCallback] (respond "invalid") newRecorder
             (newRequest "POST" "/openai/v1/chat/completions" ∅) []
             (failingProvider "openai" "simulated parsing error")
             None "simulated parsing error");
    vm_compute; reflexivity.
Defined.

(** ** Cost tracking *)

Lemma costTrackingCallback_records (pm : ProviderManager) (r : Request)
    (m : LLMResponseMetadata) (tracker : list TrackedRequest) :
  costTrackingCallback pm r m tracker
  = tracker ++
    (if 0 <? TotalTokens m
     then [mkTracked m (ExtractUserIDFromRequest r (GetProviderFromRequest pm r))
             (ExtractIPAddressFromRequest r) (URLPath r)]
     else []).
Proof.
  unfold costTrackingCallback, TrackRequest.
  destruct (0 <? TotalTokens m); [done|]. by rewrite app_nil_r.
Qed.

Ltac no_record :=
  exists []; rewrite app_nil_r;
  split; [reflexivity|];
  split; [simpl; lia|];
  split; [intros ? Hin; by apply elem_of_nil in Hin|intros; reflexivity].

(** C4: a request hands at most one usage record to the cost tracker, and
    only with parsed metadata whose total is strictly positive; a response
    that fails to parse, or a stream that ends before usage is seen (no
    metadata, or a total of zero), produces no record. *)
Theorem at_most_one_usage_record (costTracking : bool) (pm : ProviderManager)
    (next : Handler) (w : ResponseWriter) (r : Request)
    (tracker : list TrackedRequest) :
  exists new : list TrackedRequest,
    snd (TokenParsingMiddleware pm (serverCallbacks costTracking pm) next w r tracker)
    = tracker ++ new /\
    (length new <= 1)%nat /\
    (forall rec, rec ∈ new ->
       0 < TotalTokens (trMetadata rec) /\
       exists p, GetProviderFromRequest pm r = Some p /\
         finalMetadata (IsStreamingRequest pm r) (captured pm next w r) p
         = (Some (trMetadata rec), None)) /\
    (forall p md, GetProviderFromRequest pm r = Some p ->
       finalMetadata (IsStreamingRequest pm r) (captured pm next w r) p = md ->
       snd md <> None \/ fst md = None \/
       (exists m, fst md = Some m /\ TotalTokens m <= 0) ->
       new = []).
Proof.
  unfold TokenParsingMiddleware. cbv zeta.
  destruct (GetProviderFromRequest pm r) as [p|] eqn:Hp; [|no_record].
  destruct (isAPIEndpoint (URLPath r)); [|no_record].
  destruct (finalMetadata _ _ p) as [[m|] [e|]] eqn:Hm; try no_record.
  destruct costTracking; cbn [serverCallbacks runCallbacks fold_left snd];
    [|no_record].
  rewrite costTrackingCallback_records.
  destruct (0 <? TotalTokens m) eqn:Ht; [|no_record].
  apply Z.ltb_lt in Ht. eexists. split; [reflexivity|].
  split; [simpl; lia|]. split.
  - intros rec Hin. apply list_elem_of_singleton in Hin. subst rec.
    split; [done|]. exists p. by rewrite Hm.
  - intros p' md [= <-] <-. rewrite Hm. cbn [fst snd].
    intros [Herr|[Hnone|(m' & Hsome & Hle)]].
    + by destruct Herr.
    + discriminate.
    + injection Hsome as <-. lia.
Qed.

Lemma at_most_one_usage_record_witness :
  (length (snd (TokenParsingMiddleware
                  (managerOf (mockProvider "openai" scenarioMetadata) false)
                  (serverCallbacks true
                     (managerOf (mockProvider "openai" scenarioMetadata) false))
                  (respond "completion") newRecorder
                  (newRequest "POST" "/openai/v1/chat/completions" ∅) [])) <= 1)%nat.
Proof.
  destruct (at_most_one_usage_record true
              (managerOf (mockProvider "openai" scenarioMetadata) false)
              (respond "completion") newRecorder
              (newRequest "POST" "/openai/v1/chat/completions" ∅) [])
    as (new & Heq & Hlen & _).
  rewrite Heq. exact Hlen.
Defined.

(** ** Groq adapter *)

Lemma Director_path (baseDirector : Request -> Request) (req : Request) :
  URLPath (Groq.Director baseDirector req)
  = if strings.HasPrefix (URLPath (baseDirector req)) "/openai/"
    then URLPath (baseDirector req)
    else "/openai" +:+ URLPath (baseDirector req).
Proof.
  unfold Groq.Director. cbv zeta.
  by destruct (strings.HasPrefix (URLPath (baseDirector req)) "/openai/").
Qed.

(** C8: after the generic director has stripped the [/groq] prefix, the
    Groq director puts [/openai] in front of the upstream path, unless the
    path already begins with [/openai/]; a request to [/groq/v1/...] goes to
    [api.groq.com/openai/v1/...]. *)
Theorem groq_director_prefixes_openai :
  (forall (baseDirector : Request -> Request) (req : Request),
     URLPath (Groq.Director baseDirector req)
     = (if strings.HasPrefix (URLPath (baseDirector req)) "/openai/"
        then URLPath (baseDirector req)
        else "/openai" +:+ URLPath (baseDirector req)) /\
     strings.HasPrefix (URLPath (Groq.Director baseDirector req)) "/openai" = true) /\
  (forall (req : Request) (rest : string),
     URLPath req = "/groq/v1/" +:+ rest ->
     URLPath (Groq.proxyDirector req) = "/openai/v1/" +:+ rest /\
     URLHost (Groq.proxyDirector req) = "api.groq.com" /\
     Host (Groq.proxyDirector req) = "api.groq.com" /\
     ReqHeader (Groq.proxyDirector req) = ReqHeader req).
Proof.
  split.
  - intros baseDirector req. split; [apply Director_path|].
    rewrite Director_path.
    destruct (strings.HasPrefix (URLPath (baseDirector req)) "/openai/") eqn:E.
    + apply HasPrefix_split in E. rewrite E.
      change "/openai/" with ("/openai" +:+ "/"). rewrite append_assoc.
      apply HasPrefix_app.
    + apply HasPrefix_app.
  - intros req rest Hpath.
    unfold Groq.proxyDirector, Groq.Director, Groq.CreateGenericDirector.
    cbn [URLPath]. rewrite Hpath.
    change (strings.TrimPrefix ("/groq/v1/" +:+ rest) ("/" +:+ Groq.GetName))
      with ("/v1/" +:+ rest).
    change (strings.HasPrefix ("/v1/" +:+ rest) "/openai/") with false.
    done.
Qed.

Lemma groq_director_prefixes_openai_witness :
  URLPath (Groq.proxyDirector (newRequest "POST" "/groq/v1/chat/completions" ∅))
  = "/openai/v1/chat/completions" /\
  URLHost (Groq.proxyDirector (newRequest "POST" "/groq/v1/chat/completions" ∅))
  = "api.groq.com".
Proof.
  destruct groq_director_prefixes_openai as [_ Hfwd].
  destruct (Hfwd (newRequest "POST" "/groq/v1/chat/completions" ∅) "chat/completions")
    as (Hpath & Hhost & _); [reflexivity|].
  by rewrite Hpath, Hhost.
Defined.

(** C9 (as amended): for a request with a Bearer [Authorization] header,
    Groq key validation fails exactly when the key store returns an error
    or resolves the key to a non-empty provider other than [groq], and then
    leaves the request as it is; when it succeeds and the actual key differs
    from the presented one, the [Authorization] header is rewritten to carry
    the actual key, and otherwise the request is unchanged; a request
    without [Authorization] header or with another scheme passes unchanged. *)
Theorem groq_key_validation (req : Request) (keyStore : Groq.APIKeyStore) :
  let auth := Header.Get (ReqHeader req) "Authorization" in
  let apiKey := strings.drop 7 auth in
  let actualKey := fst (fst (keyStore apiKey)) in
  let provider := snd (fst (keyStore apiKey)) in
  let err := snd (keyStore apiKey) in
  let result := Groq.ValidateAPIKey req keyStore in
  (strings.HasPrefix auth "Bearer " = true ->
     (snd result <> None <->
        err <> None \/ (provider <> "" /\ provider <> "groq")) /\
     (snd result <> None -> fst result = req) /\
     (snd result = None -> actualKey <> apiKey ->
        fst result
        = Groq.withHeader req
            (Header.Set_ (ReqHeader req) "Authorization" ("Bearer " +:+ actualKey)) /\
        Header.Get (ReqHeader (fst result)) "Authorization"
        = "Bearer " +:+ actualKey) /\
     (snd result = None -> actualKey = apiKey -> fst result = req)) /\
  (auth = "" \/ strings.HasPrefix auth "Bearer " = false ->
     result = (req, None)).
Proof.
  cbv zeta. unfold Groq.ValidateAPIKey. cbv zeta.
  set (auth := Header.Get (ReqHeader req) "Authorization").
  split.
  - intros Hb.
    destruct (String.eqb auth "") eqn:E0;
      [apply String.eqb_eq in E0; rewrite E0 in Hb; discriminate|].
    rewrite Hb. cbn [negb].
    unfold strings.TrimPrefix. rewrite Hb. simpl String.length.
    destruct (keyStore (strings.drop 7 auth)) as [[actualKey provider] [e|]];
      cbn [fst snd].
    { split; [split; [by left|done]|].
      split; [done|]. split; intros; discriminate. }
    destruct (String.eqb provider "") eqn:E1; cbn [negb andb].
    + apply String.eqb_eq in E1 as ->.
      destruct (String.eqb actualKey (strings.drop 7 auth)) eqn:E2;
        cbn [negb fst snd].
      * apply String.eqb_eq in E2.
        split; [split; [done|intros [?|[? _]]; done]|].
        split; [done|]. split; [intros _ ?; done|done].
      * apply String.eqb_neq in E2.
        split; [split; [done|intros [?|[? _]]; done]|].
        split; [done|]. split; [|intros _ ?; done].
        intros _ _. split; [done|].
        unfold Groq.withHeader, Header.Get, Header.Set_. cbn.
        by rewrite lookup_insert_eq.
    + apply String.eqb_neq in E1.
      destruct (String.eqb provider Groq.GetName) eqn:E3; cbn [negb fst snd].
      * apply String.eqb_eq in E3.
        destruct (String.eqb actualKey (strings.drop 7 auth)) eqn:E2;
          cbn [negb fst snd].
        -- apply String.eqb_eq in E2.
           split; [split; [done|intros [?|[_ ?]]; done]|].
           split; [done|]. split; [intros _ ?; done|done].
        -- apply String.eqb_neq in E2.
           split; [split; [done|intros [?|[_ ?]]; done]|].
           split; [done|]. split; [|intros _ ?; done].
           intros _ _. split; [done|].
           unfold Groq.withHeader, Header.Get, Header.Set_. cbn.
           by rewrite lookup_insert_eq.
      * apply String.eqb_neq in E3.
        split; [split; [by right|done]|].
        split; [done|]. split; intros; discriminate.
  - intros [H0|Hnb].
    + by rewrite H0.
    + destruct (String.eqb auth ""); [done|]. by rewrite Hnb.
Qed.

Lemma groq_key_validation_witness :
  snd (Groq.ValidateAPIKey
         (newRequest "POST" "/groq/v1/chat/completions"
            {[ "Authorization" := ["Bearer iw:abcd1234"] ]})
         (translatingKeyStore "groq")) = None /\
  Header.Get
    (ReqHeader
       (fst (Groq.ValidateAPIKey
               (newRequest "POST" "/groq/v1/chat/completions"
                  {[ "Authorization" := ["Bearer iw:abcd1234"] ]})
               (translatingKeyStore "groq"))))
    "Authorization" = "Bearer gsk-actual".
Proof.
  destruct (groq_key_validation
              (newRequest "POST" "/groq/v1/chat/completions"
                 {[ "Authorization" := ["Bearer iw:abcd1234"] ]})
              (translatingKeyStore "groq"))
    as [Hbearer _].
  destruct Hbearer as (_ & _ & Hrewrite & _); [vm_compute; reflexivity|].
  split; [vm_compute; reflexivity|].
  destruct Hrewrite as [_ Hget];
    [vm_compute; reflexivity|vm_compute; discriminate|].
  rewrite Hget. vm_compute. reflexivity.
Defined.

(** C9, as stated, fails when the key store does not know the key: it
    returns an error and no provider, and validation fails all the same. *)
Lemma unknown_key_is_rejected :
  snd (Groq.ValidateAPIKey
         (newRequest "POST" "/groq/v1/chat/completions"
            {[ "Authorization" := ["Bearer iw:unknown"] ]})
         emptyKeyStore)
  = Some "API key validation failed: API key not found" /\
  snd (fst (emptyKeyStore "iw:unknown")) = "".
Proof. split; vm_compute; reflexivity. Qed.

(** * Further properties of the sources *)

(** ** Identity resolution *)

Lemma drop_length_app (pre rest : string) :
  strings.drop (String.length pre) (pre +:+ rest) = rest.
Proof.
  induction pre as [|a pre IH]; [done|]. by rewrite append_String.
Qed.

Lemma take_drop (n : nat) (s : string) :
  s = strings.take n s +:+ strings.drop n s.
Proof.
  revert s. induction n as [|n IH]; intros [|a s]; simpl; try done.
  rewrite append_String. f_equal. apply IH.
Qed.

Lemma take_length (n : nat) (s : string) :
  (String.length (strings.take n s) <= n)%nat.
Proof.
  revert s. induction n as [|n IH]; intros [|a s]; simpl; try lia.
  specialize (IH s). lia.
Qed.

Lemma first_nonempty_app (l1 l2 : list string) :
  first_nonempty l1 = "" -> first_nonempty (l1 ++ l2) = first_nonempty l2.
Proof.
  induction l1 as [|c l1 IH]; simpl; [done|].
  destruct (String.eqb c "") eqn:E; [done|]. intros ->. done.
Qed.

(** X1: when nothing ranks before the [Authorization] header, the identity
    is [token:] followed by a leading part of the bearer token of at most 8
    bytes: the rest of the token never enters the identity. *)
Theorem bearer_identity_shows_8_bytes (req : Request) (provider : option Provider) :
  first_nonempty (take 5 (identityCandidates req provider)) = "" ->
  strings.HasPrefix (Header.Get (ReqHeader req) "Authorization") "Bearer " = true ->
  exists shown hidden : string,
    strings.drop 7 (Header.Get (ReqHeader req) "Authorization") = shown +:+ hidden /\
    (String.length shown <= 8)%nat /\
    ExtractUserIDFromRequest req provider = "token:" +:+ shown.
Proof.
  intros Hearlier Hbearer.
  exists (strings.take 8 (strings.drop 7 (Header.Get (ReqHeader req) "Authorization"))),
         (strings.drop 8 (strings.drop 7 (Header.Get (ReqHeader req) "Authorization"))).
  split; [apply take_drop|]. split; [apply take_length|].
  rewrite identity_first_nonempty.
  change (identityCandidates req provider)
    with (take 5 (identityCandidates req provider) ++ [bearerIdentity req]).
  rewrite <- app_assoc, first_nonempty_app by done.
  unfold bearerIdentity. rewrite Hbearer. cbn [app first_nonempty].
  by rewrite eqb_empty_append.
Qed.

Lemma bearer_identity_shows_8_bytes_witness :
  ExtractUserIDFromRequest
    (newRequest "POST" "/test" {[ "Authorization" := ["Bearer abc12345token"] ]}) None
  = "token:abc12345".
Proof.
  destruct (bearer_identity_shows_8_bytes
              (newRequest "POST" "/test" {[ "Authorization" := ["Bearer abc12345token"] ]})
              None)
    as (shown & hidden & Hsplit & Hlen & Hid);
    [vm_compute; reflexivity|vm_compute; reflexivity|].
  vm_compute. reflexivity.
Defined.

Lemma Contains_upto (s : string) : strings.Contains (upto "/" s) "/" = false.
Proof.
  induction s as [|a s IH]; [done|]. cbn [upto].
  destruct (Ascii.eqb a "/") eqn:E; [done|].
  cbn [strings.Contains strings.HasPrefix String.prefix]. rewrite IH.
  destruct (ascii_dec "/" a) as [<-|]; [|done].
  by rewrite Ascii.eqb_refl in E.
Qed.

(** X2: a user id taken from a [/meta/] path never contains a slash. *)
Theorem path_identity_has_no_slash (req : Request) (provider : option Provider) :
  default "" (ctxUserID req) = "" ->
  metaUserSegment (URLPath req) <> "" ->
  ExtractUserIDFromRequest req provider = metaUserSegment (URLPath req) /\
  strings.Contains (ExtractUserIDFromRequest req provider) "/" = false.
Proof.
  intros Hctx Hseg.
  assert (ExtractUserIDFromRequest req provider = metaUserSegment (URLPath req)) as ->.
  { rewrite identity_first_nonempty. unfold identityCandidates.
    cbn [app first_nonempty]. rewrite Hctx. cbn [String.eqb].
    apply String.eqb_neq in Hseg. by rewrite Hseg. }
  split; [done|]. unfold metaUserSegment.
  destruct (strings.HasPrefix (URLPath req) "/meta/"); [apply Contains_upto|done].
Qed.

Lemma path_identity_has_no_slash_witness :
  ExtractUserIDFromRequest
    (newRequest "POST" "/meta/url-user/openai/v1/chat/completions" ∅) None
  = "url-user".
Proof.
  destruct (path_identity_has_no_slash
              (newRequest "POST" "/meta/url-user/openai/v1/chat/completions" ∅) None)
    as [Hid _]; [reflexivity|vm_compute; discriminate|].
  rewrite Hid. vm_compute. reflexivity.
Defined.

(** ** Provider classification *)

Lemma isProviderName_elem (p : string) :
  isProviderName p = true -> p ∈ providerNames.
Proof.
  rewrite isProviderName_cases, !orb_true_iff, !String.eqb_eq.
  unfold providerNames. intros [[[->| ->]| ->]| ->]; set_solver.
Qed.

(** X3: a provider returned by [GetProviderFromRequest] is registered
    under one of the names [openai], [anthropic], [gemini], [groq], and that
    name is the provider segment of the path; a provider registered under
    any other name is never returned. *)
Theorem classified_provider_is_registered (pm : ProviderManager) (req : Request)
    (p : Provider) :
  GetProviderFromRequest pm req = Some p ->
  exists name : string,
    name ∈ providerNames /\
    registered pm !! name = Some p /\
    (metaProviderSegment (URLPath req) = Some name \/
     firstSegment (URLPath req) = Some name).
Proof.
  rewrite GetProviderFromRequest_by_segments. unfold provider_for_request.
  destruct (metaProviderSegment (URLPath req)) as [name|].
  - destruct (isProviderName name) eqn:E; [|done].
    intros H. exists name. eauto using isProviderName_elem.
  - destruct (firstSegment (URLPath req)) as [name|]; [|done].
    destruct (isProviderName name) eqn:E; [|done].
    intros H. exists name. eauto using isProviderName_elem.
Qed.

Lemma classified_provider_is_registered_witness :
  exists name : string,
    name ∈ providerNames /\
    registered (managerOf (mockProvider "groq" scenarioMetadata) false) !! name
    = Some (mockProvider "groq" scenarioMetadata).
Proof.
  destruct (classified_provider_is_registered
              (managerOf (mockProvider "groq" scenarioMetadata) false)
              (newRequest "POST" "/groq/v1/chat/completions" ∅)
              (mockProvider "groq" scenarioMetadata))
    as (name & Hin & Hreg & _); [vm_compute; reflexivity|].
  exists name. by split.
Defined.

Lemma metaProviderSegment_meta (u seg rest : string) :
  upto "/" u = u -> upto "/" seg = seg ->
  metaProviderSegment ("/meta/" +:+ u +:+ "/" +:+ seg +:+ "/" +:+ rest) = Some seg.
Proof.
  intros Hu Hseg. unfold metaProviderSegment.
  rewrite HasPrefix_app.
  change 6%nat with (String.length "/meta/").
  rewrite (drop_length_app "/meta/").
  change ("/" +:+ seg +:+ "/" +:+ rest) with (String "/" (seg +:+ String "/" rest)).
  by rewrite after_app, upto_app.
Qed.

Lemma firstSegment_direct (seg rest : string) :
  upto "/" seg = seg ->
  firstSegment ("/" +:+ seg +:+ "/" +:+ rest) = Some seg.
Proof.
  intros Hseg. apply firstSegment_HasPrefix; [done|].
  replace ("/" +:+ seg +:+ "/" +:+ rest) with (("/" +:+ seg +:+ "/") +:+ rest)
    by by rewrite !append_assoc.
  apply HasPrefix_app.
Qed.

Lemma metaProviderSegment_direct (seg rest : string) :
  upto "/" seg = seg -> seg <> "meta" ->
  metaProviderSegment ("/" +:+ seg +:+ "/" +:+ rest) = None.
Proof.
  intros Hseg Hne. unfold metaProviderSegment.
  destruct (strings.HasPrefix _ "/meta/") eqn:E; [|done].
  exfalso. apply Hne.
  assert (firstSegment ("/" +:+ seg +:+ "/" +:+ rest) = Some "meta") as Hm.
  { apply (firstSegment_HasPrefix "meta"); [done|exact E]. }
  rewrite firstSegment_direct in Hm by done. congruence.
Qed.

(** X4: a meta URL is classified like the direct URL it stands for:
    [/meta/<u>/<p>/<rest>] and [/<p>/<rest>] resolve to the same provider
    (or to none), for every slash-free [<u>] and [<p>] other than [meta]. *)
Theorem meta_route_classified_like_direct (pm : ProviderManager)
    (reqMeta reqDirect : Request) (u seg rest : string) :
  upto "/" u = u -> upto "/" seg = seg -> seg <> "meta" ->
  URLPath reqMeta = "/meta/" +:+ u +:+ "/" +:+ seg +:+ "/" +:+ rest ->
  URLPath reqDirect = "/" +:+ seg +:+ "/" +:+ rest ->
  GetProviderFromRequest pm reqMeta = GetProviderFromRequest pm reqDirect.
Proof.
  intros Hu Hseg Hne Hmeta Hdirect.
  rewrite !GetProviderFromRequest_by_segments. unfold provider_for_request.
  rewrite Hmeta, Hdirect, metaProviderSegment_meta by done.
  by rewrite metaProviderSegment_direct, firstSegment_direct by done.
Qed.

Lemma meta_route_classified_like_direct_witness :
  GetName <$> GetProviderFromRequest
                (managerOf (mockProvider "openai" scenarioMetadata) false)
                (newRequest "POST" "/meta/url-user/openai/v1/chat/completions" ∅)
  = Some "openai".
Proof.
  rewrite (meta_route_classified_like_direct
             (managerOf (mockProvider "openai" scenarioMetadata) false)
             (newRequest "POST" "/meta/url-user/openai/v1/chat/completions" ∅)
             (newRequest "POST" "/openai/v1/chat/completions" ∅)
             "url-user" "openai" "v1/chat/completions"
             eq_refl eq_refl ltac:(discriminate) eq_refl eq_refl).
  vm_compute. reflexivity.
Defined.

(** ** Logging middleware *)

Lemma provider_prefix_not_meta (path name : string) :
  name ∈ providerNames ->
  strings.HasPrefix path ("/" +:+ name +:+ "/") = true ->
  strings.HasPrefix path "/meta/" = false.
Proof.
  unfold providerNames. rewrite !elem_of_cons, elem_of_nil.
  intros [->|[->|[->|[->|[]]]]] H; apply HasPrefix_split in H; rewrite H;
    reflexivity.
Qed.

Lemma GetProviderFromRequest_direct (pm : ProviderManager) (req : Request) :
  strings.HasPrefix (URLPath req) "/meta/" = false ->
  GetProviderFromRequest pm req
  = if strings.HasPrefix (URLPath req) "/openai/" then GetProvider pm "openai"
    else if strings.HasPrefix (URLPath req) "/anthropic/" then GetProvider pm "anthropic"
    else if strings.HasPrefix (URLPath req) "/gemini/" then GetProvider pm "gemini"
    else if strings.HasPrefix (URLPath req) "/groq/" then GetProvider pm "groq"
    else None.
Proof. intros H. unfold GetProviderFromRequest. cbv zeta. by rewrite H. Qed.

(** The provider name read off a provider route. *)
Lemma provider_route_name (pm : ProviderManager) (req : Request) :
  isProviderRoute (URLPath req)
  = negb (String.eqb (getProviderFromPath (URLPath req)) "") /\
  (isProviderRoute (URLPath req) = true ->
   getProviderFromPath (URLPath req) ∈ providerNames /\
   GetProviderFromRequest pm req = GetProvider pm (getProviderFromPath (URLPath req))).
Proof.
  unfold isProviderRoute, getProviderFromPath.
  destruct (strings.HasPrefix (URLPath req) "/openai/") eqn:Eo.
  { split; [done|]. intros _. split; [set_solver|].
    rewrite GetProviderFromRequest_direct, Eo; [done|].
    apply (provider_prefix_not_meta _ "openai"); [set_solver|done]. }
  destruct (strings.HasPrefix (URLPath req) "/anthropic/") eqn:Ea.
  { split; [done|]. intros _. split; [set_solver|].
    rewrite GetProviderFromRequest_direct, Eo, Ea; [done|].
    apply (provider_prefix_not_meta _ "anthropic"); [set_solver|done]. }
  destruct (strings.HasPrefix (URLPath req) "/gemini/") eqn:Eg.
  { split; [done|]. intros _. split; [set_solver|].
    rewrite GetProviderFromRequest_direct, Eo, Ea, Eg; [done|].
    apply (provider_prefix_not_meta _ "gemini"); [set_solver|done]. }
  destruct (strings.HasPrefix (URLPath req) "/groq/") eqn:Eq.
  { split; [done|]. intros _. split; [set_solver|].
    rewrite GetProviderFromRequest_direct, Eo, Ea, Eg, Eq; [done|].
    apply (provider_prefix_not_meta _ "groq"); [set_solver|done]. }
  split; [done|]. intros [=].
Qed.

(** X5: the provider name the access log derives from the path agrees with
    the classification of the request: on a provider route the name is one of
    the four provider names and [GetProviderFromRequest] returns the provider
    registered under it; off the provider routes the name is empty. *)
Theorem logged_provider_name_agrees (pm : ProviderManager) (req : Request) :
  isProviderRoute (URLPath req)
  = negb (String.eqb (getProviderFromPath (URLPath req)) "") /\
  (isProviderRoute (URLPath req) = true ->
   getProviderFromPath (URLPath req) ∈ providerNames /\
   GetProviderFromRequest pm req = GetProvider pm (getProviderFromPath (URLPath req))).
Proof. apply provider_route_name. Qed.

Lemma logged_provider_name_agrees_witness :
  getProviderFromPath "/groq/v1/models" = "groq" /\
  GetName <$> GetProviderFromRequest
                (managerOf (mockProvider "groq" scenarioMetadata) false)
                (newRequest "GET" "/groq/v1/models" ∅)
  = Some "groq".
Proof.
  destruct (logged_provider_name_agrees
              (managerOf (mockProvider "groq" scenarioMetadata) false)
              (newRequest "GET" "/groq/v1/models" ∅))
    as [_ Hroute].
  destruct Hroute as [_ Hget]; [vm_compute; reflexivity|].
  split; [vm_compute; reflexivity|]. rewrite Hget. vm_compute. reflexivity.
Defined.

(** The new log entries of one request, from the verdicts the middleware
    computes. *)
Lemma LoggingMiddleware_log (pm : ProviderManager) (next : Handler) (duration : Z)
    (w : ResponseWriter) (r : Request) (log : list LogRecord) :
  exists started completed : LogRecord,
    logLevel started = LevelInfo /\ logLevel completed = LevelInfo /\
    logMessage started ∈ ["Started streaming request"; "Started request"] /\
    logMessage completed ∈ ["Completed streaming request"; "Completed request"] /\
    (forall reason, ("reason", AttrString reason) ∉ logAttrs started) /\
    (forall reason, ("reason", AttrString reason) ∉ logAttrs completed) /\
    snd (LoggingMiddleware pm next duration w r log)
    = log ++ [started]
      ++ (if isProviderRoute (URLPath r) then
            match GetProviderFromRequest pm r with
            | None =>
                [mkLog LevelError "Non-tracked provider route"
                   [("method", AttrString (Method r)); ("path", AttrString (URLPath r));
                    ("provider", AttrString (getProviderFromPath (URLPath r)));
                    ("reason", AttrString "Provider not found");
                    ("api_endpoint", AttrBool (isAPIEndpoint (URLPath r)));
                    ("provider_found", AttrBool false)]]
            | Some _ =>
                if isAPIEndpoint (URLPath r) then []
                else [mkLog LevelInfo "Non-tracked provider route"
                        [("method", AttrString (Method r)); ("path", AttrString (URLPath r));
                         ("provider", AttrString (getProviderFromPath (URLPath r)));
                         ("reason", AttrString "Non-API endpoint");
                         ("api_endpoint", AttrBool false);
                         ("provider_found", AttrBool true)]]
            end
          else [])
      ++ [completed]
      ++ (if isProviderRoute (URLPath r) then
            match GetProviderFromRequest pm r with
            | Some _ =>
                if isAPIEndpoint (URLPath r)
                then [mkLog LevelInfo "Provider route tracked"
                        [("method", AttrString (Method r)); ("path", AttrString (URLPath r));
                         ("cost_tracked", AttrBool true)]]
                else [mkLog LevelWarn "Provider route not tracked"
                        [("method", AttrString (Method r)); ("path", AttrString (URLPath r));
                         ("cost_tracked", AttrBool false)]]
            | None =>
                [mkLog LevelWarn "Provider route not tracked"
                   [("method", AttrString (Method r)); ("path", AttrString (URLPath r));
                    ("cost_tracked", AttrBool false)]]
            end
          else []).
Proof.
  unfold LoggingMiddleware. cbv zeta.
  destruct (provider_route_name pm r) as [Hname _].
  set (isStreaming := IsStreamingRequest pm r).
  exists (if isStreaming
          then mkLog LevelInfo "Started streaming request"
                 [("method", AttrString (Method r)); ("path", AttrString (URLPath r));
                  ("remote_addr", AttrString (RemoteAddr r)); ("streaming", AttrBool true)]
          else mkLog LevelInfo "Started request"
                 [("method", AttrString (Method r)); ("path", AttrString (URLPath r));
                  ("remote_addr", AttrString (RemoteAddr r)); ("streaming", AttrBool false)]),
         (if isStreaming
          then mkLog LevelInfo "Completed streaming request"
                 [("method", AttrString (Method r)); ("path", AttrString (URLPath r));
                  ("duration", AttrDuration duration); ("streaming", AttrBool true)]
          else mkLog LevelInfo "Completed request"
                 [("method", AttrString (Method r)); ("path", AttrString (URLPath r));
                  ("duration", AttrDuration duration); ("streaming", AttrBool false)]).
  split; [by destruct isStreaming|]. split; [by destruct isStreaming|].
  split; [destruct isStreaming; cbn; set_solver|].
  split; [destruct isStreaming; cbn; set_solver|].
  split; [intros reason; destruct isStreaming; cbn;
          rewrite !elem_of_cons, elem_of_nil; intros [?|[?|[?|[?|[]]]]]; discriminate|].
  split; [intros reason; destruct isStreaming; cbn;
          rewrite !elem_of_cons, elem_of_nil; intros [?|[?|[?|[?|[]]]]]; discriminate|].
  destruct (isProviderRoute (URLPath r)) eqn:Hroute.
  - symmetry in Hname. apply negb_true_iff in Hname. rewrite Hname.
    destruct (GetProviderFromRequest pm r), (isAPIEndpoint (URLPath r));
      cbn; by rewrite <- ?app_assoc.
  - cbn. by rewrite <- ?app_assoc, ?app_nil_r.
Qed.

Lemma TokenParsingMiddleware_untracked {World : Type} (pm : ProviderManager)
    (callbacks : list (option (MetadataCallback World))) (next : Handler)
    (w : ResponseWriter) (r : Request) (world : World) :
  GetProviderFromRequest pm r = None \/ isAPIEndpoint (URLPath r) = false ->
  TokenParsingMiddleware pm callbacks next w r world
  = (serveDirect w (next r), world).
Proof.
  intros H. unfold TokenParsingMiddleware. cbv zeta.
  rewrite (proj1 (captured_state pm next w r)).
  destruct (GetProviderFromRequest pm r) as [p|]; [|done].
  destruct H as [H|H]; [done|]. by rewrite H.
Qed.

(** X6: the reason the access log gives for a non-tracked provider route is
    always a known one: [Provider not found] (level error) when no provider
    is registered for the route, or [Non-API endpoint] (level info) when a
    provider is registered and the path is not an API endpoint; the reason
    [Unknown reason] is never logged.  A request adds between two and four
    entries to the log. *)
Theorem logged_reason_is_known (pm : ProviderManager) (next : Handler)
    (duration : Z) (w : ResponseWriter) (r : Request) (log : list LogRecord) :
  exists new : list LogRecord,
    snd (LoggingMiddleware pm next duration w r log) = log ++ new /\
    (2 <= length new <= 4)%nat /\
    forall e reason,
      e ∈ new -> ("reason", AttrString reason) ∈ logAttrs e ->
      (reason = "Provider not found" /\ logLevel e = LevelError /\
       GetProviderFromRequest pm r = None) \/
      (reason = "Non-API endpoint" /\ logLevel e = LevelInfo /\
       isAPIEndpoint (URLPath r) = false /\ GetProviderFromRequest pm r <> None).
Proof.
  destruct (LoggingMiddleware_log pm next duration w r log)
    as (started & completed & _ & _ & _ & _ & Hs & Hc & ->).
  eexists. split; [reflexivity|].
  destruct (isProviderRoute (URLPath r)),
           (GetProviderFromRequest pm r) as [p|] eqn:Hp,
           (isAPIEndpoint (URLPath r)) eqn:Hapi;
    cbn [app length]; (split; [lia|]);
    intros e reason; rewrite ?elem_of_cons, elem_of_nil;
    intros He Hin; repeat destruct He as [->|He]; try done;
    try (by apply Hs in Hin); try (by apply Hc in Hin);
    cbn in Hin; rewrite ?elem_of_cons, elem_of_nil in Hin;
    repeat destruct Hin as [Hin|Hin]; try done;
    injection Hin as <-; auto.
Qed.

Lemma logged_reason_is_known_witness :
  (length (snd (LoggingMiddleware
                  (managerOf (mockProvider "openai" scenarioMetadata) false)
                  (respond "ok") 5 newRecorder
                  (newRequest "GET" "/groq/v1/models" ∅) [])) <= 4)%nat.
Proof.
  destruct (logged_reason_is_known
              (managerOf (mockProvider "openai" scenarioMetadata) false)
              (respond "ok") 5 newRecorder (newRequest "GET" "/groq/v1/models" ∅) [])
    as (new & Heq & Hlen & _).
  rewrite Heq. cbn [app]. lia.
Defined.

(** X7: the logging middleware hands the handler's response on unchanged
    and only adds to the log.  The last entry of its log is [Provider route
    tracked] exactly when the path is a provider route, a provider is
    registered for it and the path is an API endpoint, which is when the
    token parsing middleware inspects the response; on a provider route
    whose log ends otherwise, that middleware hands the handler's response
    on as it is and runs no callback. *)
Theorem logged_tracking_verdict {World : Type} (pm : ProviderManager)
    (callbacks : list (option (MetadataCallback World))) (next : Handler)
    (duration : Z) (w : ResponseWriter) (r : Request) (log : list LogRecord)
    (world : World) :
  fst (LoggingMiddleware pm next duration w r log) = serveDirect w (next r) /\
  (exists new : list LogRecord,
     snd (LoggingMiddleware pm next duration w r log) = log ++ new) /\
  (logMessage <$> last (snd (LoggingMiddleware pm next duration w r log))
   = Some "Provider route tracked" <->
   isProviderRoute (URLPath r) = true /\ isAPIEndpoint (URLPath r) = true /\
   GetProviderFromRequest pm r <> None) /\
  (logMessage <$> last (snd (LoggingMiddleware pm next duration w r log))
   <> Some "Provider route tracked" ->
   isProviderRoute (URLPath r) = true ->
   TokenParsingMiddleware pm callbacks next w r world
   = (serveDirect w (next r), world)).
Proof.
  split; [reflexivity|].
  destruct (LoggingMiddleware_log pm next duration w r log)
    as (started & completed & _ & _ & _ & Hmc & _ & _ & ->).
  split; [eexists; reflexivity|].
  assert (logMessage completed <> "Provider route tracked") as Hc
    by (intros E; rewrite E, !elem_of_cons, elem_of_nil in Hmc;
        destruct Hmc as [?|[?|[]]]; discriminate).
  destruct (isProviderRoute (URLPath r)),
           (GetProviderFromRequest pm r) as [p|] eqn:Hp,
           (isAPIEndpoint (URLPath r)) eqn:Hapi;
    rewrite !last_app; cbn [last app fmap option_fmap option_map logMessage].
  all: split;
    [split;
       [intros Hlast; try discriminate Hlast;
        try (injection Hlast as Hlast; by destruct (Hc Hlast)); try done
       |intros (? & ? & ?); try done]
    |intros Hlast Hroute; try done].
  - apply TokenParsingMiddleware_untracked. by right.
  - apply TokenParsingMiddleware_untracked. by left.
  - apply TokenParsingMiddleware_untracked. by left.
Qed.

Lemma logged_tracking_verdict_witness :
  logMessage <$> last (snd (LoggingMiddleware
                              (managerOf (mockProvider "openai" scenarioMetadata) false)
                              (respond "completion") 5 newRecorder
                              (newRequest "POST" "/openai/v1/chat/completions" ∅) []))
  = Some "Provider route tracked" /\
  TokenParsingMiddleware
    (managerOf (mockProvider "openai" scenarioMetadata) false)
    [Some recordingCallback] (respond "ok") newRecorder
    (newRequest "GET" "/openai/v1/models" ∅) []
  = (serveDirect newRecorder (respond "ok" (newRequest "GET" "/openai/v1/models" ∅)), []).
Proof.
  split.
  - apply (proj1 (proj2 (proj2 (logged_tracking_verdict (World := unit)
              (managerOf (mockProvider "openai" scenarioMetadata) false) []
              (respond "completion") 5 newRecorder
              (newRequest "POST" "/openai/v1/chat/completions" ∅) [] tt)))).
    split; [vm_compute; reflexivity|]. split; [vm_compute; reflexivity|].
    vm_compute. discriminate.
  - apply (proj2 (proj2 (proj2 (logged_tracking_verdict
              (managerOf (mockProvider "openai" scenarioMetadata) false)
              [Some recordingCallback] (respond "ok") 5 newRecorder
              (newRequest "GET" "/openai/v1/models" ∅) [] [])))).
    + vm_compute. discriminate.
    + vm_compute. reflexivity.
Defined.

(** ** Token parsing middleware *)

(** X8: a request without a resolved provider, or whose path is not an API
    endpoint, passes through the middleware untouched: the response is the
    handler's, no header is added and no callback runs. *)
Theorem middleware_skips_untracked_requests {World : Type} (pm : ProviderManager)
    (callbacks : list (option (MetadataCallback World))) (next : Handler)
    (w : ResponseWriter) (r : Request) (world : World) :
  GetProviderFromRequest pm r = None \/ isAPIEndpoint (URLPath r) = false ->
  TokenParsingMiddleware pm callbacks next w r world
  = (serveDirect w (next r), world).
Proof. apply TokenParsingMiddleware_untracked. Qed.

Lemma middleware_skips_untracked_requests_witness :
  TokenParsingMiddleware
    (managerOf (mockProvider "openai" scenarioMetadata) false)
    [Some recordingCallback] (respond "health check") newRecorder
    (newRequest "GET" "/openai/health" ∅) []
  = ({| Code := 200; wroteHeader := true; HeaderMap := ∅;
        Body := bytes "health check" |}, []).
Proof.
  rewrite middleware_skips_untracked_requests; [|right; vm_compute; reflexivity].
  vm_compute. reflexivity.
Defined.

Lemma HeaderSet_lookup_ne (w : ResponseWriter) (key key' value : string) :
  key <> key' -> HeaderMap (HeaderSet w key value) !! key' = HeaderMap w !! key'.
Proof. intros Hne. unfold HeaderSet, Header.Set_. cbn. by rewrite lookup_insert_ne. Qed.

Lemma setMeteringHeaders_other (w : ResponseWriter) (m : LLMResponseMetadata)
    (key : string) :
  key ∉ meteringHeaders ->
  HeaderMap (setMeteringHeaders w m) !! key = HeaderMap w !! key.
Proof.
  unfold meteringHeaders. rewrite !not_elem_of_cons.
  intros (H1 & H2 & H3 & H4 & H5 & H6 & H7 & _).
  unfold setMeteringHeaders. cbv zeta.
  destruct (negb _); by rewrite !HeaderSet_lookup_ne.
Qed.

Lemma setMeteringHeaders_status (w : ResponseWriter) (m : LLMResponseMetadata) :
  Code (setMeteringHeaders w m) = Code w /\
  wroteHeader (setMeteringHeaders w m) = wroteHeader w /\
  Body (setMeteringHeaders w m) = Body w.
Proof. unfold setMeteringHeaders. by destruct (negb _). Qed.

(** X9: whatever the request, the handler and the parser do, the
    middleware changes nothing of the handler's response but the seven
    metering headers: the status, the body and every other header are those
    the handler left. *)
Theorem middleware_touches_only_metering_headers {World : Type}
    (pm : ProviderManager) (callbacks : list (option (MetadataCallback World)))
    (next : Handler) (w : ResponseWriter) (r : Request) (world : World) :
  Code (fst (TokenParsingMiddleware pm callbacks next w r world))
  = Code (serveDirect w (next r)) /\
  wroteHeader (fst (TokenParsingMiddleware pm callbacks next w r world))
  = wroteHeader (serveDirect w (next r)) /\
  Body (fst (TokenParsingMiddleware pm callbacks next w r world))
  = Body (serveDirect w (next r)) /\
  forall key, key ∉ meteringHeaders ->
    HeaderMap (fst (TokenParsingMiddleware pm callbacks next w r world)) !! key
    = HeaderMap (serveDirect w (next r)) !! key.
Proof.
  unfold TokenParsingMiddleware. cbv zeta.
  rewrite (proj1 (captured_state pm next w r)).
  destruct (GetProviderFromRequest pm r) as [p|]; [|done].
  destruct (isAPIEndpoint (URLPath r)); [|done].
  destruct (finalMetadata _ _ p) as [[m|] [e|]]; try done.
  cbn [fst]. destruct (setMeteringHeaders_status (serveDirect w (next r)) m)
    as (-> & -> & ->).
  repeat split. intros key Hkey. by apply setMeteringHeaders_other.
Qed.

Lemma middleware_touches_only_metering_headers_witness :
  Header.Get
    (HeaderMap (fst (TokenParsingMiddleware
                       (managerOf (mockProvider "openai" scenarioMetadata) false)
                       [Some recordingCallback]
                       (fun _ => [CallHeaderSet "Content-Type" "application/json";
                                  CallWrite (bytes "completion")])
                       newRecorder
                       (newRequest "POST" "/openai/v1/chat/completions" ∅) [])))
    "Content-Type"
  = "application/json".
Proof.
  destruct (middleware_touches_only_metering_headers
              (managerOf (mockProvider "openai" scenarioMetadata) false)
              [Some recordingCallback]
              (fun _ => [CallHeaderSet "Content-Type" "application/json";
                         CallWrite (bytes "completion")])
              newRecorder
              (newRequest "POST" "/openai/v1/chat/completions" ∅) [])
    as (_ & _ & _ & Hother).
  unfold Header.Get. rewrite Hother; [vm_compute; reflexivity|].
  unfold meteringHeaders. rewrite !not_elem_of_cons.
  repeat split; try discriminate. apply not_elem_of_nil.
Defined.

(** ** Response capture *)

Lemma responseCapture_Write_position (rc : responseCapture) (b : list Byte.byte) :
  0 <= lastParsedPos rc <= Z.of_nat (length (body rc)) ->
  0 <= lastParsedPos (fst (responseCapture_Write rc b))
  <= Z.of_nat (length (body (fst (responseCapture_Write rc b)))).
Proof.
  intros H. rewrite responseCapture_Write_body.
  unfold responseCapture_Write.
  destruct (provider rc) as [p|]; cbn; [|rewrite length_app; lia].
  destruct (isStreaming rc && _); cbn; [|rewrite length_app; lia].
  destruct (ParseResponseMetadata p _ true); cbn. lia.
Qed.

(** X10: the position up to which the capture has parsed always lies within
    the capture buffer, whatever the handler calls. *)
Theorem lastParsedPos_within_buffer (rc : responseCapture) (calls : list HandlerCall) :
  0 <= lastParsedPos rc <= Z.of_nat (length (body rc)) ->
  0 <= lastParsedPos (serveCapture rc calls)
  <= Z.of_nat (length (body (serveCapture rc calls))).
Proof.
  revert rc. induction calls as [|c calls IH]; intros rc H; [done|].
  unfold serveCapture in *. cbn [fold_left]. apply IH.
  destruct c; [done| |done]. by apply responseCapture_Write_position.
Qed.

Lemma lastParsedPos_within_buffer_witness :
  0 <= lastParsedPos
         (captured (managerOf (sentinelProvider "anthropic" scenarioMetadata) true)
            streamTwoFrames newRecorder
            (newRequest "POST" "/anthropic/v1/messages" ∅))
  <= 23.
Proof.
  apply (lastParsedPos_within_buffer
           {| rcWriter := newRecorder; body := []; isStreaming := true;
              provider := Some (sentinelProvider "anthropic" scenarioMetadata);
              lastMetadata := None; lastParsedPos := 0 |}
           (streamTwoFrames (newRequest "POST" "/anthropic/v1/messages" ∅))).
  simpl. lia.
Defined.

Lemma responseCapture_Write_keeps (rc : responseCapture) (b : list Byte.byte) :
  is_Some (lastMetadata rc) ->
  is_Some (lastMetadata (fst (responseCapture_Write rc b))).
Proof.
  intros H. unfold responseCapture_Write.
  destruct (provider rc) as [p|]; [|done].
  destruct (isStreaming rc && _); [|done].
  by destruct (ParseResponseMetadata p _ true) as [[m|] [e|]].
Qed.

(** X11: once the capture retains metadata it never loses it: a later write
    whose parse fails, or any other call of the handler, leaves metadata in
    place. *)
Theorem retained_metadata_never_lost (rc : responseCapture) (calls : list HandlerCall) :
  is_Some (lastMetadata rc) ->
  is_Some (lastMetadata (serveCapture rc calls)).
Proof.
  revert rc. induction calls as [|c calls IH]; intros rc H; [done|].
  unfold serveCapture in *. cbn [fold_left]. apply IH.
  destruct c; [done| |done]. by apply responseCapture_Write_keeps.
Qed.

Lemma retained_metadata_never_lost_witness :
  is_Some (lastMetadata
             (serveCapture
                {| rcWriter := newRecorder; body := bytes "data: [DONE]";
                   isStreaming := true;
                   provider := Some (sentinelProvider "openai" scenarioMetadata);
                   lastMetadata := Some scenarioMetadata; lastParsedPos := 12 |}
                [CallWrite (bytes "garbage")])).
Proof. apply retained_metadata_never_lost. by eexists. Defined.

Lemma keepLatest_origin (p : Provider) (writes : list (list Byte.byte))
    (buffer : list Byte.byte) (init : option LLMResponseMetadata)
    (m : LLMResponseMetadata) :
  fold_left keepLatest (map (parsedOnWrite p) (cumulative buffer writes)) init = Some m ->
  init = Some m \/
  exists k : nat,
    (0 < k <= length writes)%nat /\
    ParseResponseMetadata p (buffer ++ concat (take k writes)) true = (Some m, None).
Proof.
  revert buffer init. induction writes as [|b writes IH]; intros buffer init H.
  - by left.
  - cbn [cumulative map fold_left] in H. apply IH in H as [H|(k & Hk & H)].
    + unfold keepLatest in H.
      destruct (parsedOnWrite p (b, buffer ++ b)) as [m'|] eqn:E; [|by left].
      right. exists 1%nat. split; [simpl; lia|].
      injection H as ->. cbn [take concat]. rewrite app_nil_r.
      unfold parsedOnWrite, parsedStreaming in E. destruct b; [done|].
      destruct (ParseResponseMetadata p _ true) as [[m'|] [e|]]; congruence.
    + right. exists (S k). split; [simpl; lia|].
      cbn [take concat]. by rewrite app_assoc.
Qed.

(** X12: metadata retained by the capture is never made up: it is the
    result of a successful streaming parse of the bytes of the first [k]
    writes of the handler, for some [k], on a streaming request with a
    resolved provider. *)
Theorem retained_metadata_is_a_parse (pm : ProviderManager) (next : Handler)
    (w : ResponseWriter) (r : Request) (m : LLMResponseMetadata) :
  lastMetadata (captured pm next w r) = Some m ->
  exists (p : Provider) (k : nat),
    GetProviderFromRequest pm r = Some p /\
    IsStreamingRequest pm r = true /\
    (0 < k <= length (writesOf (next r)))%nat /\
    ParseResponseMetadata p (concat (take k (writesOf (next r)))) true = (Some m, None).
Proof.
  destruct (captured_state pm next w r) as (_ & _ & ->).
  destruct (GetProviderFromRequest pm r) as [p|]; [|done].
  destruct (IsStreamingRequest pm r); [|done].
  intros H. apply keepLatest_origin in H as [H|(k & Hk & H)]; [done|].
  exists p, k. split; [done|]. split; [done|]. split; [exact Hk|exact H].
Qed.

Lemma retained_metadata_is_a_parse_witness :
  exists k : nat,
    ParseResponseMetadata (sentinelProvider "anthropic" scenarioMetadata)
      (concat (take k (writesOf
                 (streamTwoFrames (newRequest "POST" "/anthropic/v1/messages" ∅)))))
      true
    = (Some scenarioMetadata, None).
Proof.
  destruct (retained_metadata_is_a_parse
              (managerOf (sentinelProvider "anthropic" scenarioMetadata) true)
              streamTwoFrames newRecorder
              (newRequest "POST" "/anthropic/v1/messages" ∅) scenarioMetadata)
    as (p & k & Hp & _ & _ & Hparse); [vm_compute; reflexivity|].
  exists k. vm_compute in Hp. injection Hp as <-. exact Hparse.
Defined.

(** ** Cost tracking *)

Lemma ExtractUserIDFromRequest_nonempty (req : Request) (provider : option Provider) :
  ExtractUserIDFromRequest req provider <> "".
Proof.
  rewrite identity_first_nonempty.
  apply first_nonempty_app_nonempty, append_nonempty.
Qed.

(** X13: a usage record handed to the cost tracker always carries a
    non-empty user id, which is the resolved identity of the request, the
    request's IP address and path, and as its metadata what the middleware
    obtained without error from the captured response of a request with a
    resolved provider. *)
Theorem usage_record_carries_identity (costTracking : bool) (pm : ProviderManager)
    (next : Handler) (w : ResponseWriter) (r : Request)
    (tracker : list TrackedRequest) :
  exists new : list TrackedRequest,
    snd (TokenParsingMiddleware pm (serverCallbacks costTracking pm) next w r tracker)
    = tracker ++ new /\
    forall rec, rec ∈ new ->
      trUserID rec <> "" /\
      trUserID rec = ExtractUserIDFromRequest r (GetProviderFromRequest pm r) /\
      trIPAddress rec = ExtractIPAddressFromRequest r /\
      trRequestPath rec = URLPath r /\
      exists p : Provider,
        GetProviderFromRequest pm r = Some p /\
        finalMetadata (IsStreamingRequest pm r) (captured pm next w r) p
        = (Some (trMetadata rec), None).
Proof.
  unfold TokenParsingMiddleware. cbv zeta.
  assert (forall t : list TrackedRequest, exists new : list TrackedRequest,
            t = t ++ new /\ forall rec, rec ∈ new -> False) as Hnone
    by (intros t; exists []; rewrite app_nil_r; split; [done|];
        intros rec Hin; by apply elem_of_nil in Hin).
  destruct (GetProviderFromRequest pm r) as [p|] eqn:Hp;
    [|destruct (Hnone tracker) as (new & Heq & Hno); exists new;
      split; [exact Heq|intros rec Hin; destruct (Hno rec Hin)]].
  destruct (isAPIEndpoint (URLPath r));
    [|destruct (Hnone tracker) as (new & Heq & Hno); exists new;
      split; [exact Heq|intros rec Hin; destruct (Hno rec Hin)]].
  fold (captured pm next w r).
  destruct (finalMetadata _ _ p) as [[m|] [e|]] eqn:Hfinal;
    try (destruct (Hnone tracker) as (new & Heq & Hno); exists new;
         split; [exact Heq|intros rec Hin; destruct (Hno rec Hin)]).
  destruct costTracking; cbn [serverCallbacks runCallbacks fold_left fst snd];
    [|destruct (Hnone tracker) as (new & Heq & Hno); exists new;
      split; [exact Heq|intros rec Hin; destruct (Hno rec Hin)]].
  rewrite costTrackingCallback_records. eexists. split; [reflexivity|].
  intros rec Hin. destruct (0 <? TotalTokens m); [|by apply elem_of_nil in Hin].
  apply list_elem_of_singleton in Hin. subst rec. cbn [trUserID trIPAddress
    trRequestPath trMetadata].
  rewrite Hp. split; [apply ExtractUserIDFromRequest_nonempty|].
  do 3 (split; [reflexivity|]).
  exists p. split; [reflexivity|exact Hfinal].
Qed.

Lemma usage_record_carries_identity_witness :
  exists rec,
    snd (TokenParsingMiddleware
           (managerOf (mockProvider "openai" scenarioMetadata) false)
           (serverCallbacks true
              (managerOf (mockProvider "openai" scenarioMetadata) false))
           (respond "completion") newRecorder
           (newRequest "POST" "/openai/v1/chat/completions" ∅) [])
    = [rec] /\
    trUserID rec = "ip:192.0.2.1:1234" /\
    trRequestPath rec = "/openai/v1/chat/completions".
Proof.
  destruct (usage_record_carries_identity true
              (managerOf (mockProvider "openai" scenarioMetadata) false)
              (respond "completion") newRecorder
              (newRequest "POST" "/openai/v1/chat/completions" ∅) [])
    as (new & Heq & Hrec).
  rewrite Heq. cbn [app].
  assert (new = [mkTracked scenarioMetadata "ip:192.0.2.1:1234" "192.0.2.1:1234"
                   "/openai/v1/chat/completions"]) as ->
    by (cbn [app] in Heq; rewrite <- Heq; vm_compute; reflexivity).
  eexists. split; [reflexivity|].
  destruct (Hrec _ (list_elem_of_here _ _)) as (_ & Hid & _ & Hpath & _).
  split; [rewrite Hid; vm_compute; reflexivity|exact Hpath].
Defined.

(** ** Groq adapter *)

Lemma HasPrefix_slash (s : string) :
  strings.HasPrefix s "/" = true -> exists rest, s = String "/" rest.
Proof.
  intros H. apply HasPrefix_split in H. simpl String.length in H.
  rewrite append_String, append_empty_l in H. eauto.
Qed.

(** X14: the Groq director changes nothing of the request the base director
    produced but the path; when that path is rooted (begins with a slash) the
    result begins with [/openai/], so that passing the result through the
    director's own step again changes nothing. *)
Theorem groq_director_changes_only_the_path (baseDirector : Request -> Request)
    (req : Request) :
  Method (Groq.Director baseDirector req) = Method (baseDirector req) /\
  URLScheme (Groq.Director baseDirector req) = URLScheme (baseDirector req) /\
  URLHost (Groq.Director baseDirector req) = URLHost (baseDirector req) /\
  Host (Groq.Director baseDirector req) = Host (baseDirector req) /\
  URLQuery (Groq.Director baseDirector req) = URLQuery (baseDirector req) /\
  ReqHeader (Groq.Director baseDirector req) = ReqHeader (baseDirector req) /\
  RemoteAddr (Groq.Director baseDirector req) = RemoteAddr (baseDirector req) /\
  ctxUserID (Groq.Director baseDirector req) = ctxUserID (baseDirector req) /\
  (strings.HasPrefix (URLPath (baseDirector req)) "/" = true ->
   strings.HasPrefix (URLPath (Groq.Director baseDirector req)) "/openai/" = true /\
   Groq.Director (fun r => r) (Groq.Director baseDirector req)
   = Groq.Director baseDirector req).
Proof.
  unfold Groq.Director at 1 2 3 4 5 6 7 8. cbv zeta.
  do 8 (split; [by destruct (negb _)|]).
  intros Hroot.
  assert (strings.HasPrefix (URLPath (Groq.Director baseDirector req)) "/openai/" = true)
    as Hpre.
  { rewrite Director_path.
    destruct (strings.HasPrefix (URLPath (baseDirector req)) "/openai/") eqn:E; [done|].
    apply HasPrefix_slash in Hroot as [rest ->].
    change ("/openai" +:+ String "/" rest) with ("/openai/" +:+ rest).
    apply HasPrefix_app. }
  split; [exact Hpre|].
  unfold Groq.Director at 1. cbv zeta. by rewrite Hpre.
Qed.

Lemma groq_director_changes_only_the_path_witness :
  strings.HasPrefix
    (URLPath (Groq.proxyDirector (newRequest "GET" "/groq/openai/v1/models" ∅)))
    "/openai/" = true.
Proof.
  apply (groq_director_changes_only_the_path
           (Groq.CreateGenericDirector Groq.GetName Groq.groqBaseURLScheme
              Groq.groqBaseURLHost)
           (newRequest "GET" "/groq/openai/v1/models" ∅)).
  vm_compute. reflexivity.
Defined.

(** X15: Groq key validation never touches anything of the request but the
    [Authorization] header, and a header it rewrites still carries the
    Bearer scheme. *)
Theorem groq_validation_touches_only_authorization (req : Request)
    (keyStore : Groq.APIKeyStore) :
  let req' := fst (Groq.ValidateAPIKey req keyStore) in
  Method req' = Method req /\ URLScheme req' = URLScheme req /\
  URLHost req' = URLHost req /\ Host req' = Host req /\
  URLPath req' = URLPath req /\ URLQuery req' = URLQuery req /\
  RemoteAddr req' = RemoteAddr req /\ ctxUserID req' = ctxUserID req /\
  (forall key, key <> "Authorization" -> ReqHeader req' !! key = ReqHeader req !! key) /\
  strings.HasPrefix (Header.Get (ReqHeader req') "Authorization") "Bearer "
  = strings.HasPrefix (Header.Get (ReqHeader req) "Authorization") "Bearer ".
Proof.
  cbv zeta. unfold Groq.ValidateAPIKey. cbv zeta.
  destruct (String.eqb _ ""); [by repeat split|].
  destruct (strings.HasPrefix _ "Bearer ") eqn:Hb; cbn [negb]; [|by repeat split].
  destruct (keyStore _) as [[actualKey provider] [e|]]; [by repeat split|].
  destruct (negb (String.eqb provider "") && _); [by repeat split|].
  destruct (negb (String.eqb actualKey _)); [|by repeat split].
  cbn [fst Groq.withHeader Method URLScheme URLHost Host URLPath URLQuery
         RemoteAddr ctxUserID ReqHeader].
  do 8 (split; [reflexivity|]). split.
  - intros key Hkey. unfold Header.Set_. by rewrite lookup_insert_ne.
  - unfold Header.Get, Header.Set_. rewrite lookup_insert_eq.
    apply (HasPrefix_app "Bearer ").
Qed.

(** X16: after a successful key translation the identity that the later
    middlewares derive from the [Authorization] header is [token:] followed
    by the first 8 bytes of the actual upstream key, not of the key the
    client presented. *)
Theorem translated_key_becomes_identity (req : Request) (keyStore : Groq.APIKeyStore)
    (provider : option Provider) :
  let auth := Header.Get (ReqHeader req) "Authorization" in
  let actualKey := fst (fst (keyStore (strings.drop 7 auth))) in
  let req' := fst (Groq.ValidateAPIKey req keyStore) in
  strings.HasPrefix auth "Bearer " = true ->
  snd (Groq.ValidateAPIKey req keyStore) = None ->
  actualKey <> strings.drop 7 auth ->
  first_nonempty (take 5 (identityCandidates req' provider)) = "" ->
  ExtractUserIDFromRequest req' provider = "token:" +:+ strings.take 8 actualKey.
Proof.
  cbv zeta. intros Hb Hok Hne Hearlier.
  rewrite identity_first_nonempty.
  change (identityCandidates (Groq.ValidateAPIKey req keyStore).1 provider)
    with (take 5 (identityCandidates (Groq.ValidateAPIKey req keyStore).1 provider)
          ++ [bearerIdentity (Groq.ValidateAPIKey req keyStore).1]).
  rewrite <- app_assoc, first_nonempty_app by done. clear Hearlier.
  assert (Header.Get (ReqHeader (Groq.ValidateAPIKey req keyStore).1) "Authorization"
          = "Bearer " +:+ (keyStore (strings.drop 7
                             (Header.Get (ReqHeader req) "Authorization"))).1.1) as Hget.
  { revert Hok Hne. unfold Groq.ValidateAPIKey. cbv zeta.
    destruct (String.eqb _ "") eqn:E0;
      [apply String.eqb_eq in E0; rewrite E0 in Hb; discriminate|].
    rewrite Hb. cbn [negb]. unfold strings.TrimPrefix. rewrite Hb.
    simpl String.length.
    destruct (keyStore _) as [[actualKey prov] [e|]]; cbn [fst snd]; [done|].
    destruct (negb (String.eqb prov "") && _); [done|].
    destruct (String.eqb actualKey _) eqn:E2; cbn [negb fst snd].
    - apply String.eqb_eq in E2. done.
    - intros _ _. unfold Groq.withHeader, Header.Get, Header.Set_. cbn.
      by rewrite lookup_insert_eq. }
  unfold bearerIdentity. rewrite Hget, (HasPrefix_app "Bearer ").
  change (strings.drop 7 ("Bearer " +:+ ?k)) with k. cbn [app first_nonempty].
  by rewrite eqb_empty_append.
Qed.

Lemma translated_key_becomes_identity_witness :
  ExtractUserIDFromRequest
    (fst (Groq.ValidateAPIKey
            (newRequest "POST" "/groq/v1/chat/completions"
               {[ "Authorization" := ["Bearer iw:abcd1234"] ]})
            (translatingKeyStore "groq")))
    None
  = "token:gsk-actu".
Proof.
  rewrite (translated_key_becomes_identity
             (newRequest "POST" "/groq/v1/chat/completions"
                {[ "Authorization" := ["Bearer iw:abcd1234"] ]})
             (translatingKeyStore "groq") None);
    [vm_compute; reflexivity|vm_compute; reflexivity|vm_compute; reflexivity
    |vm_compute; discriminate|vm_compute; reflexivity].
Defined.

Lemma groq_validation_touches_only_authorization_witness :
  Header.Get
    (ReqHeader
       (fst (Groq.ValidateAPIKey
               (newRequest "POST" "/groq/v1/chat/completions"
                  {[ "Authorization" := ["Bearer iw:abcd1234"];
                     "X-User-ID" := ["user123"] ]})
               (translatingKeyStore "groq"))))
    "X-User-ID"
  = "user123".
Proof.
  destruct (groq_validation_touches_only_authorization
              (newRequest "POST" "/groq/v1/chat/completions"
                 {[ "Authorization" := ["Bearer iw:abcd1234"];
                    "X-User-ID" := ["user123"] ]})
              (translatingKeyStore "groq"))
    as (_ & _ & _ & _ & _ & _ & _ & _ & Hother & _).
  unfold Header.Get. rewrite Hother by discriminate. vm_compute. reflexivity.
Defined.

Lemma Groq_parse_provider
    (parser : list Byte.byte -> bool -> option LLMResponseMetadata * option error)
    (responseBody : list Byte.byte) (isStreaming : bool) (m : LLMResponseMetadata) :
  fst (Groq.ParseResponseMetadata parser responseBody isStreaming) = Some m ->
  Provider_ m = "groq" /\
  exists m0, fst (parser responseBody isStreaming) = Some m0 /\
    Model m = Model m0 /\ InputTokens m = InputTokens m0 /\
    OutputTokens m = OutputTokens m0 /\ TotalTokens m = TotalTokens m0 /\
    ThoughtTokens m = ThoughtTokens m0 /\ RequestID m = RequestID m0 /\
    IsStreaming m = IsStreaming m0 /\ FinishReason m = FinishReason m0.
Proof.
  unfold Groq.ParseResponseMetadata.
  destruct (parser responseBody isStreaming) as [[m0|] err]; cbn; [|done].
  intros [= <-]. split; [done|]. exists m0. by repeat split.
Qed.

(** X17: the Groq parser is the OpenAI parser with the provider name
    replaced: the error is the OpenAI parser's, metadata is returned exactly
    when the OpenAI parser returns some, it names [groq] as provider, and
    every other field is the OpenAI parser's. *)
Theorem groq_parser_renames_provider
    (parser : list Byte.byte -> bool -> option LLMResponseMetadata * option error)
    (responseBody : list Byte.byte) (isStreaming : bool) :
  snd (Groq.ParseResponseMetadata parser responseBody isStreaming)
  = snd (parser responseBody isStreaming) /\
  (fst (Groq.ParseResponseMetadata parser responseBody isStreaming) = None <->
   fst (parser responseBody isStreaming) = None) /\
  forall m, fst (Groq.ParseResponseMetadata parser responseBody isStreaming) = Some m ->
    Provider_ m = "groq" /\
    exists m0, fst (parser responseBody isStreaming) = Some m0 /\
      Model m = Model m0 /\ InputTokens m = InputTokens m0 /\
      OutputTokens m = OutputTokens m0 /\ TotalTokens m = TotalTokens m0 /\
      ThoughtTokens m = ThoughtTokens m0 /\ RequestID m = RequestID m0 /\
      IsStreaming m = IsStreaming m0 /\ FinishReason m = FinishReason m0.
Proof.
  split; [|split].
  - unfold Groq.ParseResponseMetadata.
    by destruct (parser responseBody isStreaming) as [[m0|] err].
  - unfold Groq.ParseResponseMetadata.
    by destruct (parser responseBody isStreaming) as [[m0|] err].
  - apply Groq_parse_provider.
Qed.

Lemma groq_parser_renames_provider_witness :
  Provider_ <$> fst (Groq.ParseResponseMetadata
                       (fun _ _ => (Some scenarioMetadata, None)) (bytes "{}") false)
  = Some "groq".
Proof.
  destruct (groq_parser_renames_provider
              (fun _ _ => (Some scenarioMetadata, None)) (bytes "{}") false)
    as (_ & _ & Hname).
  destruct (Groq.ParseResponseMetadata _ _ _) as [[m|] err] eqn:E;
    [|vm_compute in E; discriminate].
  cbn. f_equal. by apply Hname.
Defined.

(** Metadata the middleware works with is an output of the provider's
    parser. *)
Lemma finalMetadata_origin (pm : ProviderManager) (next : Handler)
    (w : ResponseWriter) (r : Request) (p : Provider)
    (m : LLMResponseMetadata) (err : option error) :
  GetProviderFromRequest pm r = Some p ->
  finalMetadata (IsStreamingRequest pm r) (captured pm next w r) p = (Some m, err) ->
  exists buffer streaming, fst (ParseResponseMetadata p buffer streaming) = Some m.
Proof.
  intros Hp. rewrite (finalMetadata_captured pm next w r p Hp).
  destruct (IsStreamingRequest pm r).
  - destruct (retainedMetadata p _) as [m'|] eqn:E.
    + intros [= -> _]. apply keepLatest_origin in E as [E|(k & _ & E)]; [done|].
      eexists _, true. by rewrite E.
    + intros E'. eexists _, true. by rewrite E'.
  - intros E'. eexists _, false. by rewrite E'.
Qed.

(** X18: on a tracked request served by the Groq adapter, whatever the
    OpenAI parser puts into the provider field, the metadata the middleware
    hands to the callbacks names [groq] as its provider, also when it was
    retained during a stream. *)
Theorem groq_requests_are_metered_as_groq {World : Type} (pm : ProviderManager)
    (callbacks : list (option (MetadataCallback World))) (next : Handler)
    (w : ResponseWriter) (r : Request) (world : World) (env : BodyReader)
    (parser : list Byte.byte -> bool -> option LLMResponseMetadata * option error)
    (m : LLMResponseMetadata) :
  GetProviderFromRequest pm r = Some (Groq.asProvider env parser) ->
  isAPIEndpoint (URLPath r) = true ->
  finalMetadata (IsStreamingRequest pm r) (captured pm next w r)
    (Groq.asProvider env parser) = (Some m, None) ->
  Provider_ m = "groq" /\
  snd (TokenParsingMiddleware pm callbacks next w r world)
  = runCallbacks callbacks r m world.
Proof.
  intros Hp Hapi Hm.
  assert (Provider_ m = "groq") as Hname.
  { destruct (finalMetadata_origin pm next w r _ m None Hp Hm)
      as (buffer & streaming & Hparse).
    by apply (Groq_parse_provider parser buffer streaming). }
  by rewrite (TokenParsingMiddleware_parsed pm callbacks next w r world _ m Hp Hapi Hm).
Qed.

Lemma groq_requests_are_metered_as_groq_witness :
  Provider_ <$> snd (TokenParsingMiddleware
                       (managerOf (Groq.asProvider noBody openAIParserStub) false)
                       [Some recordingCallback] (respond "completion") newRecorder
                       (newRequest "POST" "/groq/v1/chat/completions" ∅) [])
  = ["groq"] /\
  Provider_ <$> snd (TokenParsingMiddleware
                       (managerOf (Groq.asProvider noBody openAIParserStub) true)
                       [Some recordingCallback] streamTwoFrames newRecorder
                       (newRequest "POST" "/groq/v1/chat/completions" ∅) [])
  = ["groq"].
Proof.
  split.
  - rewrite (proj2 (groq_requests_are_metered_as_groq
           (managerOf (Groq.asProvider noBody openAIParserStub) false)
           [Some recordingCallback] (respond "completion") newRecorder
           (newRequest "POST" "/groq/v1/chat/completions" ∅) []
           noBody openAIParserStub
           {| Model := "gpt-4o-mini"; InputTokens := 7; OutputTokens := 5;
              TotalTokens := 12; ThoughtTokens := 0; Provider_ := "groq";
              RequestID := "chatcmpl-1"; IsStreaming := false;
              FinishReason := "stop" |}
           ltac:(vm_compute; reflexivity) ltac:(vm_compute; reflexivity)
           ltac:(vm_compute; reflexivity))).
    vm_compute. reflexivity.
  - rewrite (proj2 (groq_requests_are_metered_as_groq
           (managerOf (Groq.asProvider noBody openAIParserStub) true)
           [Some recordingCallback] streamTwoFrames newRecorder
           (newRequest "POST" "/groq/v1/chat/completions" ∅) []
           noBody openAIParserStub
           {| Model := "gpt-4o-mini"; InputTokens := 7; OutputTokens := 5;
              TotalTokens := 12; ThoughtTokens := 0; Provider_ := "groq";
              RequestID := "chatcmpl-1"; IsStreaming := false;
              FinishReason := "stop" |}
           ltac:(vm_compute; reflexivity) ltac:(vm_compute; reflexivity)
           ltac:(vm_compute; reflexivity))).
    vm_compute. reflexivity.
Defined.

Lemma lookup_ModifyResponse_other (header : gmap string (list string)) (key : string) :
  key ∉ ["Cache-Control"; "Connection"; "X-Accel-Buffering"; "Content-Length"] ->
  Groq.ModifyResponse header !! key = header !! key.
Proof.
  rewrite !not_elem_of_cons. intros (H1 & H2 & H3 & H4 & _).
  unfold Groq.ModifyResponse, Header.Set_.
  destruct (Groq.isStreamingResponse header); [|done].
  by rewrite lookup_delete_ne, !lookup_insert_ne.
Qed.

(** X19: the Groq response modifier leaves a non-streaming response
    untouched; on a streaming response ([Content-Type] holding
    [text/event-stream]) it removes [Content-Length], sets [Cache-Control],
    [Connection] and [X-Accel-Buffering], and keeps every other header.
    The response stays streaming, and modifying it a second time changes
    nothing. *)
Theorem groq_response_modifier (header : gmap string (list string)) :
  (Groq.isStreamingResponse header = false -> Groq.ModifyResponse header = header) /\
  (Groq.isStreamingResponse header = true ->
   Groq.ModifyResponse header !! "Content-Length" = None /\
   Header.Get (Groq.ModifyResponse header) "Cache-Control" = "no-cache" /\
   Header.Get (Groq.ModifyResponse header) "Connection" = "keep-alive" /\
   Header.Get (Groq.ModifyResponse header) "X-Accel-Buffering" = "no") /\
  (forall key,
     key ∉ ["Cache-Control"; "Connection"; "X-Accel-Buffering"; "Content-Length"] ->
     Groq.ModifyResponse header !! key = header !! key) /\
  Groq.isStreamingResponse (Groq.ModifyResponse header)
  = Groq.isStreamingResponse header /\
  Groq.ModifyResponse (Groq.ModifyResponse header) = Groq.ModifyResponse header.
Proof.
  assert (Groq.isStreamingResponse (Groq.ModifyResponse header)
          = Groq.isStreamingResponse header) as Hstream.
  { unfold Groq.isStreamingResponse, Header.Get.
    rewrite lookup_ModifyResponse_other; [done|].
    rewrite !not_elem_of_cons. repeat split; try discriminate. apply not_elem_of_nil. }
  split; [|split; [|split; [|split]]].
  - intros H. unfold Groq.ModifyResponse. by rewrite H.
  - intros H. unfold Groq.ModifyResponse, Header.Get, Header.Set_. rewrite H.
    split; [apply lookup_delete_eq|].
    repeat split; rewrite lookup_delete_ne by discriminate;
      repeat first [by rewrite lookup_insert_eq
                   |rewrite lookup_insert_ne by discriminate].
  - apply lookup_ModifyResponse_other.
  - exact Hstream.
  - unfold Groq.ModifyResponse at 1. rewrite Hstream.
    unfold Groq.ModifyResponse, Header.Set_.
    destruct (Groq.isStreamingResponse header); [|done].
    apply map_eq. intros key.
    rewrite !lookup_delete, !lookup_insert, !lookup_delete, !lookup_insert.
    repeat case_decide; subst; try done.
Qed.

Lemma groq_response_modifier_witness :
  Groq.ModifyResponse {[ "Content-Type" := ["text/event-stream; charset=utf-8"];
                         "Content-Length" := ["1024"] ]}
  !! "Content-Length" = None.
Proof.
  apply (groq_response_modifier
           {[ "Content-Type" := ["text/event-stream; charset=utf-8"];
              "Content-Length" := ["1024"] ]}).
  vm_compute. reflexivity.
Defined.

Lemma WriteHeader_facts (w : ResponseWriter) (statusCode : Z) :
  Body (WriteHeader w statusCode) = Body w /\
  HeaderMap (WriteHeader w statusCode) = HeaderMap w /\
  wroteHeader (WriteHeader w statusCode) = true /\
  Code (WriteHeader w statusCode) = (if wroteHeader w then Code w else statusCode).
Proof. unfold WriteHeader. by destruct (wroteHeader w) eqn:E. Qed.

Lemma Write_facts (w : ResponseWriter) (b : list Byte.byte) :
  Body (fst (Write w b)) = Body w ++ b /\
  HeaderMap (fst (Write w b)) = HeaderMap w /\
  wroteHeader (fst (Write w b)) = true /\
  Code (fst (Write w b)) = (if wroteHeader w then Code w else 200).
Proof.
  unfold Write. cbv zeta. cbn [fst Body HeaderMap wroteHeader Code].
  destruct (WriteHeader_facts w 200) as (-> & -> & -> & ->). done.
Qed.

(** X20: the Groq error handler answers a transport error with status 502
    when nothing has been sent yet: a plain body [Groq proxy error: ...] for
    a non-streaming request; for a streaming request without
    [Content-Type] an event stream of one error frame and the [[DONE]]
    frame.  On a streaming request whose [Content-Type] is already set it
    leaves the response alone, and a status that has been sent is never
    changed. *)
Theorem groq_error_handler (checkStreamingInBody : Request -> bool)
    (w : ResponseWriter) (r : Request) (err : error) :
  let w' := Groq.ErrorHandler checkStreamingInBody w r err in
  (Groq.IsStreamingRequest checkStreamingInBody r = false ->
   Body w' = Body w ++ String.list_byte_of_string ("Groq proxy error: " +:+ err) /\
   HeaderMap w' = HeaderMap w /\
   (wroteHeader w = false -> Code w' = 502)) /\
  (Groq.IsStreamingRequest checkStreamingInBody r = true ->
   Header.Get (HeaderMap w) "Content-Type" = "" ->
   Header.Get (HeaderMap w') "Content-Type" = "text/event-stream" /\
   (exists frame,
      Body w' = Body w ++ frame
                ++ String.list_byte_of_string ("data: [DONE]" +:+ Groq.LF +:+ Groq.LF)) /\
   (wroteHeader w = false -> Code w' = 502)) /\
  (Groq.IsStreamingRequest checkStreamingInBody r = true ->
   Header.Get (HeaderMap w) "Content-Type" <> "" -> w' = w) /\
  (wroteHeader w = true -> Code w' = Code w).
Proof.
  cbv zeta. unfold Groq.ErrorHandler. cbv zeta.
  destruct (Groq.IsStreamingRequest checkStreamingInBody r).
  - split; [done|].
    destruct (String.eqb (Header.Get (HeaderMap w) "Content-Type") "") eqn:E.
    + apply String.eqb_eq in E.
      split; [|split; [intros _ Hne; by destruct Hne|]].
      * intros _ _.
        repeat match goal with
               | |- context [fst (Write ?x ?b)] =>
                   destruct (Write_facts x b) as (-> & -> & ? & ->)
               | |- context [WriteHeader ?x ?c] =>
                   destruct (WriteHeader_facts x c) as (-> & -> & -> & ->)
               end.
        split; [|split].
        -- rewrite Get_HeaderSet_ne by discriminate. apply Get_HeaderSet_eq.
        -- eexists. unfold HeaderSet. cbn [Body]. rewrite <- app_assoc. reflexivity.
        -- intros Hw.
           repeat match goal with
                  | Hx : wroteHeader (fst (Write _ _)) = true |- _ => try rewrite Hx; clear Hx
                  end.
           cbn. by rewrite Hw.
      * intros Hw.
        repeat match goal with
               | |- context [fst (Write ?x ?b)] =>
                   destruct (Write_facts x b) as (_ & _ & ? & ->)
               | |- context [WriteHeader ?x ?c] =>
                   destruct (WriteHeader_facts x c) as (_ & _ & -> & ->)
               end.
        repeat match goal with
               | Hx : wroteHeader (fst (Write _ _)) = true |- _ => try rewrite Hx; clear Hx
               end.
        cbn. by rewrite Hw.
    + apply String.eqb_neq in E.
      split; [intros _ H; by destruct E|]. done.
  - split; [|split; [done|split; [done|]]].
    + intros _.
      destruct (Write_facts (WriteHeader w 502)
                  (String.list_byte_of_string ("Groq proxy error: " +:+ err)))
        as (-> & -> & _ & ->).
      destruct (WriteHeader_facts w 502) as (-> & -> & -> & ->).
      split; [done|]. split; [done|]. by intros ->.
    + intros Hw.
      destruct (Write_facts (WriteHeader w 502)
                  (String.list_byte_of_string ("Groq proxy error: " +:+ err)))
        as (_ & _ & _ & ->).
      destruct (WriteHeader_facts w 502) as (_ & _ & -> & ->). by rewrite Hw.
Qed.

Lemma groq_error_handler_witness :
  Code (Groq.ErrorHandler (fun _ => false) newRecorder
          (newRequest "GET" "/groq/v1/models" ∅) "dial tcp: timeout") = 502 /\
  Body (Groq.ErrorHandler (fun _ => false) newRecorder
          (newRequest "GET" "/groq/v1/models" ∅) "dial tcp: timeout")
  = bytes "Groq proxy error: dial tcp: timeout".
Proof.
  destruct (groq_error_handler (fun _ => false) newRecorder
              (newRequest "GET" "/groq/v1/models" ∅) "dial tcp: timeout")
    as [Hplain _].
  destruct Hplain as (Hbody & _ & Hcode); [vm_compute; reflexivity|].
  split; [by apply Hcode|]. rewrite Hbody. vm_compute. reflexivity.
Defined.

Lemma append_empty_r (s : string) : s +:+ "" = s.
Proof. induction s as [|a s IH]; [done|]. rewrite append_String. by f_equal. Qed.

Lemma HasPrefix_Contains (s sub : string) :
  strings.HasPrefix s sub = true -> strings.Contains s sub = true.
Proof. intros H. destruct s; cbn [strings.Contains]; by rewrite H. Qed.

(** [strings.Contains] finds [sub] exactly in the texts [pre ++ sub ++ post]. *)
Lemma Contains_spec (s sub : string) :
  strings.Contains s sub = true <-> exists pre post, s = pre +:+ sub +:+ post.
Proof.
  split.
  - induction s as [|c s IH]; cbn [strings.Contains].
    + rewrite orb_false_r. intros H. apply HasPrefix_split in H.
      by exists "", (strings.drop (String.length sub) "").
    + rewrite orb_true_iff. intros [H|H].
      * apply HasPrefix_split in H.
        by exists "", (strings.drop (String.length sub) (String c s)).
      * destruct (IH H) as (pre & post & ->).
        exists (String c pre), post. by rewrite append_String.
  - intros (pre & post & ->). induction pre as [|a pre IH].
    + rewrite append_empty_l. apply HasPrefix_Contains, HasPrefix_app.
    + rewrite append_String. cbn [strings.Contains]. rewrite IH.
      apply orb_true_r.
Qed.

Lemma Contains_surrounded (before s after_ sub : string) :
  strings.Contains s sub = true ->
  strings.Contains (before +:+ s +:+ after_) sub = true.
Proof.
  rewrite !Contains_spec. intros (pre & post & ->).
  exists (before +:+ pre), (post +:+ after_). by rewrite !append_assoc.
Qed.

(** A text that holds [a ++ b] holds [b]. *)
Lemma Contains_tail (s a b : string) :
  strings.Contains s (a +:+ b) = true -> strings.Contains s b = true.
Proof.
  rewrite !Contains_spec. intros (pre & post & ->).
  exists (pre +:+ a), post. by rewrite !append_assoc.
Qed.

(** X21: an [Accept] header that holds [text/event-stream] makes any
    request a streaming request for the Groq adapter; without it, a request
    is streaming only if it is a POST under [/groq/] whose path holds
    [/completions] or [/responses] and whose body asks for a stream. *)
Theorem groq_streaming_request (checkStreamingInBody : Request -> bool) (req : Request) :
  (strings.Contains (Header.Get (ReqHeader req) "Accept") "text/event-stream" = true ->
   Groq.IsStreamingRequest checkStreamingInBody req = true) /\
  (strings.Contains (Header.Get (ReqHeader req) "Accept") "text/event-stream" = false ->
   Groq.IsStreamingRequest checkStreamingInBody req = true ->
   Method req = "POST" /\
   strings.HasPrefix (URLPath req) "/groq/" = true /\
   (strings.Contains (URLPath req) "/completions" = true \/
    strings.Contains (URLPath req) "/responses" = true) /\
   checkStreamingInBody req = true).
Proof.
  unfold Groq.IsStreamingRequest.
  destruct (strings.Contains (Header.Get (ReqHeader req) "Accept") _); [done|].
  split; [done|]. intros _.
  destruct (strings.HasPrefix (URLPath req) "/groq/"); cbn [negb]; [|done].
  destruct (String.eqb (Method req) "POST") eqn:Em; cbn [andb]; [|done].
  apply String.eqb_eq in Em.
  destruct (strings.Contains (URLPath req) "/chat/completions") eqn:E1; cbn [orb].
  - intros Hc. repeat split; try done. left.
    by apply (Contains_tail _ "/chat" "/completions").
  - destruct (strings.Contains (URLPath req) "/completions") eqn:E2; cbn [orb].
    + intros Hc. repeat split; try done. by left.
    + destruct (strings.Contains (URLPath req) "/responses"); [|done].
      intros Hc. repeat split; try done. by right.
Qed.

Lemma groq_streaming_request_witness :
  Groq.IsStreamingRequest (fun _ => false)
    (newRequest "GET" "/groq/v1/models" {[ "Accept" := ["text/event-stream"] ]})
  = true.
Proof.
  apply (proj1 (groq_streaming_request (fun _ => false)
                  (newRequest "GET" "/groq/v1/models"
                     {[ "Accept" := ["text/event-stream"] ]}))).
  vm_compute. reflexivity.
Defined.

(** ** API endpoints *)

(** X22: the API endpoint test is decided by four of its five markers
    (every path that holds [/chat/completions] holds [/completions]), and a
    path that is an API endpoint stays one whatever is put before or after
    it, such as a [/meta/<user>] prefix. *)
Theorem api_endpoint_markers (path : string) :
  isAPIEndpoint path
  = (strings.Contains path "/completions" || strings.Contains path "/messages"
     || strings.Contains path ":generateContent"
     || strings.Contains path ":streamGenerateContent") /\
  forall before after_ : string,
    isAPIEndpoint path = true ->
    isAPIEndpoint (before +:+ path +:+ after_) = true.
Proof.
  split.
  - unfold isAPIEndpoint.
    destruct (strings.Contains path "/chat/completions") eqn:E; [|done].
    by rewrite (Contains_tail path "/chat" "/completions" E).
  - intros before after_. unfold isAPIEndpoint. rewrite !orb_true_iff.
    intros [[[[H|H]|H]|H]|H]; apply (Contains_surrounded before _ after_) in H;
      rewrite H; auto.
Qed.

Lemma api_endpoint_markers_witness :
  isAPIEndpoint ("/meta/url-user" +:+ "/openai/v1/chat/completions" +:+ "") = true.
Proof.
  apply (proj2 (api_endpoint_markers "/openai/v1/chat/completions")).
  vm_compute. reflexivity.
Defined.

(** ** Groq adapter: request bodies *)

Lemma textOfPart_nonempty (p : JSON) : Forall nonEmpty (Groq.textOfPart p).
Proof.
  unfold Groq.textOfPart.
  repeat (match goal with
          | |- Forall _ (match ?x with _ => _ end) => destruct x eqn:?
          | |- Forall _ (if ?x then _ else _) => destruct x eqn:?
          end; try by constructor).
  constructor; [|constructor].
  match goal with H : negb (String.eqb _ "") = true |- _ =>
    apply negb_true_iff, String.eqb_neq in H; exact H end.
Qed.

Lemma textOfInput_nonempty (it : JSON) : Forall nonEmpty (Groq.textOfInput it).
Proof.
  unfold Groq.textOfInput.
  repeat (match goal with
          | |- Forall _ (match ?x with _ => _ end) => destruct x eqn:?
          | |- Forall _ (if ?x then _ else _) => destruct x eqn:?
          end; try by constructor);
  (constructor; [|constructor]);
  match goal with H : negb (String.eqb _ "") = true |- _ =>
    apply negb_true_iff, String.eqb_neq in H; exact H end.
Qed.

Lemma Forall_flat_map_of {A : Type} (f : A -> list string) (l : list A) :
  (forall x, Forall nonEmpty (f x)) -> Forall nonEmpty (flat_map f l).
Proof.
  intros Hf. induction l as [|x l IH]; [constructor|].
  cbn [flat_map]. apply Forall_app. by split.
Qed.

Lemma textsOfMessage_nonempty (m : JSON) : Forall nonEmpty (Groq.textsOfMessage m).
Proof.
  unfold Groq.textsOfMessage.
  destruct m as [| | | |items|msg]; try by constructor.
  destruct (msg !! "content") as [[| | |contentStr|parts|]|]; try by constructor.
  - destruct (negb (String.eqb contentStr "")) eqn:E; [|constructor].
    apply negb_true_iff, String.eqb_neq in E. by repeat constructor.
  - apply Forall_flat_map_of, textOfPart_nonempty.
Qed.

(** X23: none of the message texts that the Groq adapter extracts from a
    request for token estimation is empty, whatever the request and its
    body. *)
Theorem extracted_messages_are_nonempty (env : BodyReader) (req : Request) :
  Forall (fun text => text <> "") (snd (Groq.ExtractRequestModelAndMessages env req)).
Proof.
  change (Forall nonEmpty (snd (Groq.ExtractRequestModelAndMessages env req))).
  unfold Groq.ExtractRequestModelAndMessages.
  destruct (negb _ || negb _); [constructor|].
  destruct (readRequestBodyForUserID env req) as [bodyBytes [e|]]; [constructor|].
  destruct (Z.of_nat (length bodyBytes) =? 0); [constructor|].
  destruct (jsonUnmarshal env bodyBytes) as [data|]; [|constructor].
  cbv zeta. cbn [snd app].
  assert (Forall nonEmpty
            match data !! "messages" with
            | Some (JArray rawMsgs) => flat_map Groq.textsOfMessage rawMsgs
            | _ => []
            end) as Hmsgs.
  { destruct (data !! "messages") as [[| | | |rawMsgs|]|]; try by constructor.
    apply Forall_flat_map_of, textsOfMessage_nonempty. }
  revert Hmsgs. generalize (match data !! "messages" with
                            | Some (JArray rawMsgs) =>
                                flat_map Groq.textsOfMessage rawMsgs
                            | _ => []
                            end).
  intros messages Hmsgs.
  assert (Forall nonEmpty
            match data !! "input" with
            | Some (JString inputStr) =>
                if negb (String.eqb inputStr "") then messages ++ [inputStr]
                else messages
            | Some (JArray inputArr) => messages ++ flat_map Groq.textOfInput inputArr
            | _ => messages
            end) as Hinput.
  { destruct (data !! "input") as [[| | |inputStr|inputArr|]|]; try done.
    - destruct (negb (String.eqb inputStr "")) eqn:E; [|done].
      apply negb_true_iff, String.eqb_neq in E.
      apply Forall_app. split; [done|]. by repeat constructor.
    - apply Forall_app. split; [done|].
      apply Forall_flat_map_of, textOfInput_nonempty. }
  revert Hinput. generalize (match data !! "input" with
                             | Some (JString inputStr) =>
                                 if negb (String.eqb inputStr "")
                                 then messages ++ [inputStr] else messages
                             | Some (JArray inputArr) =>
                                 messages ++ flat_map Groq.textOfInput inputArr
                             | _ => messages
                             end).
  intros messages' Hinput.
  destruct (data !! "prompt") as [[| | |prompt| |]|]; try done.
  destruct (negb (String.eqb prompt "")) eqn:E; [|done].
  apply negb_true_iff, String.eqb_neq in E.
  apply Forall_app. split; [done|]. by repeat constructor.
Qed.

(** X24: the Groq adapter looks into a request body only for a POST under
    [/groq/] whose body can be read, is not empty and decodes as a JSON
    object: in every other case it reports no user id, no model and no
    messages. *)
Theorem groq_body_inspection_guards (env : BodyReader) (req : Request) :
  Method req <> "POST" \/
  strings.HasPrefix (URLPath req) "/groq/" = false \/
  snd (readRequestBodyForUserID env req) <> None \/
  fst (readRequestBodyForUserID env req) = [] \/
  jsonUnmarshal env (fst (readRequestBodyForUserID env req)) = None ->
  Groq.UserIDFromRequest env req = "" /\
  Groq.ExtractRequestModelAndMessages env req = ("", []).
Proof.
  unfold Groq.UserIDFromRequest, Groq.ExtractRequestModelAndMessages.
  destruct (String.eqb (Method req) "POST") eqn:Em; cbn [negb orb];
    [|rewrite orb_true_r; done].
  apply String.eqb_eq in Em.
  destruct (strings.HasPrefix (URLPath req) "/groq/"); cbn [negb orb];
    [|by destruct (negb _ || false)].
  destruct (readRequestBodyForUserID env req) as [bodyBytes [e|]]; cbn [fst snd];
    [by destruct (negb _ || false)|].
  destruct bodyBytes as [|b bodyBytes]; [by destruct (negb _ || false)|].
  replace (Z.of_nat (length (b :: bodyBytes)) =? 0) with false
    by (symmetry; apply Z.eqb_neq; simpl length; lia).
  destruct (jsonUnmarshal env (b :: bodyBytes)) as [data|];
    [|by destruct (negb _ || false)].
  intros [H|[H|[H|[H|H]]]]; done.
Qed.

Lemma groq_body_inspection_guards_witness :
  Groq.ExtractRequestModelAndMessages (decodedBody chatBody)
    (newRequest "GET" "/groq/v1/chat/completions" ∅) = ("", []).
Proof.
  apply (groq_body_inspection_guards (decodedBody chatBody)
           (newRequest "GET" "/groq/v1/chat/completions" ∅)).
  left. discriminate.
Defined.

Lemma plain_messages_texts (msgs : list (gmap string JSON)) (contents : list string) :
  Forall2 (fun msg c => msg !! "content" = Some (JString c) /\ c <> "") msgs contents ->
  flat_map Groq.textsOfMessage (JObject <$> msgs) = contents.
Proof.
  induction 1 as [|msg c msgs contents [Hc Hne] _ IH]; [done|].
  cbn [fmap list_fmap flat_map]. fold (fmap (M := list) JObject msgs).
  rewrite IH. unfold Groq.textsOfMessage. rewrite Hc.
  apply String.eqb_neq in Hne. by rewrite Hne.
Qed.

(** X25: for a POST under [/groq/] whose body decodes to an object with a
    [messages] array of objects with non-empty string [content], and
    without [input] and [prompt] fields, the adapter returns the [model]
    field and exactly the contents, in the order of the messages. *)
Theorem plain_chat_messages_in_order (env : BodyReader) (req : Request)
    (bodyBytes : list Byte.byte) (data : gmap string JSON) (model : string)
    (msgs : list (gmap string JSON)) (contents : list string) :
  Method req = "POST" ->
  strings.HasPrefix (URLPath req) "/groq/" = true ->
  readRequestBodyForUserID env req = (bodyBytes, None) ->
  bodyBytes <> [] ->
  jsonUnmarshal env bodyBytes = Some data ->
  data !! "model" = Some (JString model) ->
  data !! "messages" = Some (JArray (JObject <$> msgs)) ->
  Forall2 (fun msg c => msg !! "content" = Some (JString c) /\ c <> "") msgs contents ->
  data !! "input" = None ->
  data !! "prompt" = None ->
  Groq.ExtractRequestModelAndMessages env req = (model, contents).
Proof.
  intros Hm Hp Hread Hne Hjson Hmodel Hmsgs Hcontents Hinput Hprompt.
  unfold Groq.ExtractRequestModelAndMessages.
  rewrite Hm, Hp, Hread. cbn [String.eqb negb orb].
  replace (String.eqb "POST" "POST") with true by reflexivity. cbn [negb orb].
  replace (Z.of_nat (length bodyBytes) =? 0) with false
    by (symmetry; apply Z.eqb_neq; destruct bodyBytes; [done|simpl length; lia]).
  rewrite Hjson. cbv zeta. rewrite Hmodel, Hmsgs, Hinput, Hprompt.
  cbn [app]. by rewrite (plain_messages_texts msgs contents).
Qed.

Lemma plain_chat_messages_in_order_witness :
  Groq.ExtractRequestModelAndMessages (decodedBody chatBody)
    (newRequest "POST" "/groq/v1/chat/completions" ∅)
  = ("llama-3.1-8b-instant", ["be brief"; "hi"]).
Proof.
  apply (plain_chat_messages_in_order (decodedBody chatBody)
           (newRequest "POST" "/groq/v1/chat/completions" ∅)
           (bytes "{...}") chatBody "llama-3.1-8b-instant"
           [ {[ "role" := JString "system"; "content" := JString "be brief" ]};
             {[ "role" := JString "user"; "content" := JString "hi" ]} ]
           ["be brief"; "hi"]);
    try (vm_compute; reflexivity); try discriminate.
  repeat constructor; try (vm_compute; reflexivity); discriminate.
Defined.

(** X26: for a POST under [/groq/] without context user id and without
    [X-User-ID] header, a non-empty string [user] field of the JSON body is
    the resolved identity, ahead of the [llm_user_id] query parameter, the
    bearer token and the IP address. *)
Theorem groq_body_user_is_the_identity (env : BodyReader)
    (parser : list Byte.byte -> bool -> option LLMResponseMetadata * option error)
    (req : Request) (bodyBytes : list Byte.byte) (data : gmap string JSON)
    (user : string) :
  default "" (ctxUserID req) = "" ->
  Header.Get (ReqHeader req) "X-User-ID" = "" ->
  Method req = "POST" ->
  strings.HasPrefix (URLPath req) "/groq/" = true ->
  bodyPresent env req = true ->
  readRequestBodyForUserID env req = (bodyBytes, None) ->
  bodyBytes <> [] ->
  jsonUnmarshal env bodyBytes = Some data ->
  data !! "user" = Some (JString user) ->
  user <> "" ->
  ExtractUserIDFromRequest req (Some (Groq.asProvider env parser)) = user.
Proof.
  intros Hctx Hhdr Hm Hp Hbody Hread Hne Hjson Huser Hnonempty.
  assert (Groq.UserIDFromRequest env req = user) as Hid.
  { unfold Groq.UserIDFromRequest. rewrite Hbody, Hm, Hp, Hread.
    replace (String.eqb "POST" "POST") with true by reflexivity. cbn [negb orb].
    replace (Z.of_nat (length bodyBytes) =? 0) with false
      by (symmetry; apply Z.eqb_neq; destruct bodyBytes; [done|simpl length; lia]).
    rewrite Hjson, Huser. apply String.eqb_neq in Hnonempty. by rewrite Hnonempty. }
  assert (metaUserSegment (URLPath req) = "") as Hseg.
  { unfold metaUserSegment.
    rewrite (provider_prefix_not_meta (URLPath req) "groq"); [done| |exact Hp].
    unfold providerNames. rewrite !elem_of_cons. auto. }
  rewrite identity_first_nonempty. unfold identityCandidates.
  cbn [app first_nonempty from_option Groq.asProvider UserIDFromRequest].
  rewrite Hctx, Hseg, Hhdr, Hid. cbn [String.eqb].
  apply String.eqb_neq in Hnonempty. by rewrite Hnonempty.
Qed.

Lemma groq_body_user_is_the_identity_witness :
  ExtractUserIDFromRequest
    (newRequest "POST" "/groq/v1/chat/completions"
       {[ "Authorization" := ["Bearer abc12345token"] ]})
    (Some (Groq.asProvider (decodedBody chatBody) openAIParserStub))
  = "body-user".
Proof.
  apply (groq_body_user_is_the_identity (decodedBody chatBody) openAIParserStub
           (newRequest "POST" "/groq/v1/chat/completions"
              {[ "Authorization" := ["Bearer abc12345token"] ]})
           (bytes "{...}") chatBody "body-user");
    try (vm_compute; reflexivity); discriminate.
Defined.

(** ** Debug preview *)

Lemma min_bounds (a b : Z) : min a b <= a /\ min a b <= b /\ (min a b = a \/ min a b = b).
Proof. unfold min. destruct (a <? b) eqn:E; [apply Z.ltb_lt in E|apply Z.ltb_ge in E]; lia. Qed.

Lemma slice_to_length (b : list Byte.byte) (n : Z) :
  0 <= n <= Z.of_nat (length b) -> Z.of_nat (length (slice_to b n)) = n.
Proof. intros H. unfold slice_to. rewrite length_firstn. lia. Qed.

Lemma hasGzipMagic_slice (b : list Byte.byte) (n : Z) :
  2 <= n -> hasGzipMagic (slice_to b n) = hasGzipMagic b.
Proof.
  intros H. unfold slice_to.
  destruct (Z.to_nat n) as [|[|k]] eqn:E; [lia|lia|].
  by destruct b as [|b0 [|b1 b]].
Qed.

Lemma hasGzipMagic_preview (b : list Byte.byte) :
  hasGzipMagic (slice_to b (min 200 (Z.of_nat (length b)))) = hasGzipMagic b.
Proof.
  destruct b as [|b0 [|b1 b]]; [done|done|].
  apply hasGzipMagic_slice. unfold min.
  destruct (200 <? _); [lia|simpl length; lia].
Qed.

(** X27: [decompressForPreview] returns either data or an error, never
    both and never neither: data that does not begin with the gzip magic
    number [1f 8b] is refused with [not gzip compressed] whatever the gzip
    reader would do, and decompressed data is returned only for data of at
    least two bytes beginning with the magic number. *)
Theorem decompressForPreview_result {Reader : Type}
    (NewReader : list Byte.byte -> Reader + error)
    (ReadAll : Reader -> list Byte.byte * option error) (data : list Byte.byte) :
  (hasGzipMagic data = false ->
   decompressForPreview NewReader ReadAll data = (None, Some "not gzip compressed")) /\
  (forall decompressed,
     fst (decompressForPreview NewReader ReadAll data) = Some decompressed ->
     snd (decompressForPreview NewReader ReadAll data) = None /\
     (2 <= length data)%nat /\ hasGzipMagic data = true) /\
  (fst (decompressForPreview NewReader ReadAll data) = None <->
   snd (decompressForPreview NewReader ReadAll data) <> None).
Proof.
  unfold decompressForPreview.
  destruct (hasGzipMagic data) eqn:Hmagic; cbn [negb].
  - assert (2 <= length data)%nat as Hlen
      by (destruct data as [|b0 [|b1 data]]; [done|done|simpl; lia]).
    split; [done|].
    destruct (NewReader data) as [gzipReader|err]; [|by repeat split].
    destruct (ReadAll gzipReader) as [decompressed [e|]]; by repeat split.
  - by repeat split.
Qed.

Lemma decompressForPreview_result_witness :
  decompressForPreview brokenGzip (fun _ => ([], None)) (bytes "plain text")
  = (None, Some "not gzip compressed").
Proof.
  apply (decompressForPreview_result brokenGzip (fun _ => ([], None))
           (bytes "plain text")).
  vm_compute. reflexivity.
Defined.

Lemma append_inj_l (pre s t : string) : pre +:+ s = pre +:+ t -> s = t.
Proof.
  induction pre as [|a pre IH]; [done|]. rewrite !append_String.
  intros [= H]. by apply IH.
Qed.

(** X28: what the middleware logs about a response it could not parse: for
    an empty body nothing; otherwise at most 200 bytes, which for a body
    without gzip magic number are the first bytes of the body itself.  The
    failure [not gzip compressed] of [decompressForPreview] never shows up
    in the log, since the middleware calls it only on bodies that carry the
    magic number. *)
Theorem response_preview_is_bounded {Reader : Type}
    (NewReader : list Byte.byte -> Reader + error)
    (ReadAll : Reader -> list Byte.byte * option error)
    (bodyBytes : list Byte.byte) :
  (bodyBytes = [] -> responsePreview NewReader ReadAll bodyBytes = None) /\
  (forall message shown,
     responsePreview NewReader ReadAll bodyBytes = Some (message, shown) ->
     (length shown <= 200)%nat /\
     message
     <> "Response body is gzip compressed (failed to decompress for preview): "
        +:+ "not gzip compressed" /\
     (hasGzipMagic bodyBytes = false ->
      message = "Response body preview" /\ shown = firstn 200 bodyBytes)).
Proof.
  unfold responsePreview. split; [by intros ->|].
  intros message shown.
  destruct (0 <? Z.of_nat (length bodyBytes)) eqn:Hlen; [|done].
  cbv zeta. rewrite hasGzipMagic_preview.
  assert (forall b : list Byte.byte,
            (length (slice_to b (min 200 (Z.of_nat (length b)))) <= 200)%nat) as Hbound.
  { intros b. unfold slice_to. rewrite length_firstn.
    destruct (min_bounds 200 (Z.of_nat (length b))) as (H1 & _ & _). lia. }
  destruct (hasGzipMagic bodyBytes) eqn:Hmagic.
  - unfold decompressForPreview. rewrite Hmagic. cbn [negb].
    destruct (NewReader bodyBytes) as [gzipReader|err].
    + destruct (ReadAll gzipReader) as [decompressed [e|]].
      * intros [= <- <-]. split; [simpl; lia|]. split; [|done].
        intros H. apply append_inj_l in H. discriminate.
      * intros [= <- <-]. split; [apply Hbound|]. split; [|done].
        intros H. discriminate.
    + intros [= <- <-]. split; [simpl; lia|]. split; [|done].
      intros H. apply append_inj_l in H. discriminate.
  - intros [= <- <-]. split; [apply Hbound|]. split; [discriminate|].
    intros _. split; [done|]. unfold slice_to, min.
    destruct (200 <? Z.of_nat (length bodyBytes)) eqn:E; [done|].
    apply Z.ltb_ge in E. rewrite Nat2Z.id, !firstn_all2 by lia. done.
Qed.

Lemma response_preview_is_bounded_witness :
  responsePreview brokenGzip (fun _ => ([], None)) (bytes "plain text")
  = Some ("Response body preview", bytes "plain text").
Proof.
  destruct (response_preview_is_bounded brokenGzip (fun _ => ([], None))
              (bytes "plain text")) as [_ Hshown].
  destruct (responsePreview _ _ _) as [[message shown]|] eqn:E;
    [|vm_compute in E; discriminate].
  destruct (Hshown message shown eq_refl) as (_ & _ & Hplain).
  destruct Hplain as [-> ->]; [vm_compute; reflexivity|].
  vm_compute. reflexivity.
Defined.
